(** * Rift Reunion: the comparison endpoint [routes/api/compare.ts]

    A shallow embedding of the route handler that compares two players'
    match histories, and the properties of its specification.

    The handler is asynchronous TypeScript over untyped JSON.  The embedding
    keeps three things explicit:

    - the values: whatever is declared [any] in the source (the request
      body, a match record) is a [Value], a JavaScript value as [JSON.parse]
      or an object literal builds it; what the source declares with a type
      ([RiotAccount], [string[]]) has that type here;
    - the effects: every [fetch], every [setTimeout] pause and the
      [console.error] of the handler are appended to a log, and the remote
      service is a state machine that answers one request at a time;
    - the failures: a [throw] (of the code or of the runtime) is an
      [Outcome], and the one unbounded loop runs on fuel. *)

From Stdlib Require Import String Ascii List ZArith QArith Qround Bool Lia.
From Stdlib Require Import DecimalString.
From Stdlib Require Import Permutation.
Import ListNotations.

Local Open Scope string_scope.
Local Open Scope Z_scope.

Set Warnings "-register-all".

(** ** Exceptions *)

Inductive Nullish := Undefined | Null.

(** What the JavaScript runtime itself throws.  The wording of the message
    belongs to the engine. *)
Inductive Fault :=
| ReadOfNullish (base : Nullish) (prop : string)
    (* reading [.prop] of [undefined] or [null] *)
| DestructureNullish (base : Nullish)
    (* [const { ... } = body] with a nullish [body] *)
| NotCallable (callee : string)
    (* calling [callee], written as in the source, which is no function *)
| NotPrimitive
    (* an object that cannot be converted to a string or number *)
| MalformedURI
    (* [encodeURIComponent] on an ill-formed string *)
| Rejected (detail : string).
    (* a promise of the platform rejected: [fetch], [response.json()] or
       [ctx.req.json()] *)

Inductive Exn :=
| Error (message : string)   (* [throw new Error(message)] of the source *)
| Native (f : Fault).

Inductive Outcome (A : Type) :=
| Return (a : A)
| Throw (e : Exn).
Arguments Return {A} a.
Arguments Throw {A} e.

Definition obind {A B} (o : Outcome A) (k : A -> Outcome B) : Outcome B :=
  match o with
  | Return a => k a
  | Throw e => Throw e
  end.

Declare Scope outcome_scope.
Delimit Scope outcome_scope with outcome.
Notation "'try!' x := c 'in' k" := (obind c (fun x => k))
  (at level 10, x name, c at level 100, k at level 200) : outcome_scope.
Local Open Scope outcome_scope.

(** ** The runtime

    Numbers are IEEE-754 doubles and their printing, the reading of a string
    as a number, percent-encoding and the text of the engine's own error
    messages are the runtime's, not this repository's: they are an
    interface. *)
Class Runtime := {
  number : Type;
  NaN : number;
  num_of_Z : Z -> number;                 (* an integer literal *)
  num_div : number -> number -> number;   (* [a / b] *)
  num_rem : number -> number -> number;   (* [a % b] *)
  Math_floor : number -> number;
  num_truthy : number -> bool;            (* neither zero nor NaN *)
  num_toString : number -> string;        (* a number in a template *)
  StringToNumber : string -> number;      (* a string used as a number *)
  encodeURIComponent : string -> option string;  (* [None]: URIError *)
  fault_message : Fault -> string
}.

Definition message `{Runtime} (e : Exn) : string :=
  match e with
  | Error m => m
  | Native f => fault_message f
  end.

(** [${z}] for an integer-valued number: the loop counters of the source. *)
Definition Z_toString (z : Z) : string := NilZero.string_of_int (Z.to_int z).

(** ** Values *)

Section Values.
Context `{Runtime}.

Inductive Value :=
| VUndefined
| VNull
| VBool (b : bool)
| VNum (n : number)
| VStr (s : string)
| VArr (items : list Value)
| VObj (props : list (string * Value)).
  (* own properties, in insertion order, each name once *)

Fixpoint own (k : string) (props : list (string * Value)) : Value :=
  match props with
  | [] => VUndefined
  | (k', v) :: rest => if String.eqb k k' then v else own k rest
  end.

Definition has_own (k : string) (props : list (string * Value)) : bool :=
  existsb (fun kv => String.eqb k (fst kv)) props.

(** [v.k] for a data property [k] that no built-in prototype defines (every
    name the handler reads from a record is such a name): an object answers
    with its own property, every other non-nullish value with [undefined],
    and a nullish one throws. *)
Definition get (k : string) (v : Value) : Outcome Value :=
  match v with
  | VUndefined => Throw (Native (ReadOfNullish Undefined k))
  | VNull => Throw (Native (ReadOfNullish Null k))
  | VObj props => Return (own k props)
  | _ => Return VUndefined
  end.

(** [v?.k], same proviso: never throws. *)
Definition get_opt (k : string) (v : Value) : Value :=
  match v with
  | VObj props => own k props
  | _ => VUndefined
  end.

(** [Array.prototype.join]: [undefined] and [null] elements contribute the
    empty string, the others their string conversion [str]. *)
Fixpoint join_with (str : Value -> Outcome string) (sep : string)
    (items : list Value) : Outcome string :=
  match items with
  | [] => Return ""
  | v :: rest =>
      try! s := match v with
                | VUndefined | VNull => Return ""
                | _ => str v
                end in
      match rest with
      | [] => Return s
      | _ => try! t := join_with str sep rest in Return (s ++ sep ++ t)
      end
  end.

(** ToString.  An array prints as its elements joined by commas; a plain
    object as [[object Object]], unless an own property hides
    [Object.prototype.toString]: data is never callable, so the conversion
    then finds no method that yields a primitive. *)
Fixpoint to_string (v : Value) : Outcome string :=
  match v with
  | VUndefined => Return "undefined"
  | VNull => Return "null"
  | VBool true => Return "true"
  | VBool false => Return "false"
  | VNum n => Return (num_toString n)
  | VStr s => Return s
  | VArr items => join_with to_string "," items
  | VObj props =>
      if has_own "toString" props then Throw (Native NotPrimitive)
      else Return "[object Object]"
  end.

Definition join (sep : string) (items : list Value) : Outcome string :=
  join_with to_string sep items.

(** ToNumber.  Arrays and objects go through their string. *)
Definition to_number (v : Value) : Outcome number :=
  match v with
  | VUndefined => Return NaN
  | VNull => Return (num_of_Z 0)
  | VBool true => Return (num_of_Z 1)
  | VBool false => Return (num_of_Z 0)
  | VNum n => Return n
  | VStr s => Return (StringToNumber s)
  | VArr _ | VObj _ => try! s := to_string v in Return (StringToNumber s)
  end.

(** ToBoolean. *)
Definition truthy (v : Value) : bool :=
  match v with
  | VUndefined | VNull => false
  | VBool b => b
  | VNum n => num_truthy n
  | VStr s => negb (String.eqb s "")
  | VArr _ | VObj _ => true
  end.

(** [v === s] for a string [s]. *)
Definition strict_eq_str (v : Value) (s : string) : bool :=
  match v with
  | VStr s' => String.eqb s' s
  | _ => false
  end.

End Values.

(** ** The remote service, the log and the monad of the handler *)

(** [interface RiotAccount] *)
Record RiotAccount := {
  puuid : string;
  gameName : string;
  tagLine : string
}.

(** A [fetch] carries the URL and the [X-Riot-Token] header. *)
Record Request := {
  url : string;
  X_Riot_Token : option string
}.

(** What the handler sees of one [fetch]: [response.ok] with the body read
    at the type the source gives it, a response that is not ok (only its
    [status] and [statusText] are read), or a rejected promise. *)
Inductive Reply (A : Type) :=
| Ok (payload : A)
| NotOk (status : Z) (statusText : string)
| Broken (detail : string).
Arguments Ok {A} payload.
Arguments NotOk {A} status statusText.
Arguments Broken {A} detail.

Inductive Event :=
| Fetch (r : Request)
| Sleep (ms : Z)               (* [setTimeout(resolve, ms)], awaited *)
| ConsoleError (e : Exn).

Section Handler.
Context `{Runtime}.

(** The service answers the three kinds of request from a state [U] of its
    own, so that it may answer the same request differently the next time
    (a rate limit that lifts). *)
Record Network (U : Type) := {
  accounts : Request -> U -> Reply RiotAccount * U;
  match_ids : Request -> U -> Reply (list string) * U;
  match_record : Request -> U -> Reply Value * U
}.
Arguments accounts {U}.
Arguments match_ids {U}.
Arguments match_record {U}.

Record World (U : Type) := {
  upstream : U;
  log : list Event   (* oldest first *)
}.
Arguments upstream {U}.
Arguments log {U}.
Arguments Build_World {U}.

Context {U : Type} (net : Network U).

(** [const RIOT_API_KEY = Deno.env.get("RIOT_API_KEY")] *)
Variable RIOT_API_KEY : option string.

(** A computation: from a world to an outcome and the next world, or [None]
    when the fuel of a loop ran out. *)
Definition M (A : Type) : Type := World U -> option (Outcome A * World U).

Definition ret {A} (a : A) : M A := fun w => Some (Return a, w).
Definition throw {A} (e : Exn) : M A := fun w => Some (Throw e, w).
Definition lift {A} (o : Outcome A) : M A := fun w => Some (o, w).

Definition bind {A B} (m : M A) (k : A -> M B) : M B :=
  fun w =>
    match m w with
    | None => None
    | Some (Throw e, w') => Some (Throw e, w')
    | Some (Return a, w') => k a w'
    end.

Notation "x <- m ;; k" := (bind m (fun x => k))
  (at level 61, m at next level, right associativity).
Notation "m ;;; k" := (bind m (fun _ => k))
  (at level 61, right associativity).

Definition emit (e : Event) : M unit :=
  fun w => Some (Return tt, {| upstream := upstream w; log := (log w ++ [e])%list |}).

(** [await new Promise(resolve => setTimeout(resolve, ms))] *)
Definition sleep (ms : Z) : M unit := emit (Sleep ms).

(** [await fetch(url, { headers: { "X-Riot-Token": RIOT_API_KEY! } })].
    Every request is answered: a request that stays pending is not
    modelled. *)
Definition fetch {A} (service : Request -> U -> Reply A * U) (u : string)
  : M (Reply A) :=
  fun w =>
    let r := {| url := u; X_Riot_Token := RIOT_API_KEY |} in
    let (reply, next) := service r (upstream w) in
    Some (Return reply, {| upstream := next; log := (log w ++ [Fetch r])%list |}).

(** ** [regionToRouting] *)

Definition regionToRouting : list (string * string) :=
  [ ("na1", "americas"); ("br1", "americas"); ("la1", "americas");
    ("la2", "americas"); ("euw1", "europe"); ("eun1", "europe");
    ("tr1", "europe"); ("ru", "europe"); ("kr", "asia"); ("jp1", "asia");
    ("oc1", "sea") ].

(** The table is an object literal, so [regionToRouting[region]] also finds
    what [Object.prototype] defines: functions, listed here by property
    name with the name of the function.  ([__proto__] is not listed: Deno
    removes it from [Object.prototype].) *)
Definition Object_prototype : list (string * string) :=
  [ ("constructor", "Object");
    ("__defineGetter__", "__defineGetter__");
    ("__defineSetter__", "__defineSetter__");
    ("hasOwnProperty", "hasOwnProperty");
    ("__lookupGetter__", "__lookupGetter__");
    ("__lookupSetter__", "__lookupSetter__");
    ("isPrototypeOf", "isPrototypeOf");
    ("propertyIsEnumerable", "propertyIsEnumerable");
    ("toString", "toString");
    ("valueOf", "valueOf");
    ("toLocaleString", "toLocaleString") ].

Inductive Member :=
| MString (s : string)
| MFunction (name : string).

Fixpoint assoc (k : string) (table : list (string * string)) : option string :=
  match table with
  | [] => None
  | (k', v) :: rest => if String.eqb k k' then Some v else assoc k rest
  end.

(** [regionToRouting[key]]; [None] is [undefined]. *)
Definition regionToRouting_at (key : string) : option Member :=
  match assoc key regionToRouting with
  | Some cluster => Some (MString cluster)
  | None =>
      match assoc key Object_prototype with
      | Some f => Some (MFunction f)
      | None => None
      end
  end.

Definition member_truthy (m : Member) : bool :=
  match m with
  | MString s => negb (String.eqb s "")
  | MFunction _ => true
  end.

(** [${routing}]: a function prints as its source text. *)
Definition member_toString (m : Member) : string :=
  match m with
  | MString s => s
  | MFunction name => "function " ++ name ++ "() { [native code] }"
  end.

(** [const routing = regionToRouting[region] || "americas"], for a region
    that is already a property key. *)
Definition routing_of_key (key : string) : Member :=
  match regionToRouting_at key with
  | Some m => if member_truthy m then m else MString "americas"
  | None => MString "americas"
  end.

(** The same for the [region] of the request body, which is [any]: indexing
    converts it to a property key first. *)
Definition routing_of (region : Value) : Outcome Member :=
  try! key := to_string region in Return (routing_of_key key).

(** ** [getAccountByRiotId] *)

Definition encode (s : string) : Outcome string :=
  match encodeURIComponent s with
  | Some t => Return t
  | None => Throw (Native MalformedURI)
  end.

Definition account_url (routing gameName tagLine : string) : string :=
  "https://" ++ routing ++
  ".api.riotgames.com/riot/account/v1/accounts/by-riot-id/" ++
  gameName ++ "/" ++ tagLine.

Definition getAccountByRiotId (gameName tagLine : string) (region : Value)
  : M RiotAccount :=
  routing <- lift (routing_of region) ;;
  g <- lift (encode gameName) ;;
  t <- lift (encode tagLine) ;;
  response <- fetch (accounts net) (account_url (member_toString routing) g t) ;;
  match response with
  | Ok account => ret account
  | NotOk _ statusText => throw (Error ("Failed to fetch account: " ++ statusText))
  | Broken detail => throw (Native (Rejected detail))
  end.

(** ** [getMatchHistory] *)

(** [mode === "tft" ? "tft" : "lol"] *)
Definition gameType_of (mode : Value) : string :=
  if strict_eq_str mode "tft" then "tft" else "lol".

Definition history_url (routing gameType puuid : string) (start count : Z)
  : string :=
  "https://" ++ routing ++ ".api.riotgames.com/" ++ gameType ++
  "/match/v1/matches/by-puuid/" ++ puuid ++ "/ids?start=" ++
  Z_toString start ++ "&count=" ++ Z_toString count.

(** The [while (start < count)] loop; one unit of fuel per test of the
    condition. *)
Fixpoint getMatchHistory_loop (fuel : nat) (routing gameType puuid : string)
    (count start : Z) (allMatches : list string) : M (list string) :=
  match fuel with
  | O => fun _ => None
  | S fuel' =>
      if start <? count then
        let currentBatchSize := Z.min 100 (count - start) in
        response <- fetch (match_ids net)
                      (history_url routing gameType puuid start currentBatchSize) ;;
        match response with
        | NotOk status statusText =>
            if status =? 429 then
              sleep 2000 ;;;
              getMatchHistory_loop fuel' routing gameType puuid count start
                allMatches
            else
              throw (Error ("Failed to fetch match history: " ++ statusText))
        | Broken detail => throw (Native (Rejected detail))
        | Ok matches =>
            if Z.of_nat (length matches) =? 0 then ret allMatches
            else
              let allMatches := (allMatches ++ matches)%list in
              if Z.of_nat (length matches) <? currentBatchSize then
                ret allMatches
              else
                sleep 100 ;;;
                getMatchHistory_loop fuel' routing gameType puuid count
                  (start + currentBatchSize) allMatches
        end
      else ret allMatches
  end.

(** The handler always passes [count]; its default of 100 is never used. *)
Definition getMatchHistory (fuel : nat) (puuid : string) (region mode : Value)
    (count : Z) : M (list string) :=
  routing <- lift (routing_of region) ;;
  getMatchHistory_loop fuel (member_toString routing) (gameType_of mode) puuid
    count 0 [].

(** ** [getMatchDetails] *)

Definition detail_url (routing gameType version matchId : string) : string :=
  "https://" ++ routing ++ ".api.riotgames.com/" ++ gameType ++ "/match/" ++
  version ++ "/matches/" ++ matchId.

Definition getMatchDetails (matchId : string) (region mode : Value) : M Value :=
  routing <- lift (routing_of region) ;;
  let gameType := gameType_of mode in
  let version := if strict_eq_str mode "tft" then "v1" else "v5" in
  response <- fetch (match_record net)
                (detail_url (member_toString routing) gameType version matchId) ;;
  match response with
  | Ok record => ret record
  | NotOk _ statusText =>
      throw (Error ("Failed to fetch match details: " ++ statusText))
  | Broken detail => throw (Native (Rejected detail))
  end.

(** ** [formatDuration]

    Declared on a [number], called on a field of a record that is [any]:
    the division converts its operand. *)
Definition formatDuration (seconds : Value) : Outcome string :=
  try! n := to_number seconds in
  let mins := Math_floor (num_div n (num_of_Z 60)) in
  let secs := num_rem n (num_of_Z 60) in
  Return (num_toString mins ++ "m " ++ num_toString secs ++ "s").

(** ** The handler [POST] *)

Fixpoint traverse {A B} (f : A -> Outcome B) (l : list A) : Outcome (list B) :=
  match l with
  | [] => Return []
  | a :: rest =>
      try! b := f a in
      try! bs := traverse f rest in
      Return (b :: bs)
  end.

(** [participants.find((p) => p.puuid === id)] over the elements. *)
Fixpoint find_by_puuid (id : string) (participants : list Value)
  : Outcome Value :=
  match participants with
  | [] => Return VUndefined
  | p :: rest =>
      try! q := get "puuid" p in
      if strict_eq_str q id then Return p else find_by_puuid id rest
  end.

(** [match.info.participants.find((p) => p.puuid === id)] *)
Definition find_participant (id : string) (record : Value) : Outcome Value :=
  try! info := get "info" record in
  try! participants := get "participants" info in
  match participants with
  | VUndefined => Throw (Native (ReadOfNullish Undefined "find"))
  | VNull => Throw (Native (ReadOfNullish Null "find"))
  | VArr ps => find_by_puuid id ps
  | _ => Throw (Native (NotCallable "match.info.participants.find"))
  end.

(** [playerData?.traits?.slice(0, 3).map((t) => t.name).join(", ") || "N/A"];
    [who] is the name of the variable in the source. *)
Definition traits_of (who : string) (playerData : Value) : Outcome Value :=
  match get_opt "traits" playerData with
  | VUndefined | VNull => Return (VStr "N/A")
  | VArr traits =>
      try! names := traverse (get "name") (firstn 3 traits) in
      try! joined := join ", " names in
      Return (VStr (if String.eqb joined "" then "N/A" else joined))
  | VStr _ =>
      Throw (Native (NotCallable (who ++ "?.traits?.slice(0, 3).map")))
  | _ => Throw (Native (NotCallable (who ++ "?.traits?.slice")))
  end.

(** The branch [mode === "tft"] of the callback of [sharedMatches.map]. *)
Definition project_tft (account1 account2 : RiotAccount) (record : Value)
  : Outcome Value :=
  try! player1Data := find_participant (puuid account1) record in
  try! player2Data := find_participant (puuid account2) record in
  try! metadata := get "metadata" record in
  try! matchId := get "match_id" metadata in
  try! info := get "info" record in
  try! tft_set_number := get "tft_set_number" info in
  try! gameMode :=
    (if truthy tft_set_number
     then try! n := to_string tft_set_number in Return ("Set " ++ n)
     else Return "TFT") in
  try! timestamp := get "game_datetime" info in
  try! game_length := get "game_length" info in
  try! duration := formatDuration game_length in
  try! traits1 := traits_of "player1Data" player1Data in
  try! traits2 := traits_of "player2Data" player2Data in
  Return (VObj
    [ ("matchId", matchId);
      ("gameMode", VStr gameMode);
      ("timestamp", timestamp);
      ("duration", VStr duration);
      ("players", VObj
        [ ("player1", VObj [ ("placement", get_opt "placement" player1Data);
                             ("traits", traits1) ]);
          ("player2", VObj [ ("placement", get_opt "placement" player2Data);
                             ("traits", traits2) ]) ]) ]).

(** The other branch. *)
Definition project_lol (account1 account2 : RiotAccount) (record : Value)
  : Outcome Value :=
  try! player1Data := find_participant (puuid account1) record in
  try! player2Data := find_participant (puuid account2) record in
  try! metadata := get "metadata" record in
  try! matchId := get "matchId" metadata in
  try! info := get "info" record in
  try! gameMode := get "gameMode" info in
  try! timestamp := get "gameStartTimestamp" info in
  try! gameDuration := get "gameDuration" info in
  try! duration := formatDuration gameDuration in
  Return (VObj
    [ ("matchId", matchId);
      ("gameMode", gameMode);
      ("timestamp", timestamp);
      ("duration", VStr duration);
      ("players", VObj
        [ ("player1", VObj [ ("champion", get_opt "championName" player1Data);
                             ("team", get_opt "teamId" player1Data) ]);
          ("player2", VObj [ ("champion", get_opt "championName" player2Data);
                             ("team", get_opt "teamId" player2Data) ]) ]) ]).

(** The callback of [sharedMatches.map]. *)
Definition project (account1 account2 : RiotAccount) (mode : Value)
    (record : Value) : Outcome Value :=
  if strict_eq_str mode "tft" then project_tft account1 account2 record
  else project_lol account1 account2 record.

(** [s.split("#")].  [#] is one code unit in UTF-16 as in UTF-8, so the
    pieces do not depend on how the characters of a name are encoded. *)
Fixpoint split (sep : ascii) (s : string) : list string :=
  match s with
  | EmptyString => [""]
  | String c rest =>
      if Ascii.eqb c sep then "" :: split sep rest
      else match split sep rest with
           | piece :: pieces => String c piece :: pieces
           | [] => [String c ""]
           end
  end.

(** [player.split("#")] for a [player] that is [any]; [callee] is the text
    of the callee in the source. *)
Definition split_call (callee : string) (player : Value)
  : Outcome (list string) :=
  match player with
  | VUndefined => Throw (Native (ReadOfNullish Undefined "split"))
  | VNull => Throw (Native (ReadOfNullish Null "split"))
  | VStr s => Return (split "#" s)
  | _ => Throw (Native (NotCallable callee))
  end.

(** An element of a destructured array that passes the test [!x]: present
    and not empty. *)
Definition usable (piece : option string) : option string :=
  match piece with
  | Some s => if String.eqb s "" then None else Some s
  | None => None
  end.

(** [const { player1, player2, region, mode = "lol" } = body] *)
Definition destructure (body : Value)
  : Outcome (Value * Value * Value * Value) :=
  match body with
  | VUndefined => Throw (Native (DestructureNullish Undefined))
  | VNull => Throw (Native (DestructureNullish Null))
  | _ =>
      let mode := match get_opt "mode" body with
                  | VUndefined => VStr "lol"
                  | given => given
                  end in
      Return (get_opt "player1" body, get_opt "player2" body,
              get_opt "region" body, mode)
  end.

(** [await Promise.all([p, q])]: both calls are started, [p] first; the
    result is that of both, or the exception of a failed one.  When both
    fail the one that fails first in time wins in the source; the model
    delivers the answers in the order of the requests. *)
Definition Promise_all2 {A B} (p : M A) (q : M B) : M (A * B) :=
  fun w =>
    match p w with
    | None => None
    | Some (o1, w1) =>
        match q w1 with
        | None => None
        | Some (o2, w2) =>
            Some (match o1, o2 with
                  | Throw e, _ => Throw e
                  | Return _, Throw e => Throw e
                  | Return a, Return b => Return (a, b)
                  end, w2)
        end
    end.

(** [matches2.includes(id)] *)
Definition includes (id : string) (matches : list string) : bool :=
  existsb (String.eqb id) matches.

(** [matches1.filter((id) => matches2.includes(id))] *)
Definition sharedMatchIds (matches1 matches2 : list string) : list string :=
  filter (fun id => includes id matches2) matches1.

(** [for (const id of sharedMatchIds) { ... }] *)
Fixpoint fetch_shared (ids : list string) (region mode : Value)
    (sharedMatches : list Value) : M (list Value) :=
  match ids with
  | [] => ret sharedMatches
  | id :: rest =>
      record <- getMatchDetails id region mode ;;
      sleep 100 ;;;
      fetch_shared rest region mode (sharedMatches ++ [record])%list
  end.

Record Response := {
  status : Z;
  body : Value   (* the data given to [Response.json] *)
}.

(** [account => { gameName: account.gameName, tagLine: account.tagLine }] *)
Definition display (account : RiotAccount) : Value :=
  VObj [ ("gameName", VStr (gameName account));
         ("tagLine", VStr (tagLine account)) ].

Definition invalid_player_format : Response :=
  {| status := 400;
     body := VObj [ ("error", VStr "Invalid player format. Use: Name#TAG") ] |}.

(** The body of the [try] block; [request_json] is [await ctx.req.json()]. *)
Definition POST_try (fuel : nat) (request_json : Outcome Value) : M Response :=
  parsed <- lift request_json ;;
  fields <- lift (destructure parsed) ;;
  let '(player1, player2, region, mode) := fields in
  pieces1 <- lift (split_call "player1.split" player1) ;;
  pieces2 <- lift (split_call "player2.split" player2) ;;
  match usable (nth_error pieces1 0), usable (nth_error pieces1 1),
        usable (nth_error pieces2 0), usable (nth_error pieces2 1) with
  | Some gameName1, Some tagLine1, Some gameName2, Some tagLine2 =>
      resolved <- Promise_all2 (getAccountByRiotId gameName1 tagLine1 region)
                    (getAccountByRiotId gameName2 tagLine2 region) ;;
      let (account1, account2) := resolved in
      matches1 <- getMatchHistory fuel (puuid account1) region mode 500 ;;
      matches2 <- getMatchHistory fuel (puuid account2) region mode 500 ;;
      sharedMatches <- fetch_shared (sharedMatchIds matches1 matches2)
                         region mode [] ;;
      matchData <- lift (traverse (project account1 account2 mode)
                           sharedMatches) ;;
      ret {| status := 200;
             body := VObj [ ("player1", display account1);
                            ("player2", display account2);
                            ("matches", VArr matchData) ] |}
  | _, _, _, _ => ret invalid_player_format
  end.

(** [!RIOT_API_KEY] *)
Definition key_missing : bool :=
  match RIOT_API_KEY with
  | None => true
  | Some k => String.eqb k ""
  end.

(** [error.message || "An error occurred"] *)
Definition message_or_default (e : Exn) : string :=
  if String.eqb (message e) "" then "An error occurred" else message e.

Definition POST (fuel : nat) (request_json : Outcome Value) : M Response :=
  if key_missing then
    ret {| status := 500;
           body := VObj [ ("error", VStr "Riot API key not configured") ] |}
  else
    fun w =>
      match POST_try fuel request_json w with
      | None => None
      | Some (Return response, w') => Some (Return response, w')
      | Some (Throw e, w') =>
          (emit (ConsoleError e) ;;;
           ret {| status := 500;
                  body := VObj [ ("error", VStr (message_or_default e)) ] |}) w'
      end.

End Handler.

Arguments accounts {H U}.
Arguments match_ids {H U}.
Arguments match_record {H U}.
Arguments upstream {U}.
Arguments log {U}.
Arguments Build_World {U}.
Arguments status {H}.
Arguments body {H}.

(** The request that [fetch] builds for a page of match ids. *)
Definition history_request (key : option string)
    (routing gameType puuid : string) (start count : Z) : Request :=
  {| url := history_url routing gameType puuid start count;
     X_Riot_Token := key |}.

(** What a finished run returned, and what it asked of the service. *)
Definition returned {A W} (run : option (Outcome A * W)) : option A :=
  match run with
  | Some (Return a, _) => Some a
  | _ => None
  end.

Definition value_of {A} (o : Outcome A) : option A :=
  match o with
  | Return a => Some a
  | Throw _ => None
  end.

Definition fetched_urls (events : list Event) : list string :=
  flat_map (fun e => match e with Fetch r => [url r] | _ => [] end) events.

Definition final_log {A U} (run : option (Outcome A * World U)) : list Event :=
  match run with
  | Some (_, w) => log w
  | None => []
  end.

(** A service behind a rate limiter.  The limiter holds a schedule, one
    entry for each coming request for match ids: [true] answers 429 without
    passing the request on, [false] passes it on; when the schedule is used
    up every request passes. *)
Definition throttled `{Runtime} {U} (net : Network U)
  : Network (list bool * U) := {|
  accounts r s :=
    let (reply, u) := accounts net r (snd s) in (reply, (fst s, u));
  match_ids r s :=
    match fst s with
    | true :: later => (NotOk 429 "Too Many Requests", (later, snd s))
    | false :: later =>
        let (reply, u) := match_ids net r (snd s) in (reply, (later, u))
    | [] => let (reply, u) := match_ids net r (snd s) in (reply, ([], u))
    end;
  match_record r s :=
    let (reply, u) := match_record net r (snd s) in (reply, (fst s, u))
|}.

(** ** Notions used by the properties *)

Section Notions.
Context `{Runtime} {U : Type} (net : Network U) (key : option string).

(** The requests of the handler up to the projection went through:
    the body was well formed, the two accounts resolved to [account1] and
    [account2], the two histories are [matches1] and [matches2], and
    [records] are the match records fetched for the shared ids. *)
Definition gathers (fuel : nat) (request_json : Outcome Value) (w : World U)
    (account1 account2 : RiotAccount) (region mode : Value)
    (matches1 matches2 : list string) (records : list Value) (w' : World U)
  : Prop :=
  exists parsed player1 player2 pieces1 pieces2
         gameName1 tagLine1 gameName2 tagLine2 w1 w2 w3,
    request_json = Return parsed /\
    destructure parsed = Return (player1, player2, region, mode) /\
    split_call "player1.split" player1 = Return pieces1 /\
    split_call "player2.split" player2 = Return pieces2 /\
    usable (nth_error pieces1 0) = Some gameName1 /\
    usable (nth_error pieces1 1) = Some tagLine1 /\
    usable (nth_error pieces2 0) = Some gameName2 /\
    usable (nth_error pieces2 1) = Some tagLine2 /\
    Promise_all2 (getAccountByRiotId net key gameName1 tagLine1 region)
      (getAccountByRiotId net key gameName2 tagLine2 region) w
      = Some (Return (account1, account2), w1) /\
    getMatchHistory net key fuel (puuid account1) region mode 500 w1
      = Some (Return matches1, w2) /\
    getMatchHistory net key fuel (puuid account2) region mode 500 w2
      = Some (Return matches2, w3) /\
    fetch_shared net key (sharedMatchIds matches1 matches2) region mode [] w3
      = Some (Return records, w').

(** One record for each id, in order: each is what [getMatchDetails]
    returned for that id, and a pause of 100 ms follows each. *)
Inductive details_fetched (region mode : Value)
  : list string -> World U -> list Value -> World U -> Prop :=
| fetched_none w : details_fetched region mode [] w [] w
| fetched_next id ids w record w1 records w2 :
    getMatchDetails net key id region mode w = Some (Return record, w1) ->
    details_fetched region mode ids
      {| upstream := upstream w1; log := (log w1 ++ [Sleep 100])%list |}
      records w2 ->
    details_fetched region mode (id :: ids) w (record :: records) w2.

End Notions.

(** [Response.json({ player1: ..., player2: ..., matches: matchData })] *)
Definition comparison `{Runtime} (account1 account2 : RiotAccount)
    (matchData : list Value) : Response :=
  {| status := 200;
     body := VObj [ ("player1", display account1);
                    ("player2", display account2);
                    ("matches", VArr matchData) ] |}.

(** The property names of an object. *)
Definition names `{Runtime} (v : Value) : list string :=
  match v with
  | VObj props => map fst props
  | _ => []
  end.

(** The statistics of one player in a summary: [summary.players[who]]. *)
Definition stats_of `{Runtime} (who : string) (summary : Value) : Value :=
  get_opt who (get_opt "players" summary).

(** Every property name of a summary, down to the players' statistics. *)
Definition summary_names `{Runtime} (summary : Value) : list string :=
  (names summary ++ names (get_opt "players" summary) ++
   names (stats_of "player1" summary) ++ names (stats_of "player2" summary))%list.

(** The property names of a summary, by mode. *)
Definition summary_fields `{Runtime} (mode : Value) : list string :=
  [ "matchId"; "gameMode"; "timestamp"; "duration"; "players";
    "player1"; "player2" ] ++
  (if strict_eq_str mode "tft"
   then [ "placement"; "traits"; "placement"; "traits" ]
   else [ "champion"; "team"; "champion"; "team" ])%list.

(** The field of [match.info] that the projection copies into
    [timestamp]. *)
Definition timestamp_field `{Runtime} (mode : Value) : string :=
  if strict_eq_str mode "tft" then "game_datetime" else "gameStartTimestamp".

(** A record from which [match.info.participants] cannot be read. *)
Definition no_info `{Runtime} (record : Value) : bool :=
  match get_opt "info" record with
  | VUndefined | VNull => true
  | _ => false
  end.


(** The entry of a player in a list of participants, [undefined] if there
    is none. *)
Fixpoint entry_for `{Runtime} (id : string) (participants : list Value) : Value :=
  match participants with
  | [] => VUndefined
  | p :: rest =>
      if strict_eq_str (get_opt "puuid" p) id then p else entry_for id rest
  end.







(** The participants of a shaped record. *)
Definition participants_of `{Runtime} (record : Value) : list Value :=
  match get_opt "participants" (get_opt "info" record) with
  | VArr ps => ps
  | _ => []
  end.

(** A player identifier in the words of the specification: split on its
    first [#], both halves are non-empty. *)
Fixpoint split_on_first_hash (s : string) : option (string * string) :=
  match s with
  | EmptyString => None
  | String c rest =>
      if Ascii.eqb c "#" then Some (EmptyString, rest)
      else match split_on_first_hash rest with
           | Some (name, tag) => Some (String c name, tag)
           | None => None
           end
  end.

Definition well_formed_identifier (s : string) : Prop :=
  exists name tag,
    split_on_first_hash s = Some (name, tag) /\ name <> "" /\ tag <> "".

(** The units in which a timestamp may count the time since the epoch, and
    the conversion that the specification speaks of. *)
Inductive TimeUnit := Millis | Seconds.

Definition to_millis (unit : TimeUnit) (t : Z) : Z :=
  match unit with
  | Millis => t
  | Seconds => 1000 * t
  end.

(** ** A runtime to compute with

    Exact rationals and NaN stand for the doubles.  On integers below
    [2^53] in magnitude, the only numbers of the examples, the operations
    agree with IEEE-754 wherever the handler observes them (a quotient is
    floored before it is printed).  Outside the integers the instance is an
    idealisation: a fraction prints as [n/d], and only decimal integers are
    read from a string.  Strings are the UTF-8 bytes of the JavaScript
    string, which [encodeURIComponent] escapes byte by byte; the messages
    are V8's. *)
Module Exact.

Inductive num := Nan | Rat (q : Q).

Definition div (a b : num) : num :=
  match a, b with
  | Rat x, Rat y => if Qeq_bool y 0 then Nan else Rat (Qred (x / y))
  | _, _ => Nan
  end.

Definition truncate (q : Q) : Z :=
  if Qle_bool 0 q then Qfloor q else Qceiling q.

Definition rem (a b : num) : num :=
  match a, b with
  | Rat x, Rat y =>
      if Qeq_bool y 0 then Nan
      else Rat (Qred (x - y * inject_Z (truncate (x / y))))
  | _, _ => Nan
  end.

Definition floor (a : num) : num :=
  match a with
  | Rat x => Rat (inject_Z (Qfloor x))
  | Nan => Nan
  end.

Definition nonzero (a : num) : bool :=
  match a with
  | Rat x => negb (Qeq_bool x 0)
  | Nan => false
  end.

Definition print (a : num) : string :=
  match a with
  | Nan => "NaN"
  | Rat x =>
      let r := Qred x in
      if Pos.eqb (Qden r) 1 then Z_toString (Qnum r)
      else Z_toString (Qnum r) ++ "/" ++ Z_toString (Zpos (Qden r))
  end.

Definition digit (c : ascii) : option Z :=
  let n := Z.of_nat (nat_of_ascii c) in
  if (48 <=? n) && (n <=? 57) then Some (n - 48) else None.

Fixpoint digits (acc : Z) (s : string) : option Z :=
  match s with
  | EmptyString => Some acc
  | String c rest =>
      match digit c with
      | Some d => digits (10 * acc + d) rest
      | None => None
      end
  end.

(** Decimal integers, with a sign; the empty string reads as zero. *)
Definition read (s : string) : num :=
  match s with
  | EmptyString => Rat 0
  | String "-" (String c rest) =>
      match digits 0 (String c rest) with
      | Some z => Rat (inject_Z (- z))
      | None => Nan
      end
  | _ =>
      match digits 0 s with
      | Some z => Rat (inject_Z z)
      | None => Nan
      end
  end.

Definition unreserved (c : ascii) : bool :=
  let n := Z.of_nat (nat_of_ascii c) in
  ((48 <=? n) && (n <=? 57)) || ((65 <=? n) && (n <=? 90)) ||
  ((97 <=? n) && (n <=? 122)) ||
  existsb (Ascii.eqb c) ["-"; "_"; "."; "!"; "~"; "*"; "'"; "("; ")"]%char.

Definition hex_digit (n : Z) : ascii :=
  ascii_of_nat (Z.to_nat (if n <? 10 then 48 + n else 55 + n)).

Fixpoint escape (s : string) : string :=
  match s with
  | EmptyString => EmptyString
  | String c rest =>
      if unreserved c then String c (escape rest)
      else
        let n := Z.of_nat (nat_of_ascii c) in
        String "%" (String (hex_digit (n / 16))
                      (String (hex_digit (n mod 16)) (escape rest)))
  end.

Definition nullish_name (n : Nullish) : string :=
  match n with
  | Undefined => "undefined"
  | Null => "null"
  end.

Definition describe (f : Fault) : string :=
  match f with
  | ReadOfNullish base prop =>
      "Cannot read properties of " ++ nullish_name base ++
      " (reading '" ++ prop ++ "')"
  | DestructureNullish base =>
      "Cannot destructure property 'player1' of 'body' as it is " ++
      nullish_name base ++ "."
  | NotCallable callee => callee ++ " is not a function"
  | NotPrimitive => "Cannot convert object to primitive value"
  | MalformedURI => "URI malformed"
  | Rejected detail => detail
  end.

#[export] Instance runtime : Runtime := {
  number := num;
  NaN := Nan;
  num_of_Z z := Rat (inject_Z z);
  num_div := div;
  num_rem := rem;
  Math_floor := floor;
  num_truthy := nonzero;
  num_toString := print;
  StringToNumber := read;
  encodeURIComponent s := Some (escape s);
  fault_message := describe
}.

End Exact.

(** ** A service to compute with

    Accounts and match records are looked up by URL; the pages of match ids
    are handed out in the order of the requests.  What is not there is a
    404. *)
Module Mock.
Import Exact.

Record Service := {
  account_table : list (string * Reply RiotAccount);
  pages : list (Reply (list string));
  record_table : list (string * Reply Value)
}.

Fixpoint lookup {A} (k : string) (table : list (string * Reply A)) : Reply A :=
  match table with
  | [] => NotOk 404 "Not Found"
  | (k', r) :: rest => if String.eqb k k' then r else lookup k rest
  end.

Definition net : Network Service := {|
  accounts r s := (lookup (url r) (account_table s), s);
  match_ids r s :=
    match pages s with
    | [] => (NotOk 404 "Not Found", s)
    | page :: rest =>
        (page, {| account_table := account_table s;
                  pages := rest;
                  record_table := record_table s |})
    end;
  match_record r s := (lookup (url r) (record_table s), s)
|}.

Definition start (s : Service) : World Service :=
  {| upstream := s; log := [] |}.

End Mock.

(** ** Sample data for the concrete runs *)
Module Sample.
Import Exact Mock.

Definition key : option string := Some "RGAPI-sample".

(** [count] match ids numbered from [first]. *)
Definition ids (first count : nat) : list string :=
  map (fun n => "EUW1_" ++ Z_toString (Z.of_nat n)) (seq first count).

Definition paged (batches : list (Reply (list string))) : Service :=
  {| account_table := []; pages := batches; record_table := [] |}.

(** Unlimited history, served as asked: 100, 100, then the 50 asked for. *)
Definition as_requested : Service :=
  paged [Ok (ids 0 100); Ok (ids 100 100); Ok (ids 200 50); Ok (ids 250 100)].

(** A service that sends 100 ids whatever the request asks for. *)
Definition always_100 : Service :=
  paged [Ok (ids 0 100); Ok (ids 100 100); Ok (ids 200 100); Ok (ids 300 100)].

(** History that ends 40 ids into the third page. *)
Definition ends_at_240 : Service :=
  paged [Ok (ids 0 100); Ok (ids 100 100); Ok (ids 200 40)].

(** History of 130 ids. *)
Definition short_history : Service :=
  paged [Ok (ids 0 100); Ok (ids 100 30)].

Definition forbidden : Service :=
  paged [NotOk 403 "Forbidden"; Ok (ids 0 100)].

Definition busy_once : Service :=
  paged [NotOk 429 "Too Many Requests"; Ok (ids 0 100); Ok (ids 100 30)].

Definition ann : RiotAccount :=
  {| puuid := "puuid-of-ann"; gameName := "Ann"; tagLine := "EUW" |}.
Definition bob : RiotAccount :=
  {| puuid := "puuid-of-bob"; gameName := "Bob"; tagLine := "EUW" |}.

Definition integer (z : Z) : Value := VNum (Rat (inject_Z z)).

Definition lol_entry (a : RiotAccount) (champion : string) (team : Z) : Value :=
  VObj [ ("puuid", VStr (puuid a)); ("championName", VStr champion);
         ("teamId", integer team) ].

Definition lol_record (id : string) (timestamp duration : Z)
    (entries : list Value) : Value :=
  VObj [ ("metadata", VObj [ ("matchId", VStr id) ]);
         ("info", VObj [ ("gameMode", VStr "CLASSIC");
                         ("gameStartTimestamp", integer timestamp);
                         ("gameDuration", integer duration);
                         ("participants", VArr entries) ]) ].

Definition tft_entry (a : RiotAccount) (placement : Z) (traits : list string)
  : Value :=
  VObj [ ("puuid", VStr (puuid a)); ("placement", integer placement);
         ("traits", VArr (map (fun n => VObj [ ("name", VStr n) ]) traits)) ].

Definition tft_record (id : string) (timestamp duration : Z)
    (entries : list Value) : Value :=
  VObj [ ("metadata", VObj [ ("match_id", VStr id) ]);
         ("info", VObj [ ("tft_set_number", integer 9);
                         ("game_datetime", integer timestamp);
                         ("game_length", integer duration);
                         ("participants", VArr entries) ]) ].

Definition request_body (player1 player2 : string) (more : list (string * Value))
  : Value :=
  VObj (("player1", VStr player1) :: ("player2", VStr player2) :: more).

(** Ann and Bob on [euw1]: the histories are [A, B, C, D] and [X, B, Y, D];
    [recordB] and [recordD] are what the service holds for the matches B
    and D. *)
Definition shared_B_and_D (recordB recordD : Value) : Service :=
  {| account_table := [ (account_url "europe" "Ann" "EUW", Ok ann);
                        (account_url "europe" "Bob" "EUW", Ok bob) ];
     pages := [ Ok ["A"; "B"; "C"; "D"]; Ok ["X"; "B"; "Y"; "D"] ];
     record_table := [ (detail_url "europe" "lol" "v5" "B", Ok recordB);
                       (detail_url "europe" "lol" "v5" "D", Ok recordD) ] |}.

Definition recordB : Value :=
  lol_record "B" 1700000000000 1805
    [ lol_entry ann "Ahri" 100; lol_entry bob "Zed" 200 ].

(** Bob has no entry in this record. *)
Definition recordD : Value :=
  lol_record "D" 1700003600000 2400 [ lol_entry ann "Jinx" 100 ].


Definition ann_and_bob : Value :=
  request_body "Ann#EUW" "Bob#EUW" [ ("region", VStr "euw1"); ("mode", VStr "lol") ].

(** [POST] on a parsed body, from a fresh log. *)
Definition post (s : Service) (parsed : Value)
  : option (Outcome Response * World Service) :=
  POST net key 10 (Return parsed) (start s).

Definition response_of (run : option (Outcome Response * World Service))
  : option (Z * Value) :=
  option_map (fun r => (status r, body r)) (returned run).

(** The answer of a finished run and the world it leaves. *)
Definition answer (run : option (Outcome Response * World Service)) : Response :=
  match run with
  | Some (Return r, _) => r
  | _ => {| status := 0; body := VUndefined |}
  end.

Definition world_after (run : option (Outcome Response * World Service))
  : World Service :=
  match run with
  | Some (_, w) => w
  | None => start (paged [])
  end.

Definition answer_B_and_D : Response :=
  Eval vm_compute in answer (post (shared_B_and_D recordB recordD) ann_and_bob).

Definition world_B_and_D : World Service :=
  Eval vm_compute in
    world_after (post (shared_B_and_D recordB recordD) ann_and_bob).




Definition tft_record_in_seconds : Value :=
  tft_record "EUW1_7" 1700000000 2134
    [ tft_entry ann 3 ["Bruiser"; "Mage"; "Sniper"; "Duelist"] ].

Definition lol_record_in_seconds : Value :=
  lol_record "EUW1_8" 1700000000 1805 [ lol_entry ann "Ahri" 100 ].

(** The same service behind a rate limiter with the given schedule. *)
Definition behind (schedule : list bool) (s : Service)
  : World (list bool * Service) :=
  {| upstream := (schedule, s); log := [] |}.

(** [getMatchHistory(puuid, "euw1", "lol", count)] from a fresh log. *)
Definition history_run (s : Service) (count : Z) (fuel : nat)
  : option (Outcome (list string) * World Service) :=
  getMatchHistory net key fuel "player-1" (VStr "euw1") (VStr "lol") count
    (start s).

End Sample.

(** ** Notions used by the further properties *)

(** What a computation adds to the log: it only appends, and every event
    it appends satisfies [P]. *)
Definition appends {U A} (P : Event -> Prop)
    (m : World U -> option (Outcome A * World U)) : Prop :=
  forall w r w',
    m w = Some (r, w') ->
    exists events, log w' = (log w ++ events)%list /\ Forall P events.

(** The part of every URL of the fetchers that names the host. *)
Definition origin (routing : string) : string :=
  "https://" ++ routing ++ ".api.riotgames.com/".

(** A request of the fetchers for [region]: to the host of the region's
    routing, over https and with the key of the deployment in its header; a
    pause: one of the two of the source. *)
Definition fetcher_event `{Runtime} (key : option string) (region : Value)
    (e : Event) : Prop :=
  match e with
  | Fetch r =>
      X_Riot_Token r = key /\
      exists m, routing_of region = Return m /\
                String.prefix (origin (member_toString m)) (url r) = true
  | Sleep ms => ms = 100 \/ ms = 2000
  | ConsoleError _ => False
  end.

(** The two names and tags that the handler takes from a request, with
    the region and the mode, when its validation lets the request
    through; [None] when it answers 400 or throws before. *)
Definition validated `{Runtime} (request_json : Outcome Value)
  : option (string * string * string * string * Value * Value) :=
  match request_json with
  | Return parsed =>
      match destructure parsed with
      | Return (player1, player2, region, mode) =>
          match split_call "player1.split" player1,
                split_call "player2.split" player2 with
          | Return pieces1, Return pieces2 =>
              match usable (nth_error pieces1 0), usable (nth_error pieces1 1),
                    usable (nth_error pieces2 0), usable (nth_error pieces2 1)
              with
              | Some gameName1, Some tagLine1, Some gameName2, Some tagLine2 =>
                  Some (gameName1, tagLine1, gameName2, tagLine2, region, mode)
              | _, _, _, _ => None
              end
          | _, _ => None
          end
      | Throw _ => None
      end
  | Throw _ => None
  end.

(** The [region] of a request that passes the validation. *)
Definition region_of `{Runtime} (request_json : Outcome Value) : option Value :=
  match validated request_json with
  | Some (_, _, _, _, region, _) => Some region
  | None => None
  end.


(** The request that [fetch] builds for an account and for a match
    record. *)
Definition account_request `{Runtime} (key : option string) (m : Member)
    (gameName tagLine : string) : Request :=
  {| url := account_url (member_toString m) gameName tagLine;
     X_Riot_Token := key |}.

Definition detail_request `{Runtime} (key : option string) (m : Member)
    (mode : Value) (matchId : string) : Request :=
  {| url := detail_url (member_toString m) (gameType_of mode)
              (if strict_eq_str mode "tft" then "v1" else "v5") matchId;
     X_Riot_Token := key |}.

(** The answer of the [catch] block for the exception [e]. *)
Definition failure `{Runtime} (e : Exn) : Response :=
  {| status := 500;
     body := VObj [ ("error", VStr (message_or_default e)) ] |}.

(** An event of the pagination loop that runs from [start] towards
    [count]: a request for a page that begins a whole number of full pages
    after [start], asks for 1 to 100 ids and does not reach beyond [count];
    or one of the two pauses. *)
Definition page_event (key : option string) (routing gameType puuid : string)
    (count start : Z) (e : Event) : Prop :=
  match e with
  | Fetch r =>
      exists k c,
        r = history_request key routing gameType puuid (start + 100 * k) c /\
        0 <= k /\ 1 <= c <= 100 /\ start + 100 * k + c <= count
  | Sleep ms => ms = 100 \/ ms = 2000
  | ConsoleError _ => False
  end.

(** A service that never answers a request for match ids with 429, one
    that always does, and one that never sends more ids than asked for. *)
Definition never_limits `{Runtime} {U} (net : Network U) : Prop :=
  forall r u text u', match_ids net r u <> (NotOk 429 text, u').

Definition always_limits `{Runtime} {U} (net : Network U) : Prop :=
  forall r u, exists text u', match_ids net r u = (NotOk 429 text, u').

Definition honours_count `{Runtime} {U} (net : Network U) (key : option string)
    (routing gameType puuid : string) : Prop :=
  forall s c u ids u',
    1 <= c <= 100 ->
    match_ids net (history_request key routing gameType puuid s c) u
      = (Ok ids, u') ->
    Z.of_nat (length ids) <= c.



(** A value carries [id]: one of its strings is [id], or one of its
    properties, at any depth, is named [puuid]. *)
Fixpoint carries `{Runtime} (id : string) (v : Value) {struct v} : bool :=
  match v with
  | VStr s => String.eqb s id
  | VArr items => existsb (carries id) items
  | VObj props =>
      existsb (fun kv : string * Value =>
                 let (k, x) := kv in String.eqb k "puuid" || carries id x)
        props
  | _ => false
  end.

(** The summary of a record in the classic mode: what it copies from the
    record and from the entries of the two players, and the label of the
    duration. *)
Definition classic_summary `{Runtime} (record entry1 entry2 : Value)
    (duration : string) : Value :=
  VObj
    [ ("matchId", get_opt "matchId" (get_opt "metadata" record));
      ("gameMode", get_opt "gameMode" (get_opt "info" record));
      ("timestamp", get_opt "gameStartTimestamp" (get_opt "info" record));
      ("duration", VStr duration);
      ("players", VObj
        [ ("player1", VObj [ ("champion", get_opt "championName" entry1);
                             ("team", get_opt "teamId" entry1) ]);
          ("player2", VObj [ ("champion", get_opt "championName" entry2);
                             ("team", get_opt "teamId" entry2) ]) ]) ].

(** The same in the mode ["tft"], with the labels of the game mode, of the
    duration and of the traits of the two players. *)
Definition tft_summary `{Runtime} (record entry1 entry2 : Value)
    (gameMode duration traits1 traits2 : string) : Value :=
  VObj
    [ ("matchId", get_opt "match_id" (get_opt "metadata" record));
      ("gameMode", VStr gameMode);
      ("timestamp", get_opt "game_datetime" (get_opt "info" record));
      ("duration", VStr duration);
      ("players", VObj
        [ ("player1", VObj [ ("placement", get_opt "placement" entry1);
                             ("traits", VStr traits1) ]);
          ("player2", VObj [ ("placement", get_opt "placement" entry2);
                             ("traits", VStr traits2) ]) ]) ].

(** The values that a summary copies unchanged: fields of the record and
    of the entries of the two players, none of them the [puuid] of an
    entry. *)
Definition copied `{Runtime} (mode record entry1 entry2 : Value)
  : list Value :=
  if strict_eq_str mode "tft" then
    [ get_opt "match_id" (get_opt "metadata" record);
      get_opt "game_datetime" (get_opt "info" record);
      get_opt "placement" entry1; get_opt "placement" entry2 ]
  else
    [ get_opt "matchId" (get_opt "metadata" record);
      get_opt "gameMode" (get_opt "info" record);
      get_opt "gameStartTimestamp" (get_opt "info" record);
      get_opt "championName" entry1; get_opt "teamId" entry1;
      get_opt "championName" entry2; get_opt "teamId" entry2 ].

(** [summary] is the summary of [record] for the two accounts: the entries
    are those that the [puuid]s select, and nothing else of an account is
    used. *)
Definition summarises `{Runtime} (account1 account2 : RiotAccount)
    (mode record summary : Value) : Prop :=
  let info := get_opt "info" record in
  let entry1 := entry_for (puuid account1) (participants_of record) in
  let entry2 := entry_for (puuid account2) (participants_of record) in
  if strict_eq_str mode "tft" then
    exists gameMode duration traits1 traits2,
      summary = tft_summary record entry1 entry2 gameMode duration
                  traits1 traits2 /\
      (gameMode = "TFT" \/
       exists n, to_string (get_opt "tft_set_number" info) = Return n /\
                 gameMode = "Set " ++ n) /\
      formatDuration (get_opt "game_length" info) = Return duration /\
      traits_of "player1Data" entry1 = Return (VStr traits1) /\
      traits_of "player2Data" entry2 = Return (VStr traits2)
  else
    exists duration,
      summary = classic_summary record entry1 entry2 duration /\
      formatDuration (get_opt "gameDuration" info) = Return duration.


(** Services without a state, to compute with: every account is Ann's and
    no match record is found; the pages of match ids are what [page] says. *)
Module Fixture.
Import Exact.

Definition service (page : Reply (list string)) : Network unit := {|
  accounts r u := (Ok Sample.ann, u);
  match_ids r u := (page, u);
  match_record r u := (NotOk 404 "Not Found", u)
|}.

(** One id for every request. *)
Definition steady : Network unit := service (Ok ["EUW1_1"]).

(** No id at all. *)
Definition silent : Network unit := service (Ok []).

(** 429 for every request. *)
Definition jammed : Network unit := service (NotOk 429 "Too Many Requests").

Definition fresh : World unit := {| upstream := tt; log := [] |}.

End Fixture.

(** No [#] in it. *)
Fixpoint hashless (s : string) : bool :=
  match s with
  | EmptyString => true
  | String c rest => negb (Ascii.eqb c "#") && hashless rest
  end.

(** What may follow the tag of an identifier: nothing, or a [#] and any
    text. *)
Definition trailing (rest : option string) : string :=
  match rest with
  | None => ""
  | Some text => "#" ++ text
  end.

(** The routing values of the table. *)
Definition clusters : list string := [ "americas"; "europe"; "asia"; "sea" ].

(** A computation that sends at most [n] requests and whose result, when
    it returns one, satisfies [Q]. *)
Definition asks {U A} (n : nat) (Q : A -> Prop)
    (m : World U -> option (Outcome A * World U)) : Prop :=
  forall w r w',
    m w = Some (r, w') ->
    (length (fetched_urls (log w')) <= length (fetched_urls (log w)) + n)%nat /\
    forall a, r = Return a -> Q a.

(** ** The page that calls the handler: [Home] and the island
    [islands/SearchPage.tsx]

    The island posts to the handler and shows its answer; the page gives
    the island its first values from the query of the address, which the
    island rewrites as the inputs change. *)
Module SearchPage.
Section Island.
Context `{Runtime}.

(** [String.prototype.trim] and what a number is once it went through
    [JSON.stringify] and [JSON.parse] are the platform's. *)
Variable trim : string -> string.
Variable num_json : number -> Value.

(** The signals of the island, and the query of the address as
    [URLSearchParams] reads it: pairs of a name and a value.  (Writing a
    query into an address and reading it back gives the same pairs.) *)
Record Page := {
  player1 : string;
  player2 : string;
  region : string;
  mode : string;
  isLoading : bool;
  results : Value;   (* [null] until there is an answer *)
  error : Value;
  search : list (string * string)
}.

(** [params.set(name, value)] *)
Fixpoint param_set (name value : string) (params : list (string * string))
  : list (string * string) :=
  match params with
  | [] => [(name, value)]
  | (n, v) :: rest =>
      if String.eqb n name
      then (name, value) ::
           filter (fun p => negb (String.eqb (fst p) name)) rest
      else (n, v) :: param_set name value rest
  end.

(** [searchParams.get(name)]; [None] is [null]. *)
Fixpoint param_get (name : string) (params : list (string * string))
  : option string :=
  match params with
  | [] => None
  | (n, v) :: rest => if String.eqb n name then Some v else param_get name rest
  end.

Definition updateURL (s : Page) : Page :=
  let params := [] in
  let params := if String.eqb (player1 s) "" then params
                else param_set "player1" (player1 s) params in
  let params := if String.eqb (player2 s) "" then params
                else param_set "player2" (player2 s) params in
  let params := if String.eqb (region s) "" then params
                else param_set "region" (region s) params in
  let params := param_set "mode" (mode s) params in
  {| player1 := player1 s; player2 := player2 s; region := region s;
     mode := mode s; isLoading := isLoading s; results := results s;
     error := error s; search := params |}.

Definition handleModeToggle (newMode : string) (s : Page) : Page :=
  updateURL
    {| player1 := player1 s; player2 := player2 s; region := region s;
       mode := newMode; isLoading := isLoading s; results := VNull;
       error := error s; search := search s |}.

Definition handlePlayer1Change (value : string) (s : Page) : Page :=
  updateURL
    {| player1 := value; player2 := player2 s; region := region s;
       mode := mode s; isLoading := isLoading s; results := results s;
       error := error s; search := search s |}.

Definition handlePlayer2Change (value : string) (s : Page) : Page :=
  updateURL
    {| player1 := player1 s; player2 := value; region := region s;
       mode := mode s; isLoading := isLoading s; results := results s;
       error := error s; search := search s |}.

Definition handleRegionChange (value : string) (s : Page) : Page :=
  updateURL
    {| player1 := player1 s; player2 := player2 s; region := value;
       mode := mode s; isLoading := isLoading s; results := results s;
       error := error s; search := search s |}.

(** What the user does to the inputs: [onInput] of the two text fields,
    [onChange] of the select and [onClick] of the two buttons of the
    mode. *)
Inductive Input :=
| Player1Input (value : string)
| Player2Input (value : string)
| RegionChange (value : string)
| ModeClick (tft : bool).

Definition on (input : Input) : Page -> Page :=
  match input with
  | Player1Input value => handlePlayer1Change value
  | Player2Input value => handlePlayer2Change value
  | RegionChange value => handleRegionChange value
  | ModeClick tft => handleModeToggle (if tft then "tft" else "lol")
  end.

(** The body of the request, as [ctx.req.json()] reads it in the
    handler. *)
Definition compare_request (s : Page) : Value :=
  VObj [ ("player1", VStr (trim (player1 s)));
         ("player2", VStr (trim (player2 s)));
         ("region", VStr (region s));
         ("mode", VStr (mode s)) ].

(** [handleSubmit] up to its [await fetch(...)]: the page it leaves and the
    request it sends, if it sends one. *)
Definition handleSubmit_start (s : Page) : Page * option Value :=
  if String.eqb (trim (player1 s)) "" || String.eqb (trim (player2 s)) ""
  then
    ({| player1 := player1 s; player2 := player2 s; region := region s;
        mode := mode s; isLoading := isLoading s; results := results s;
        error := VStr "Please enter both player names";
        search := search s |}, None)
  else
    let s := updateURL s in
    ({| player1 := player1 s; player2 := player2 s; region := region s;
        mode := mode s; isLoading := true; results := VNull;
        error := VStr ""; search := search s |},
     Some (compare_request s)).

(** What the two [await]s of [handleSubmit] give it: [fetch] rejects, or
    [response.json()] does, or there are [response.ok] and the data. *)
Inductive Answer :=
| Unreachable
| Unreadable
| Answered (ok : bool) (data : Value).

(** The rest of [handleSubmit], on the page as it is when the answer
    comes. *)
Definition handleSubmit_finish (answer : Answer) (s : Page) : Page :=
  let failed := VStr "An error occurred. Please try again." in
  let shown :=
    match answer with
    | Answered ok data =>
        if ok then (data, error s)
        else match get "error" data with
             | Return e =>
                 (results s, if truthy e then e else VStr "Failed to fetch data")
             | Throw _ => (results s, failed)
             end
    | _ => (results s, failed)
    end in
  {| player1 := player1 s; player2 := player2 s; region := region s;
     mode := mode s; isLoading := false; results := fst shown;
     error := snd shown; search := search s |}.

(** [JSON.parse(JSON.stringify(v))]: a property that is [undefined] is left
    out, and an element that is [undefined] becomes [null]. *)
Fixpoint jsonify (v : Value) : Value :=
  match v with
  | VNum n => num_json n
  | VArr items =>
      VArr (map (fun x => match x with
                          | VUndefined => VNull
                          | _ => jsonify x
                          end) items)
  | VObj props =>
      VObj (flat_map (fun p : string * Value =>
                        let (k, x) := p in
                        match x with
                        | VUndefined => []
                        | _ => [(k, jsonify x)]
                        end) props)
  | other => other
  end.

(** [Response.json(body, { status })] as the island receives it. *)
Definition received (r : Response) : Answer :=
  Answered ((200 <=? status r) && (status r <=? 299)) (jsonify (body r)).

(** [interface SearchPageProps] *)
Record SearchPageProps := {
  initialPlayer1 : string;
  initialPlayer2 : string;
  initialRegion : string;
  initialMode : string
}.

(** [url.searchParams.get(name) || fallback] *)
Definition get_or (name fallback : string) (params : list (string * string))
  : string :=
  match param_get name params with
  | Some value => if String.eqb value "" then fallback else value
  | None => fallback
  end.

(** The props that [Home] gives the island. *)
Definition Home (params : list (string * string)) : SearchPageProps :=
  {| initialPlayer1 := get_or "player1" "" params;
     initialPlayer2 := get_or "player2" "" params;
     initialRegion := get_or "region" "euw1" params;
     initialMode := get_or "mode" "lol" params |}.

(** The island as [Home] mounts it at an address with the query
    [params]. *)
Definition mount (params : list (string * string)) : Page :=
  let props := Home params in
  {| player1 := initialPlayer1 props; player2 := initialPlayer2 props;
     region := initialRegion props; mode := initialMode props;
     isLoading := false; results := VNull; error := VStr "";
     search := params |}.

End Island.
End SearchPage.

(** The inputs of [s] are those of the page mounted at the address of
    [s], an empty region and an empty mode apart. *)
Definition restored `{Runtime} (s : SearchPage.Page) : Prop :=
  let s' := SearchPage.mount (SearchPage.search s) in
  SearchPage.player1 s' = SearchPage.player1 s /\
  SearchPage.player2 s' = SearchPage.player2 s /\
  SearchPage.region s' =
    (if String.eqb (SearchPage.region s) "" then "euw1"
     else SearchPage.region s) /\
  SearchPage.mode s' =
    (if String.eqb (SearchPage.mode s) "" then "lol" else SearchPage.mode s).

(** ** The earlier [getMatchHistory]

    The version of the route that is kept beside the island: it reads the
    history of the classic game only, pauses 50 ms between two pages and
    gives up on every response that is not ok, a 429 included. *)
Module Earlier.
Section Route.
Context `{Runtime} {U : Type} (net : Network U).
Variable RIOT_API_KEY : option string.

Definition history_url (routing puuid : string) (start count : Z) : string :=
  "https://" ++ routing ++ ".api.riotgames.com/lol/match/v5/matches/by-puuid/" ++
  puuid ++ "/ids?start=" ++ Z_toString start ++ "&count=" ++ Z_toString count.

(** The [while (start < count)] loop; one unit of fuel per test of the
    condition. *)
Fixpoint getMatchHistory_loop (fuel : nat) (routing puuid : string)
    (count start : Z) (allMatches : list string) : @M U (list string) :=
  match fuel with
  | O => fun _ => None
  | S fuel' =>
      if start <? count then
        let currentBatchSize := Z.min 100 (count - start) in
        bind (fetch RIOT_API_KEY (match_ids net)
                (history_url routing puuid start currentBatchSize))
          (fun response =>
             match response with
             | NotOk _ statusText =>
                 throw (Error ("Failed to fetch match history: " ++ statusText))
             | Broken detail => throw (Native (Rejected detail))
             | Ok matches =>
                 if Z.of_nat (length matches) =? 0 then ret allMatches
                 else
                   let allMatches := (allMatches ++ matches)%list in
                   if Z.of_nat (length matches) <? currentBatchSize then
                     ret allMatches
                   else
                     bind (sleep 50)
                       (fun _ =>
                          getMatchHistory_loop fuel' routing puuid count
                            (start + currentBatchSize) allMatches)
             end)
      else ret allMatches
  end.

Definition getMatchHistory (fuel : nat) (puuid : string) (region : Value)
    (count : Z) : @M U (list string) :=
  bind (lift (routing_of region))
    (fun routing =>
       getMatchHistory_loop fuel (member_toString routing) puuid count 0 []).

End Route.
End Earlier.

(** ** More sample data *)
Module Trial.
Import Exact Mock.

(** Bob's account is there, Ann's is not. *)
Definition only_bob : Service :=
  {| account_table := [ (account_url "europe" "Bob" "EUW", Ok Sample.bob) ];
     pages := [];
     record_table := [] |}.

(** The record of the match B and no other. *)
Definition only_B : Service :=
  {| account_table := [];
     pages := [];
     record_table := [ (detail_url "europe" "lol" "v5" "B", Ok Sample.recordB) ] |}.

Definition account_of (name : string) : Request :=
  account_request Sample.key (MString "europe") name "EUW".

Definition record_of (id : string) : Request :=
  detail_request Sample.key (MString "europe") (VStr "lol") id.

Definition page_of (start count : Z) : Request :=
  history_request Sample.key "europe" "lol" "player-1" start count.

(** A page in which nothing was typed or shown yet. *)
Definition page (player1 player2 region mode : string) : SearchPage.Page :=
  {| SearchPage.player1 := player1; SearchPage.player2 := player2;
     SearchPage.region := region; SearchPage.mode := mode;
     SearchPage.isLoading := false; SearchPage.results := VNull;
     SearchPage.error := VStr ""; SearchPage.search := [] |}.

(** Spaces at both ends are removed; [trim] removes other white space as
    well. *)
Fixpoint trim_start (s : string) : string :=
  match s with
  | String " " rest => trim_start rest
  | _ => s
  end.

Definition reverse (s : string) : string :=
  string_of_list_ascii (rev (list_ascii_of_string s)).

Definition trim_spaces (s : string) : string :=
  reverse (trim_start (reverse (trim_start s))).

(** A finite number is the same number after [JSON.stringify] and
    [JSON.parse]; [NaN] becomes [null]. *)
Definition num_json (n : num) : Value :=
  match n with
  | Nan => VNull
  | Rat _ => VNum n
  end.

(** A record of the match D in which the champion of Ann is her [puuid]
    and the game mode is an object with a property [puuid]. *)
Definition recordD_with_puuid : Value :=
  VObj [ ("metadata", VObj [ ("matchId", VStr "D") ]);
         ("info", VObj [ ("gameMode", VObj [ ("puuid", VStr "puuid-of-bob") ]);
                         ("gameStartTimestamp", Sample.integer 1700003600000);
                         ("gameDuration", Sample.integer 2400);
                         ("participants",
                          VArr [ Sample.lol_entry Sample.ann "puuid-of-ann" 100;
                                 Sample.lol_entry Sample.bob "Zed" 200 ]) ]) ].

Definition answer_with_puuid : Response :=
  Eval vm_compute in
    Sample.answer
      (Sample.post (Sample.shared_B_and_D Sample.recordB recordD_with_puuid)
         Sample.ann_and_bob).




(** A trait as the service sends it, and an entry with four traits of
    which the last is [null]. *)
Definition trait (name : string) (units : Z) : Value :=
  VObj [ ("name", VStr name); ("num_units", Sample.integer units);
         ("style", Sample.integer 1); ("tier_current", Sample.integer 1) ].

Definition entry_with_traits : Value :=
  VObj [ ("puuid", VStr "puuid-of-ann"); ("placement", Sample.integer 3);
         ("traits", VArr [ trait "Bruiser" 2; trait "Mage" 4;
                           trait "Sniper" 2; VNull ]) ].

End Trial.

(** * Properties *)

(** ** The pagination loop *)

Section History.
Context `{Runtime} {U : Type} (net : Network U) (key : option string).
Variables routing gameType puuid : string.

Local Abbreviation loop := (getMatchHistory_loop net key).
Local Abbreviation request := (history_request key routing gameType puuid).

Lemma loop_done fuel count start acc w :
  count <= start ->
  loop (S fuel) routing gameType puuid count start acc w = Some (Return acc, w).
Proof.
  intros Hle. cbn [getMatchHistory_loop].
  destruct (Z.ltb_spec start count); [lia | reflexivity].
Qed.

(** One turn of the loop, by the answer of the service. *)
Lemma loop_step fuel count start acc w :
  start < count ->
  loop (S fuel) routing gameType puuid count start acc w =
  let size := Z.min 100 (count - start) in
  let r := request start size in
  let w' := fun u => {| upstream := u; log := (log w ++ [Fetch r])%list |} in
  match match_ids net r (upstream w) with
  | (Ok matches, u) =>
      if Z.of_nat (length matches) =? 0 then Some (Return acc, w' u)
      else if Z.of_nat (length matches) <? size
           then Some (Return (acc ++ matches)%list, w' u)
           else loop fuel routing gameType puuid count (start + size)
                  (acc ++ matches)%list
                  {| upstream := u;
                     log := (log w ++ [Fetch r; Sleep 100])%list |}
  | (NotOk status statusText, u) =>
      if status =? 429
      then loop fuel routing gameType puuid count start acc
             {| upstream := u; log := (log w ++ [Fetch r; Sleep 2000])%list |}
      else Some (Throw (Error ("Failed to fetch match history: " ++ statusText)),
                 w' u)
  | (Broken detail, u) => Some (Throw (Native (Rejected detail)), w' u)
  end.
Proof.
  intros Hlt. cbn [getMatchHistory_loop].
  destruct (Z.ltb_spec start count); [|lia].
  unfold bind, fetch, history_request. cbn zeta.
  destruct (match_ids net _ (upstream w))
    as [[matches|status statusText|detail] u].
  - destruct (_ =? 0); [reflexivity|].
    destruct (_ <? _); [reflexivity|].
    unfold sleep, emit. cbn [upstream log]. rewrite <- app_assoc. reflexivity.
  - destruct (status =? 429); [|reflexivity].
    unfold sleep, emit. cbn [upstream log]. rewrite <- app_assoc. reflexivity.
  - reflexivity.
Qed.

(** A run that finished finishes the same way on more fuel. *)
Lemma loop_more_fuel fuel : forall extra count start acc w r,
  loop fuel routing gameType puuid count start acc w = Some r ->
  loop (fuel + extra) routing gameType puuid count start acc w = Some r.
Proof.
  induction fuel as [|fuel IH]; intros extra count start acc w r Hrun.
  - discriminate.
  - change (S fuel + extra)%nat with (S (fuel + extra)).
    destruct (Z.lt_ge_cases start count) as [Hlt|Hge].
    + rewrite loop_step in * by assumption. cbn zeta in *.
      destruct (match_ids net _ (upstream w))
        as [[matches|status text|detail] u].
      * destruct (_ =? 0); [assumption|].
        destruct (_ <? _); [assumption|]. now apply IH.
      * destruct (status =? 429); [now apply IH | assumption].
      * assumption.
    + rewrite loop_done in * by assumption. assumption.
Qed.

(** Against a service that answers 429 to every request the loop never
    ends: no amount of fuel gives a result. *)
Lemma always_limited_never_returns fuel : forall count start acc w,
  (forall r u, exists text u', match_ids net r u = (NotOk 429 text, u')) ->
  start < count ->
  loop fuel routing gameType puuid count start acc w = None.
Proof.
  induction fuel as [|fuel IH]; intros count start acc w Hlimited Hlt;
    [reflexivity|].
  rewrite loop_step by assumption. cbn zeta.
  destruct (Hlimited (request start (Z.min 100 (count - start))) (upstream w))
    as (text & u' & ->).
  cbn [Z.eqb Pos.eqb]. now apply IH.
Qed.

(** Against a service that never answers 429 the loop ends: each turn
    ends it or moves [start] forward, so one unit of fuel for each id still
    to ask for, and one more, is enough. *)
Lemma never_limited_returns n : forall count start acc w,
  (forall r u text u', match_ids net r u <> (NotOk 429 text, u')) ->
  count - start <= Z.of_nat n ->
  exists r, loop (S n) routing gameType puuid count start acc w = Some r.
Proof.
  induction n as [|n IH]; intros count start acc w Hnever Hleft.
  - rewrite loop_done by lia. eauto.
  - destruct (Z.lt_ge_cases start count) as [Hlt|Hge];
      [|rewrite loop_done by lia; eauto].
    rewrite loop_step by assumption. cbn zeta.
    destruct (match_ids net _ (upstream w))
      as [[matches|status text|detail] u] eqn:Hreply; [| |eauto].
    + destruct (_ =? 0); [eauto|]. destruct (_ <? _); [eauto|].
      apply IH; [assumption | lia].
    + destruct (Z.eqb_spec status 429) as [->|_]; [|eauto].
      now apply Hnever in Hreply.
Qed.

Lemma getMatchHistory_loops fuel region mode count m w :
  routing_of region = Return m ->
  getMatchHistory net key fuel puuid region mode count w =
  getMatchHistory_loop net key fuel (member_toString m) (gameType_of mode)
    puuid count 0 [] w.
Proof.
  intros Hr. unfold getMatchHistory, bind, lift. now rewrite Hr.
Qed.

End History.

Section Throttled.
Context `{Runtime} {U : Type} (net : Network U) (key : option string).
Variables routing gameType puuid : string.

Local Abbreviation base := (getMatchHistory_loop net key).
Local Abbreviation limited := (getMatchHistory_loop (throttled net) key).

(** Whatever the schedule of the limiter, the loop ends as it ends without
    the limiter, on one more unit of fuel for each entry of the schedule. *)
Lemma throttled_simulation (schedule : list bool) :
  forall fuel count start acc w o w1 (wt : World (list bool * U)),
    base fuel routing gameType puuid count start acc w = Some (o, w1) ->
    upstream wt = (schedule, upstream w) ->
    exists wt1,
      limited (fuel + length schedule) routing gameType puuid count start acc wt
        = Some (o, wt1) /\
      snd (upstream wt1) = upstream w1.
Proof.
  induction schedule as [|limit later IH].
  - induction fuel as [|fuel IHfuel]; intros count start acc w o w1 wt Hrun Hup;
      [discriminate|].
    change (S fuel + length (@nil bool))%nat with (S (fuel + length (@nil bool))).
    destruct (Z.lt_ge_cases start count) as [Hlt|Hge].
    + rewrite loop_step in Hrun by assumption.
      rewrite (loop_step (throttled net)) by assumption. cbn zeta in *.
      rewrite Hup. cbn [throttled match_ids fst snd].
      destruct (match_ids net _ (upstream w))
        as [[matches|status text|detail] u].
      * destruct (_ =? 0);
          [injection Hrun as <- <-; eexists; split; reflexivity|].
        destruct (_ <? _);
          [injection Hrun as <- <-; eexists; split; reflexivity|].
        eapply IHfuel; [eassumption | reflexivity].
      * destruct (status =? 429).
        -- eapply IHfuel; [eassumption | reflexivity].
        -- injection Hrun as <- <-; eexists; split; reflexivity.
      * injection Hrun as <- <-; eexists; split; reflexivity.
    + rewrite loop_done in Hrun by assumption.
      rewrite (loop_done (throttled net)) by assumption.
      injection Hrun as <- <-. eexists; split; [reflexivity|].
      now rewrite Hup.
  - intros [|fuel] count start acc w o w1 wt Hrun Hup; [discriminate|].
    change (S fuel + length (limit :: later))%nat
      with (S (fuel + length (limit :: later))).
    destruct (Z.lt_ge_cases start count) as [Hlt|Hge].
    + rewrite (loop_step (throttled net)) by assumption. cbn zeta.
      rewrite Hup. cbn [throttled match_ids fst snd].
      destruct limit.
      * cbn [Z.eqb Pos.eqb]. cbn [length]. rewrite Nat.add_succ_r.
        change (S (fuel + length later))%nat with (S fuel + length later)%nat.
        eapply IH; [eassumption | reflexivity].
      * rewrite loop_step in Hrun by assumption. cbn zeta in Hrun.
        destruct (match_ids net _ (upstream w))
          as [[matches|status text|detail] u].
        -- destruct (_ =? 0);
             [injection Hrun as <- <-; eexists; split; reflexivity|].
           destruct (_ <? _);
             [injection Hrun as <- <-; eexists; split; reflexivity|].
           edestruct IH as (wt1 & Hlimited & Hsame); [eassumption | | ].
           2:{ exists wt1. split; [|exact Hsame].
               cbn [length]. rewrite Nat.add_succ_r.
               rewrite <- Nat.add_1_r.
               apply loop_more_fuel. exact Hlimited. }
           reflexivity.
        -- destruct (status =? 429).
           ++ edestruct IH as (wt1 & Hlimited & Hsame); [eassumption | | ].
              2:{ exists wt1. split; [|exact Hsame].
                  cbn [length]. rewrite Nat.add_succ_r.
                  rewrite <- Nat.add_1_r.
                  apply loop_more_fuel. exact Hlimited. }
              reflexivity.
           ++ injection Hrun as <- <-; eexists; split; reflexivity.
        -- injection Hrun as <- <-; eexists; split; reflexivity.
    + rewrite loop_done in Hrun by assumption.
      rewrite (loop_done (throttled net)) by assumption.
      injection Hrun as <- <-. eexists; split; [reflexivity|].
      now rewrite Hup.
Qed.

End Throttled.

Section Pagination.
Context `{Runtime} {U : Type} (net : Network U) (key : option string).
Variables routing gameType puuid : string.

Local Abbreviation loop := (getMatchHistory_loop net key).
Local Abbreviation request := (history_request key routing gameType puuid).
Local Abbreviation ask m mode :=
  (history_request key (member_toString m) (gameType_of mode) puuid).

(** C2.  A page answered with 429 is asked for again after a pause of
    2000 ms, at the same offset and with nothing appended, where a full page
    is followed by a pause of 100 ms only; any other response that is not ok
    throws at once, after that single request.  No count of retries is
    kept: behind a rate limiter with any schedule of 429 answers, however
    long, the loop ends exactly as it ends against the service itself (the
    same ids or the same exception, the service in the same state), given
    one more turn for each scheduled entry. *)
Theorem rate_limit_retried_without_loss :
  (forall fuel count start acc w text u,
     start < count ->
     match_ids net (request start (Z.min 100 (count - start))) (upstream w)
       = (NotOk 429 text, u) ->
     loop (S fuel) routing gameType puuid count start acc w =
     loop fuel routing gameType puuid count start acc
       {| upstream := u;
          log := (log w ++ [Fetch (request start (Z.min 100 (count - start)));
                            Sleep 2000])%list |}) /\
  (forall fuel count start acc w matches u,
     start < count ->
     match_ids net (request start (Z.min 100 (count - start))) (upstream w)
       = (Ok matches, u) ->
     Z.min 100 (count - start) <= Z.of_nat (length matches) ->
     loop (S fuel) routing gameType puuid count start acc w =
     loop fuel routing gameType puuid count
       (start + Z.min 100 (count - start)) (acc ++ matches)%list
       {| upstream := u;
          log := (log w ++ [Fetch (request start (Z.min 100 (count - start)));
                            Sleep 100])%list |}) /\
  100 < 2000 /\
  (forall fuel count start acc w status text u,
     start < count ->
     match_ids net (request start (Z.min 100 (count - start))) (upstream w)
       = (NotOk status text, u) ->
     status <> 429 ->
     loop (S fuel) routing gameType puuid count start acc w =
     Some (Throw (Error ("Failed to fetch match history: " ++ text)),
           {| upstream := u;
              log := (log w ++ [Fetch (request start
                                         (Z.min 100 (count - start)))])%list |})) /\
  (forall schedule fuel count start acc w o w1 (wt : World (list bool * U)),
     loop fuel routing gameType puuid count start acc w = Some (o, w1) ->
     upstream wt = (schedule, upstream w) ->
     exists wt1,
       getMatchHistory_loop (throttled net) key (fuel + length schedule)
         routing gameType puuid count start acc wt = Some (o, wt1) /\
       snd (upstream wt1) = upstream w1).
Proof.
  split; [|split; [|split; [|split]]].
  - intros fuel count start acc w text u Hlt Hreply.
    rewrite loop_step by assumption. cbn zeta. now rewrite Hreply.
  - intros fuel count start acc w matches u Hlt Hreply Hfull.
    rewrite loop_step by assumption. cbn zeta. rewrite Hreply.
    destruct (Z.eqb_spec (Z.of_nat (length matches)) 0); [lia|].
    destruct (Z.ltb_spec (Z.of_nat (length matches))
                (Z.min 100 (count - start))); [lia|].
    reflexivity.
  - lia.
  - intros fuel count start acc w status text u Hlt Hreply Hstatus.
    rewrite loop_step by assumption. cbn zeta. rewrite Hreply.
    destruct (Z.eqb_spec status 429); [contradiction | reflexivity].
  - intros schedule fuel count start acc w o w1 wt Hrun Hup.
    eapply throttled_simulation; eassumption.
Qed.

(** C3, as amended.  With [count = 250] and a service that sends as many
    ids as each request asks for (100, 100, then the 50 that the third
    request asks for), the function makes exactly these three requests and
    returns the 250 ids, whatever the service would answer after that. *)
Theorem history_of_250_takes_three_requests
    (k : nat) (region mode : Value) (m : Member) (w : World U)
    (page1 page2 page3 : list string) (u1 u2 u3 : U) :
  routing_of region = Return m ->
  match_ids net (ask m mode 0 100) (upstream w) = (Ok page1, u1) ->
  length page1 = 100%nat ->
  match_ids net (ask m mode 100 100) u1 = (Ok page2, u2) ->
  length page2 = 100%nat ->
  match_ids net (ask m mode 200 50) u2 = (Ok page3, u3) ->
  length page3 = 50%nat ->
  getMatchHistory net key (4 + k) puuid region mode 250 w =
    Some (Return (page1 ++ page2 ++ page3)%list,
          {| upstream := u3;
             log := (log w ++ [Fetch (ask m mode 0 100); Sleep 100;
                               Fetch (ask m mode 100 100); Sleep 100;
                               Fetch (ask m mode 200 50); Sleep 100])%list |}) /\
  length (page1 ++ page2 ++ page3)%list = 250%nat.
Proof.
  intros Hregion H1 L1 H2 L2 H3 L3.
  split; [|rewrite !length_app; lia].
  rewrite getMatchHistory_loops with (m := m) by assumption.
  change (4 + k)%nat with (S (S (S (S k)))).
  rewrite loop_step by lia. cbn zeta.
  change (Z.min 100 (250 - 0)) with 100. rewrite H1, L1.
  change (Z.of_nat 100 =? 0) with false. change (Z.of_nat 100 <? 100) with false.
  cbn iota. rewrite loop_step by lia. cbn zeta.
  change (Z.min 100 (250 - (0 + 100))) with 100. cbn [upstream log].
  change (0 + 100) with 100. rewrite H2, L2.
  change (Z.of_nat 100 =? 0) with false. change (Z.of_nat 100 <? 100) with false.
  cbn iota. rewrite loop_step by lia. cbn zeta.
  change (Z.min 100 (250 - (100 + 100))) with 50. cbn [upstream log].
  change (100 + 100) with 200. rewrite H3, L3.
  change (Z.of_nat 50 =? 0) with false. change (Z.of_nat 50 <? 50) with false.
  cbn iota. rewrite loop_done by lia.
  rewrite <- !app_assoc. reflexivity.
Qed.

(** C4.  With [count = 500], two pages of 100 ids and a third page of 40
    ids, fewer than the 100 asked for, the function stops after exactly
    three requests with the 240 ids, those of the third page included; and
    an empty page, wherever it comes, ends the loop at once with the ids
    gathered so far. *)
Theorem history_stops_at_short_page
    (k : nat) (region mode : Value) (m : Member) (w : World U)
    (page1 page2 page3 : list string) (u1 u2 u3 : U) :
  routing_of region = Return m ->
  match_ids net (ask m mode 0 100) (upstream w) = (Ok page1, u1) ->
  length page1 = 100%nat ->
  match_ids net (ask m mode 100 100) u1 = (Ok page2, u2) ->
  length page2 = 100%nat ->
  match_ids net (ask m mode 200 100) u2 = (Ok page3, u3) ->
  length page3 = 40%nat ->
  (getMatchHistory net key (3 + k) puuid region mode 500 w =
     Some (Return (page1 ++ page2 ++ page3)%list,
           {| upstream := u3;
              log := (log w ++ [Fetch (ask m mode 0 100); Sleep 100;
                                Fetch (ask m mode 100 100); Sleep 100;
                                Fetch (ask m mode 200 100)])%list |}) /\
   length (page1 ++ page2 ++ page3)%list = 240%nat) /\
  (forall fuel count start acc w0 u0,
     start < count ->
     match_ids net (request start (Z.min 100 (count - start))) (upstream w0)
       = (Ok [], u0) ->
     loop (S fuel) routing gameType puuid count start acc w0 =
     Some (Return acc,
           {| upstream := u0;
              log := (log w0 ++ [Fetch (request start
                                          (Z.min 100 (count - start)))])%list |})).
Proof.
  intros Hregion H1 L1 H2 L2 H3 L3.
  split; [split; [|rewrite !length_app; lia]|].
  - rewrite getMatchHistory_loops with (m := m) by assumption.
    change (3 + k)%nat with (S (S (S k))).
    rewrite loop_step by lia. cbn zeta.
    change (Z.min 100 (500 - 0)) with 100. rewrite H1, L1.
    change (Z.of_nat 100 =? 0) with false.
    change (Z.of_nat 100 <? 100) with false.
    cbn iota. rewrite loop_step by lia. cbn zeta.
    change (Z.min 100 (500 - (0 + 100))) with 100. cbn [upstream log].
    change (0 + 100) with 100. rewrite H2, L2.
    change (Z.of_nat 100 =? 0) with false.
    change (Z.of_nat 100 <? 100) with false.
    cbn iota. rewrite loop_step by lia. cbn zeta.
    change (Z.min 100 (500 - (100 + 100))) with 100. cbn [upstream log].
    change (100 + 100) with 200. rewrite H3, L3.
    change (Z.of_nat 40 =? 0) with false.
    change (Z.of_nat 40 <? 100) with true.
    cbn iota. rewrite <- !app_assoc. reflexivity.
  - intros fuel count start acc w0 u0 Hlt Hreply.
    rewrite loop_step by assumption. cbn zeta. rewrite Hreply. reflexivity.
Qed.

End Pagination.

(** The hypotheses of C2 at work: a 429 on the first request, a full page,
    a 403, and a history of 130 ids read through a limiter that answers 429
    three times in four requests. *)
Lemma rate_limit_retried_witness :
  getMatchHistory_loop Mock.net Sample.key 4 "europe" "lol" "player-1" 500 0 []
    (Mock.start Sample.busy_once) =
  getMatchHistory_loop Mock.net Sample.key 3 "europe" "lol" "player-1" 500 0 []
    {| upstream := Sample.paged [Ok (Sample.ids 0 100); Ok (Sample.ids 100 30)];
       log := [Fetch (history_request Sample.key "europe" "lol" "player-1" 0 100);
               Sleep 2000] |} /\
  getMatchHistory_loop Mock.net Sample.key 3 "europe" "lol" "player-1" 500 0 []
    (Mock.start Sample.short_history) =
  getMatchHistory_loop Mock.net Sample.key 2 "europe" "lol" "player-1" 500 100
    (Sample.ids 0 100)
    {| upstream := Sample.paged [Ok (Sample.ids 100 30)];
       log := [Fetch (history_request Sample.key "europe" "lol" "player-1" 0 100);
               Sleep 100] |} /\
  getMatchHistory_loop Mock.net Sample.key 4 "europe" "lol" "player-1" 500 0 []
    (Mock.start Sample.forbidden) =
  Some (Throw (Error "Failed to fetch match history: Forbidden"),
        {| upstream := Sample.paged [Ok (Sample.ids 0 100)];
           log := [Fetch (history_request Sample.key "europe" "lol" "player-1"
                            0 100)] |}) /\
  returned (getMatchHistory_loop (throttled Mock.net) Sample.key (2 + 4)
              "europe" "lol" "player-1" 500 0 []
              (Sample.behind [true; false; true; true] Sample.short_history)) =
  Some (Sample.ids 0 100 ++ Sample.ids 100 30)%list.
Proof.
  destruct (rate_limit_retried_without_loss Mock.net Sample.key
              "europe" "lol" "player-1")
    as (Hretry & Hpaced & _ & Hfatal & Hlimiter).
  split; [|split; [|split]].
  - apply (Hretry 3%nat 500 0 [] (Mock.start Sample.busy_once)
             "Too Many Requests"); [lia | reflexivity].
  - apply (Hpaced 2%nat 500 0 [] (Mock.start Sample.short_history)
             (Sample.ids 0 100) (Sample.paged [Ok (Sample.ids 100 30)]));
      [lia | reflexivity | vm_compute; discriminate].
  - apply (Hfatal 3%nat 500 0 [] (Mock.start Sample.forbidden) 403
             "Forbidden"); [lia | reflexivity | lia].
  - destruct (Hlimiter [true; false; true; true] 2%nat 500 0 []
                (Mock.start Sample.short_history)
                (Return (Sample.ids 0 100 ++ Sample.ids 100 30)%list)
                {| upstream := Sample.paged [];
                   log := [Fetch (history_request Sample.key "europe" "lol"
                                    "player-1" 0 100);
                           Sleep 100;
                           Fetch (history_request Sample.key "europe" "lol"
                                    "player-1" 100 100)] |}
                (Sample.behind [true; false; true; true] Sample.short_history))
      as (wt1 & Hrun & _); [vm_compute; reflexivity | reflexivity |].
    change (2 + length [true; false; true; true])%nat with (2 + 4)%nat in Hrun.
    rewrite Hrun. reflexivity.
Defined.

(** C3 as stated fails: a service that sends exactly 100 ids for every
    request, also for the third one that asks for 50, makes the function
    return 300 ids after its three requests. *)
Lemma history_of_250_from_pages_of_100 :
  option_map (@length string)
    (returned (Sample.history_run Sample.always_100 250 10)) = Some 300%nat /\
  option_map (@length string)
    (returned (Sample.history_run Sample.always_100 250 10)) <> Some 250%nat /\
  fetched_urls (final_log (Sample.history_run Sample.always_100 250 10)) =
  [ "https://europe.api.riotgames.com/lol/match/v1/matches/by-puuid/player-1/ids?start=0&count=100";
    "https://europe.api.riotgames.com/lol/match/v1/matches/by-puuid/player-1/ids?start=100&count=100";
    "https://europe.api.riotgames.com/lol/match/v1/matches/by-puuid/player-1/ids?start=200&count=50" ].
Proof.
  split; [vm_compute; reflexivity|].
  split; [vm_compute; discriminate | vm_compute; reflexivity].
Qed.

Lemma history_of_250_witness :
  Sample.history_run Sample.as_requested 250 4 =
  Some (Return (Sample.ids 0 100 ++ Sample.ids 100 100 ++ Sample.ids 200 50)%list,
        {| upstream := Sample.paged [Ok (Sample.ids 250 100)];
           log := ([] ++
                   [Fetch (history_request Sample.key "europe" "lol" "player-1" 0 100);
                    Sleep 100;
                    Fetch (history_request Sample.key "europe" "lol" "player-1" 100 100);
                    Sleep 100;
                    Fetch (history_request Sample.key "europe" "lol" "player-1" 200 50);
                    Sleep 100])%list |}) /\
  length (Sample.ids 0 100 ++ Sample.ids 100 100 ++ Sample.ids 200 50)%list
    = 250%nat.
Proof.
  apply (history_of_250_takes_three_requests Mock.net Sample.key "player-1"
           0%nat (VStr "euw1") (VStr "lol") (MString "europe")
           (Mock.start Sample.as_requested)
           (Sample.ids 0 100) (Sample.ids 100 100) (Sample.ids 200 50)
           (Sample.paged [Ok (Sample.ids 100 100); Ok (Sample.ids 200 50);
                          Ok (Sample.ids 250 100)])
           (Sample.paged [Ok (Sample.ids 200 50); Ok (Sample.ids 250 100)])
           (Sample.paged [Ok (Sample.ids 250 100)]));
    reflexivity.
Defined.

Lemma history_stops_at_short_page_witness :
  (Sample.history_run Sample.ends_at_240 500 3 =
   Some (Return (Sample.ids 0 100 ++ Sample.ids 100 100 ++ Sample.ids 200 40)%list,
         {| upstream := Sample.paged [];
            log := ([] ++
                    [Fetch (history_request Sample.key "europe" "lol" "player-1" 0 100);
                     Sleep 100;
                     Fetch (history_request Sample.key "europe" "lol" "player-1" 100 100);
                     Sleep 100;
                     Fetch (history_request Sample.key "europe" "lol" "player-1" 200 100)])%list |}) /\
   length (Sample.ids 0 100 ++ Sample.ids 100 100 ++ Sample.ids 200 40)%list
     = 240%nat) /\
  getMatchHistory_loop Mock.net Sample.key 1 "europe" "lol" "player-1" 500 200
    (Sample.ids 0 200) (Mock.start (Sample.paged [Ok []])) =
  Some (Return (Sample.ids 0 200),
        {| upstream := Sample.paged [];
           log := ([] ++ [Fetch (history_request Sample.key "europe" "lol"
                                   "player-1" 200 (Z.min 100 (500 - 200)))])%list |}).
Proof.
  destruct (history_stops_at_short_page Mock.net Sample.key
              "europe" "lol" "player-1"
              0%nat (VStr "euw1") (VStr "lol") (MString "europe")
              (Mock.start Sample.ends_at_240)
              (Sample.ids 0 100) (Sample.ids 100 100) (Sample.ids 200 40)
              (Sample.paged [Ok (Sample.ids 100 100); Ok (Sample.ids 200 40)])
              (Sample.paged [Ok (Sample.ids 200 40)])
              (Sample.paged []))
    as (Hrun & Hempty); try reflexivity.
  split; [exact Hrun|].
  apply (Hempty 0%nat 500 200 (Sample.ids 0 200)
           (Mock.start (Sample.paged [Ok []])) (Sample.paged []));
    [lia | reflexivity].
Defined.

(** ** Regions and modes *)


(** ** The region table *)

Lemma regionToRouting_known code cluster :
  In (code, cluster) regionToRouting -> routing_of_key code = MString cluster.
Proof.
  unfold regionToRouting. cbn [In]. intros Hin.
  repeat (destruct Hin as [Heq|Hin];
          [injection Heq as <- <-; reflexivity|]).
  contradiction.
Qed.

Lemma routing_default code :
  assoc code regionToRouting = None ->
  assoc code Object_prototype = None ->
  routing_of_key code = MString "americas".
Proof.
  intros Hown Hinherited. unfold routing_of_key, regionToRouting_at.
  now rewrite Hown, Hinherited.
Qed.

Section Regions.
Context `{Runtime}.

(** C9, at the input where the code departs from it.  The known codes map
    by the table and a code that neither the table nor [Object.prototype]
    knows falls back to [americas] (the two lemmas above); but the region
    [constructor] finds the function [Object] on the prototype of the
    table, which is truthy, so that the fallback is not taken and the host
    of the account request is the source text of that function. *)
Theorem region_constructor_misses_the_default :
  routing_of (VStr "constructor") = Return (MFunction "Object") /\
  routing_of_key "constructor" <> MString "americas" /\
  account_url (member_toString (routing_of_key "constructor")) "Name" "TAG" =
  "https://function Object() { [native code] }.api.riotgames.com/riot/account/v1/accounts/by-riot-id/Name/TAG".
Proof.
  split; [reflexivity|]. split; [discriminate | reflexivity].
Qed.
End Regions.

Section Modes.
Context `{Runtime} {U : Type} (net : Network U) (key : option string).











End Modes.

(** ** The handler *)


Ltac outcome_inv :=
  repeat match goal with
         | Hrun : obind ?c _ = Return _ |- _ =>
             let E := fresh "E" in
             destruct c eqn:E; cbn [obind] in Hrun; [|discriminate Hrun]
         end.

Section Values_facts.
Context `{Runtime}.

Lemma get_Return k v x : get k v = Return x -> x = get_opt k v.
Proof. destruct v; cbn; intros Hget; congruence. Qed.

Lemma traverse_Forall2 {A B} (f : A -> Outcome B) l : forall l',
  traverse f l = Return l' -> Forall2 (fun a b => f a = Return b) l l'.
Proof.
  induction l as [|a l IH]; cbn [traverse]; intros l' Hrun.
  - injection Hrun as <-. constructor.
  - outcome_inv. injection Hrun as <-. constructor; auto.
Qed.


Lemma sharedMatchIds_In matches1 matches2 id :
  In id (sharedMatchIds matches1 matches2) <-> In id matches1 /\ In id matches2.
Proof.
  unfold sharedMatchIds, includes. rewrite filter_In, existsb_exists.
  split; intros [Hin1 Hin2]; split; auto.
  - destruct Hin2 as (x & Hx & Heq). apply String.eqb_eq in Heq. now subst.
  - exists id. split; [assumption | apply String.eqb_refl].
Qed.

End Values_facts.

Section Handler_facts.
Context `{Runtime} {U : Type} (net : Network U) (key : option string).

Lemma fetch_shared_details region mode ids : forall acc w records w',
  fetch_shared net key ids region mode acc w = Some (Return records, w') ->
  exists fresh,
    records = (acc ++ fresh)%list /\
    details_fetched net key region mode ids w fresh w'.
Proof.
  induction ids as [|id ids IH]; intros acc w records w' Hrun.
  - cbn in Hrun. injection Hrun as <- <-. exists []. split.
    + now rewrite app_nil_r.
    + constructor.
  - cbn [fetch_shared] in Hrun. unfold bind in Hrun.
    destruct (getMatchDetails net key id region mode w)
      as [[[record|e] w1]|] eqn:Hone; try discriminate.
    unfold sleep, emit in Hrun.
    destruct (IH _ _ _ _ Hrun) as (fresh & -> & Hrest).
    exists (record :: fresh). split.
    + now rewrite <- app_assoc.
    + econstructor; eassumption.
Qed.

Lemma details_fetched_length region mode ids w records w' :
  details_fetched net key region mode ids w records w' ->
  length records = length ids.
Proof. induction 1; cbn; congruence. Qed.


Lemma POST_try_ok_inv fuel request_json w response w' :
  POST_try net key fuel request_json w = Some (Return response, w') ->
  status response = 200 ->
  exists account1 account2 region mode matches1 matches2 records matchData,
    gathers net key fuel request_json w account1 account2 region mode
      matches1 matches2 records w' /\
    traverse (project account1 account2 mode) records = Return matchData /\
    response = comparison account1 account2 matchData.
Proof.
  unfold POST_try, bind, lift. intros Hrun Hstatus.
  destruct request_json as [parsed|e]; [|discriminate].
  destruct (destructure parsed) as [[[[player1 player2] region] mode]|e]
    eqn:Hfields; [|discriminate].
  destruct (split_call "player1.split" player1) as [pieces1|e] eqn:Hs1;
    [|discriminate].
  destruct (split_call "player2.split" player2) as [pieces2|e] eqn:Hs2;
    [|discriminate].
  destruct (usable (nth_error pieces1 0)) as [gameName1|] eqn:Hg1;
    [|injection Hrun as <- <-; discriminate].
  destruct (usable (nth_error pieces1 1)) as [tagLine1|] eqn:Ht1;
    [|injection Hrun as <- <-; discriminate].
  destruct (usable (nth_error pieces2 0)) as [gameName2|] eqn:Hg2;
    [|injection Hrun as <- <-; discriminate].
  destruct (usable (nth_error pieces2 1)) as [tagLine2|] eqn:Ht2;
    [|injection Hrun as <- <-; discriminate].
  destruct (Promise_all2 _ _ w) as [[[[account1 account2]|e] w1]|]
    eqn:Haccounts; try discriminate.
  destruct (getMatchHistory net key fuel (puuid account1) region mode 500 w1)
    as [[[matches1|e] w2]|] eqn:Hh1; try discriminate.
  destruct (getMatchHistory net key fuel (puuid account2) region mode 500 w2)
    as [[[matches2|e] w3]|] eqn:Hh2; try discriminate.
  destruct (fetch_shared net key _ region mode [] w3)
    as [[[records|e] w4]|] eqn:Hrecords; try discriminate.
  destruct (traverse _ records) as [matchData|e] eqn:Hproject;
    [|discriminate].
  injection Hrun as <- <-.
  exists account1, account2, region, mode, matches1, matches2, records, matchData.
  split; [|split; [assumption | reflexivity]].
  exists parsed, player1, player2, pieces1, pieces2, gameName1, tagLine1,
    gameName2, tagLine2, w1, w2, w3.
  repeat split; assumption.
Qed.

Lemma POST_ok_inv fuel request_json w response w' :
  POST net key fuel request_json w = Some (Return response, w') ->
  status response = 200 ->
  key_missing key = false /\
  POST_try net key fuel request_json w = Some (Return response, w').
Proof.
  unfold POST. intros Hrun Hstatus.
  destruct (key_missing key).
  - injection Hrun as <- <-. discriminate.
  - split; [reflexivity|].
    destruct (POST_try net key fuel request_json w) as [[[r|e] w1]|];
      [assumption | | discriminate].
    cbn in Hrun. injection Hrun as <- <-. discriminate.
Qed.

(** C1.  Whenever the handler answers 200, with [matches1] and [matches2]
    the histories returned for the two players, the records were fetched
    for the ids of [matches1] that [matches2] includes, one for each id and
    in that order, and [matches] is the list of their projections, in the
    same order; the shared ids are exactly the ids in both lists.  The
    histories [A, B, C, D] and [X, B, Y, D] share [B, D]. *)
Theorem matches_follow_shared_ids fuel request_json w response w' :
  POST net key fuel request_json w = Some (Return response, w') ->
  status response = 200 ->
  exists account1 account2 region mode matches1 matches2 records matchData w3,
    gathers net key fuel request_json w account1 account2 region mode
      matches1 matches2 records w' /\
    details_fetched net key region mode (sharedMatchIds matches1 matches2)
      w3 records w' /\
    Forall2 (fun record summary =>
               project account1 account2 mode record = Return summary)
      records matchData /\
    body response = VObj [ ("player1", display account1);
                           ("player2", display account2);
                           ("matches", VArr matchData) ] /\
    length matchData = length (sharedMatchIds matches1 matches2) /\
    sharedMatchIds matches1 matches2 =
      filter (fun id => existsb (String.eqb id) matches2) matches1 /\
    (forall id, In id (sharedMatchIds matches1 matches2) <->
                In id matches1 /\ In id matches2) /\
    sharedMatchIds ["A"; "B"; "C"; "D"] ["X"; "B"; "Y"; "D"] = ["B"; "D"].
Proof.
  intros Hrun Hstatus.
  destruct (POST_ok_inv _ _ _ _ _ Hrun Hstatus) as (_ & Htry).
  destruct (POST_try_ok_inv _ _ _ _ _ Htry Hstatus)
    as (account1 & account2 & region & mode & matches1 & matches2 & records &
        matchData & Hgathers & Hproject & ->).
  pose proof Hgathers as Hg.
  destruct Hg as (parsed & player1 & player2 & pieces1 & pieces2 & gameName1 &
                  tagLine1 & gameName2 & tagLine2 & w1 & w2 & w3 & _ & _ & _ &
                  _ & _ & _ & _ & _ & _ & _ & _ & Hrecords).
  destruct (fetch_shared_details _ _ _ _ _ _ _ Hrecords)
    as (fresh & Heq & Hdetails).
  cbn [app] in Heq. subst fresh.
  pose proof (traverse_Forall2 _ _ _ Hproject) as Hall.
  exists account1, account2, region, mode, matches1, matches2, records,
    matchData, w3.
  split; [assumption|]. split; [assumption|]. split; [assumption|].
  split; [reflexivity|]. split.
  { rewrite <- (Forall2_length Hall).
    eapply details_fetched_length; eassumption. }
  split; [reflexivity|]. split; [|reflexivity].
  intros id. apply sharedMatchIds_In.
Qed.

End Handler_facts.

(** ** The projection and the body of the answer *)


Section Projection.
Context `{Runtime}.

Lemma project_names account1 account2 mode record summary :
  project account1 account2 mode record = Return summary ->
  summary_names summary = summary_fields mode.
Proof.
  unfold project, summary_fields.
  destruct (strict_eq_str mode "tft"); intros Hrun.
  - unfold project_tft in Hrun. outcome_inv. injection Hrun as <-. reflexivity.
  - unfold project_lol in Hrun. outcome_inv. injection Hrun as <-. reflexivity.
Qed.

(** C7, as amended.  In both modes the [timestamp] of a summary is the
    value that the record holds in [info.game_datetime] (mode ["tft"]) or in
    [info.gameStartTimestamp] (any other mode), copied as it is: the
    projection converts no unit. *)
Theorem timestamp_is_copied_unchanged account1 account2 mode record summary :
  project account1 account2 mode record = Return summary ->
  get_opt "timestamp" summary =
  get_opt (timestamp_field mode) (get_opt "info" record).
Proof.
  unfold project, timestamp_field.
  destruct (strict_eq_str mode "tft"); intros Hrun.
  - unfold project_tft in Hrun. outcome_inv. injection Hrun as <-.
    cbn. rewrite (get_Return _ _ _ E3) in E6. now apply get_Return.
  - unfold project_lol in Hrun. outcome_inv. injection Hrun as <-.
    cbn. rewrite (get_Return _ _ _ E3) in E5. now apply get_Return.
Qed.

End Projection.

Section Handler_more.
Context `{Runtime} {U : Type} (net : Network U) (key : option string).

Lemma find_by_puuid_returns id ps : forall e,
  find_by_puuid id ps = Return e -> e = entry_for id ps.
Proof.
  induction ps as [|p ps IH]; cbn [find_by_puuid entry_for]; intros e Hrun.
  - now injection Hrun.
  - destruct (get "puuid" p) as [q|] eqn:Hq; [|discriminate].
    cbn [obind] in Hrun. rewrite <- (get_Return _ _ _ Hq).
    destruct (strict_eq_str q id); [now injection Hrun | auto].
Qed.

Lemma find_participant_returns id record e :
  find_participant id record = Return e ->
  e = entry_for id (participants_of record).
Proof.
  unfold find_participant, participants_of. intros Hrun.
  destruct (get "info" record) as [info|] eqn:Hinfo; [|discriminate].
  cbn [obind] in Hrun.
  destruct (get "participants" info) as [parts|] eqn:Hparts; [|discriminate].
  cbn [obind] in Hrun.
  rewrite <- (get_Return _ _ _ Hinfo), <- (get_Return _ _ _ Hparts).
  destruct parts; try discriminate. now apply find_by_puuid_returns.
Qed.

Lemma traits_of_string who entry v :
  traits_of who entry = Return v -> exists label, v = VStr label.
Proof.
  unfold traits_of.
  destruct (get_opt "traits" entry); intros Hrun; try discriminate;
    try (injection Hrun as <-; eauto).
  outcome_inv. injection Hrun as <-. eauto.
Qed.

(** What the projection returns is the summary of the record. *)
Lemma project_summarises account1 account2 mode record summary :
  project account1 account2 mode record = Return summary ->
  summarises account1 account2 mode record summary.
Proof.
  unfold project, summarises. cbn zeta.
  destruct (strict_eq_str mode "tft"); intros Hrun.
  - unfold project_tft in Hrun.
    destruct (find_participant (puuid account1) record) as [e1|] eqn:H1;
      [|discriminate]. cbn [obind] in Hrun.
    destruct (find_participant (puuid account2) record) as [e2|] eqn:H2;
      [|discriminate]. cbn [obind] in Hrun.
    apply find_participant_returns in H1, H2. subst e1 e2.
    destruct (get "metadata" record) as [metadata|] eqn:Hm; [|discriminate].
    cbn [obind] in Hrun.
    destruct (get "match_id" metadata) as [matchId|] eqn:Hid; [|discriminate].
    cbn [obind] in Hrun.
    destruct (get "info" record) as [info|] eqn:Hi; [|discriminate].
    cbn [obind] in Hrun.
    destruct (get "tft_set_number" info) as [number|] eqn:Hn; [|discriminate].
    cbn [obind] in Hrun.
    apply get_Return in Hm, Hi. subst metadata info.
    apply get_Return in Hid, Hn. subst matchId number.
    match type of Hrun with
    | obind ?c _ = _ => destruct c as [gameMode|] eqn:Hg; [|discriminate]
    end. cbn [obind] in Hrun.
    destruct (get "game_datetime" _) as [timestamp|] eqn:Ht; [|discriminate].
    cbn [obind] in Hrun.
    destruct (get "game_length" _) as [len|] eqn:Hl; [|discriminate].
    cbn [obind] in Hrun. apply get_Return in Ht, Hl. subst timestamp len.
    destruct (formatDuration _) as [duration|] eqn:Hd; [|discriminate].
    cbn [obind] in Hrun.
    destruct (traits_of "player1Data" _) as [t1|] eqn:Ht1; [|discriminate].
    cbn [obind] in Hrun.
    destruct (traits_of "player2Data" _) as [t2|] eqn:Ht2; [|discriminate].
    cbn [obind] in Hrun.
    destruct (traits_of_string _ _ _ Ht1) as (l1 & ->).
    destruct (traits_of_string _ _ _ Ht2) as (l2 & ->).
    injection Hrun as <-. exists gameMode, duration, l1, l2.
    split; [reflexivity|]. split; [|auto].
    destruct (truthy _); [|injection Hg as <-; now left].
    destruct (to_string _) as [n|]; [|discriminate].
    injection Hg as <-. right. now exists n.
  - unfold project_lol in Hrun.
    destruct (find_participant (puuid account1) record) as [e1|] eqn:H1;
      [|discriminate]. cbn [obind] in Hrun.
    destruct (find_participant (puuid account2) record) as [e2|] eqn:H2;
      [|discriminate]. cbn [obind] in Hrun.
    apply find_participant_returns in H1, H2. subst e1 e2.
    destruct (get "metadata" record) as [metadata|] eqn:Hm; [|discriminate].
    cbn [obind] in Hrun.
    destruct (get "matchId" metadata) as [matchId|] eqn:Hid; [|discriminate].
    cbn [obind] in Hrun.
    destruct (get "info" record) as [info|] eqn:Hi; [|discriminate].
    cbn [obind] in Hrun.
    apply get_Return in Hm, Hi. subst metadata info.
    destruct (get "gameMode" _) as [gameMode|] eqn:Hg; [|discriminate].
    cbn [obind] in Hrun.
    destruct (get "gameStartTimestamp" _) as [timestamp|] eqn:Ht;
      [|discriminate]. cbn [obind] in Hrun.
    destruct (get "gameDuration" _) as [len|] eqn:Hl; [|discriminate].
    cbn [obind] in Hrun.
    apply get_Return in Hid, Hg, Ht, Hl. subst matchId gameMode timestamp len.
    destruct (formatDuration _) as [duration|] eqn:Hd; [|discriminate].
    cbn [obind] in Hrun. injection Hrun as <-. now exists duration.
Qed.

(** Where a summary carries [id], a copied value carries it or a label is
    [id]; and what a copied value carries, the summary carries. *)
Lemma summary_carries account1 account2 mode record summary id :
  summarises account1 account2 mode record summary ->
  let entry1 := entry_for (puuid account1) (participants_of record) in
  let entry2 := entry_for (puuid account2) (participants_of record) in
  (carries id summary = true ->
   existsb (carries id) (copied mode record entry1 entry2) = true \/
   get_opt "duration" summary = VStr id \/
   (strict_eq_str mode "tft" = true /\
    (get_opt "gameMode" summary = VStr id \/
     get_opt "traits" (stats_of "player1" summary) = VStr id \/
     get_opt "traits" (stats_of "player2" summary) = VStr id))) /\
  (existsb (carries id) (copied mode record entry1 entry2) = true ->
   carries id summary = true).
Proof.
  unfold summarises, copied. cbn zeta.
  destruct (strict_eq_str mode "tft").
  - intros (g & d & t1 & t2 & -> & _).
    unfold tft_summary, stats_of. cbn [carries existsb get_opt own].
    cbn [String.eqb Ascii.eqb Bool.eqb orb].
    destruct (String.eqb_spec g id) as [->|_],
             (String.eqb_spec d id) as [->|_],
             (String.eqb_spec t1 id) as [->|_],
             (String.eqb_spec t2 id) as [->|_],
             (carries id (get_opt "match_id" _)),
             (carries id (get_opt "game_datetime" _)),
             (carries id (get_opt "placement" (entry_for (puuid account1) _))),
             (carries id (get_opt "placement" (entry_for (puuid account2) _)));
      cbn [orb]; split; intros Hc; try discriminate Hc; auto 10.
  - intros (d & -> & _).
    unfold classic_summary, stats_of. cbn [carries existsb get_opt own].
    cbn [String.eqb Ascii.eqb Bool.eqb orb].
    destruct (String.eqb_spec d id) as [->|_],
             (carries id (get_opt "matchId" _)),
             (carries id (get_opt "gameMode" _)),
             (carries id (get_opt "gameStartTimestamp" _)),
             (carries id (get_opt "championName" (entry_for (puuid account1) _))),
             (carries id (get_opt "teamId" (entry_for (puuid account1) _))),
             (carries id (get_opt "championName" (entry_for (puuid account2) _))),
             (carries id (get_opt "teamId" (entry_for (puuid account2) _)));
      cbn [orb]; split; intros Hc; try discriminate Hc; auto 10.
Qed.

(** C8, as amended.  Whenever the handler answers 200, the two player
    fields of the body are objects with exactly the properties [gameName]
    and [tagLine], holding those of the resolved accounts.  Each summary is
    the summary of its record: its property names are those of the mode,
    none of them [puuid], and its values are the values that the record
    holds in fixed fields ([copied]) and the labels of the duration, of the
    game mode and of the traits.  The [puuid] of an account only selects
    the entry of the player.  So the handler writes no [puuid] of its own:
    a summary carries a [puuid] exactly when the record holds it in a
    copied field, or when a label happens to be that very string. *)
Theorem summaries_copy_fixed_fields_of_the_record
    fuel request_json w response w' :
  POST net key fuel request_json w = Some (Return response, w') ->
  status response = 200 ->
  exists account1 account2 region mode matches1 matches2 records matchData,
    gathers net key fuel request_json w account1 account2 region mode
      matches1 matches2 records w' /\
    body response =
      VObj [ ("player1", VObj [ ("gameName", VStr (gameName account1));
                                ("tagLine", VStr (tagLine account1)) ]);
             ("player2", VObj [ ("gameName", VStr (gameName account2));
                                ("tagLine", VStr (tagLine account2)) ]);
             ("matches", VArr matchData) ] /\
    Forall2 (fun record summary =>
       let entry1 := entry_for (puuid account1) (participants_of record) in
       let entry2 := entry_for (puuid account2) (participants_of record) in
       summarises account1 account2 mode record summary /\
       summary_names summary = summary_fields mode /\
       ~ In "puuid" (summary_names summary) /\
       forall id,
         (carries id summary = true ->
          existsb (carries id) (copied mode record entry1 entry2) = true \/
          get_opt "duration" summary = VStr id \/
          (strict_eq_str mode "tft" = true /\
           (get_opt "gameMode" summary = VStr id \/
            get_opt "traits" (stats_of "player1" summary) = VStr id \/
            get_opt "traits" (stats_of "player2" summary) = VStr id))) /\
         (existsb (carries id) (copied mode record entry1 entry2) = true ->
          carries id summary = true))
      records matchData.
Proof.
  intros Hrun Hstatus.
  destruct (POST_ok_inv _ _ _ _ _ _ _ Hrun Hstatus) as (_ & Htry).
  destruct (POST_try_ok_inv _ _ _ _ _ _ _ Htry Hstatus)
    as (account1 & account2 & region & mode & matches1 & matches2 & records &
        matchData & Hgathers & Hproject & ->).
  exists account1, account2, region, mode, matches1, matches2, records, matchData.
  split; [assumption|]. split; [reflexivity|].
  apply traverse_Forall2 in Hproject.
  clear -Hproject.
  induction Hproject as [|record summary records matchData Hone _ IH];
    [constructor|]. constructor; [|exact IH].
  cbn zeta. pose proof (project_summarises _ _ _ _ _ Hone) as Hshape.
  split; [exact Hshape|].
  rewrite (project_names _ _ _ _ _ Hone). split; [reflexivity|]. split.
  - unfold summary_fields. destruct (strict_eq_str mode "tft"); cbn;
      intros Hin; repeat (destruct Hin as [Hin|Hin]; [discriminate|]);
      contradiction.
  - intros id. exact (summary_carries _ _ _ _ _ id Hshape).
Qed.

(** C6, at the input where the code departs from it.  A body without
    [player1] is not answered 400: [player1.split] throws on [undefined],
    the [catch] logs the exception and answers 500 with the message of the
    engine.  Nothing is asked of the service. *)
Theorem missing_player_is_answered_500 fuel w :
  POST net (Some "RGAPI-key") fuel
    (Return (VObj [ ("player2", VStr "Valid#TAG"); ("region", VStr "na1") ])) w =
  Some (Return {| status := 500;
                  body := VObj [ ("error",
                     VStr (message_or_default
                             (Native (ReadOfNullish Undefined "split")))) ] |},
        {| upstream := upstream w;
           log := (log w ++
                   [ConsoleError (Native (ReadOfNullish Undefined "split"))])%list |}).
Proof. reflexivity. Qed.

(** Two strings that the handler does not take for names are answered 400,
    and nothing is asked of the service. *)
Lemma malformed_names_are_answered_400 fuel parsed s1 s2 region mode w :
  key_missing key = false ->
  destructure parsed = Return (VStr s1, VStr s2, region, mode) ->
  usable (nth_error (split "#" s1) 0) = None \/
  usable (nth_error (split "#" s1) 1) = None \/
  usable (nth_error (split "#" s2) 0) = None \/
  usable (nth_error (split "#" s2) 1) = None ->
  POST net key fuel (Return parsed) w = Some (Return invalid_player_format, w).
Proof.
  intros Hkey Hfields Hbad. unfold POST. rewrite Hkey.
  unfold POST_try, bind, lift. rewrite Hfields. cbn [split_call].
  destruct (usable (nth_error (split "#" s1) 0)),
           (usable (nth_error (split "#" s1) 1)),
           (usable (nth_error (split "#" s2) 0)),
           (usable (nth_error (split "#" s2) 1)); try reflexivity.
  destruct Hbad as [Hbad|[Hbad|[Hbad|Hbad]]]; discriminate.
Qed.

(** What the handler takes for a name and a tag is a well-formed
    identifier. *)
Lemma accepted_is_well_formed s name tag :
  usable (nth_error (split "#" s) 0) = Some name ->
  usable (nth_error (split "#" s) 1) = Some tag ->
  well_formed_identifier s.
Proof.
  assert (Hsplit : forall t,
            match split_on_first_hash t with
            | None => split "#" t = [t]
            | Some (before, rest) => split "#" t = before :: split "#" rest
            end).
  { induction t as [|c t IH]; cbn [split split_on_first_hash]; [reflexivity|].
    destruct (Ascii.eqb c "#"); [reflexivity|].
    destruct (split_on_first_hash t) as [[before rest]|]; now rewrite IH. }
  intros Hname Htag. specialize (Hsplit s). unfold well_formed_identifier.
  destruct (split_on_first_hash s) as [[before rest]|]; rewrite Hsplit in *.
  - exists before, rest. split; [reflexivity|]. split.
    + cbn in Hname. intros ->. discriminate.
    + intros ->. cbn in Htag. discriminate.
  - cbn in Htag. discriminate.
Qed.

(** The part of C6 that holds: two strings of which one is not a
    well-formed identifier are answered 400 with the message of the
    validation, and nothing is asked of the service. *)
Lemma invalid_identifiers_are_answered_400 fuel parsed s1 s2 region mode w :
  key_missing key = false ->
  destructure parsed = Return (VStr s1, VStr s2, region, mode) ->
  ~ well_formed_identifier s1 \/ ~ well_formed_identifier s2 ->
  POST net key fuel (Return parsed) w =
  Some (Return {| status := 400;
                  body := VObj [ ("error",
                                  VStr "Invalid player format. Use: Name#TAG") ] |},
        w).
Proof.
  intros Hkey Hfields Hbad.
  apply (malformed_names_are_answered_400 fuel parsed s1 s2 region mode w Hkey
           Hfields).
  destruct (usable (nth_error (split "#" s1) 0)) as [n1|] eqn:Hn1; [|auto].
  destruct (usable (nth_error (split "#" s1) 1)) as [t1|] eqn:Ht1; [|auto].
  destruct (usable (nth_error (split "#" s2) 0)) as [n2|] eqn:Hn2; [|auto].
  destruct (usable (nth_error (split "#" s2) 1)) as [t2|] eqn:Ht2; [|auto].
  exfalso. destruct Hbad as [Hbad|Hbad]; apply Hbad.
  - exact (accepted_is_well_formed s1 n1 t1 Hn1 Ht1).
  - exact (accepted_is_well_formed s2 n2 t2 Hn2 Ht2).
Qed.

End Handler_more.

(** ** Records with missing parts *)


Section Shaped.
Context `{Runtime}.











Lemma no_info_throws account1 account2 mode record :
  no_info record = true ->
  exists e, project account1 account2 mode record = Throw e.
Proof.
  unfold no_info, project, project_tft, project_lol, find_participant.
  intros Hnone.
  destruct record as [| | | | | |props]; cbn [get get_opt obind] in *;
    destruct (strict_eq_str mode "tft"); eauto.
  all: destruct (own "info" props); try discriminate; cbn; eauto.
Qed.






End Shaped.

Section Degrade.
Context `{Runtime} {U : Type} (net : Network U) (key : option string).


End Degrade.

(** ** Further properties of the handler *)

(** ** What the handler asks of the service *)

Lemma append_assoc (a b c : string) : ((a ++ b) ++ c = a ++ b ++ c)%string.
Proof. induction a as [|x a IH]; cbn; [reflexivity | now rewrite IH]. Qed.

Lemma prefix_append (a b : string) : String.prefix a (a ++ b) = true.
Proof.
  induction a as [|x a IH]; cbn; [now destruct b|].
  destruct (ascii_dec x x); [exact IH | contradiction].
Qed.

Lemma origin_append routing rest :
  ("https://" ++ routing ++ ".api.riotgames.com/" ++ rest)%string =
  (origin routing ++ rest)%string.
Proof. unfold origin. cbn. now rewrite append_assoc. Qed.

Lemma account_url_origin routing g t :
  String.prefix (origin routing) (account_url routing g t) = true.
Proof.
  unfold account_url.
  change (".api.riotgames.com/riot/account/v1/accounts/by-riot-id/" ++ g ++ "/" ++ t)%string
    with (".api.riotgames.com/" ++ "riot/account/v1/accounts/by-riot-id/" ++ g ++ "/" ++ t)%string.
  rewrite origin_append. apply prefix_append.
Qed.

Lemma history_url_origin routing gameType puuid start count :
  String.prefix (origin routing)
    (history_url routing gameType puuid start count) = true.
Proof. unfold history_url. rewrite origin_append. apply prefix_append. Qed.

Lemma detail_url_origin routing gameType version matchId :
  String.prefix (origin routing)
    (detail_url routing gameType version matchId) = true.
Proof. unfold detail_url. rewrite origin_append. apply prefix_append. Qed.

Section Log.
Context `{Runtime} {U : Type} (net : Network U) (key : option string).

Lemma appends_ret {A} P (a : A) : appends P (@ret U A a).
Proof.
  intros w r w' Hrun. injection Hrun as <- <-. exists [].
  now rewrite app_nil_r.
Qed.

Lemma appends_throw {A} P e : appends P (@throw U A e).
Proof.
  intros w r w' Hrun. injection Hrun as <- <-. exists [].
  now rewrite app_nil_r.
Qed.

Lemma appends_bind {A B} P (m : @M U A) (k : A -> @M U B) :
  appends P m -> (forall a, appends P (k a)) -> appends P (bind m k).
Proof.
  intros Hm Hk w r w' Hrun. unfold bind in Hrun.
  destruct (m w) as [[[a|e] w1]|] eqn:Hfirst; [| |discriminate].
  - destruct (Hm _ _ _ Hfirst) as (ev1 & E1 & F1).
    destruct (Hk a _ _ _ Hrun) as (ev2 & E2 & F2).
    exists (ev1 ++ ev2)%list. split.
    + now rewrite E2, E1, app_assoc.
    + now apply Forall_app.
  - injection Hrun as <- <-. exact (Hm _ _ _ Hfirst).
Qed.

(** After [lift o], the continuation runs on what [o] returned. *)
Lemma appends_lift {A B} P (o : Outcome A) (k : A -> @M U B) :
  (forall a, o = Return a -> appends P (k a)) -> appends P (bind (lift o) k).
Proof.
  intros Hk w r w' Hrun. unfold bind, lift in Hrun.
  destruct o as [a|e]; [exact (Hk a eq_refl _ _ _ Hrun)|].
  injection Hrun as <- <-. exists []. now rewrite app_nil_r.
Qed.

Lemma appends_emit (P : Event -> Prop) e : P e -> appends P (@emit U e).
Proof.
  intros He w r w' Hrun. injection Hrun as <- <-. exists [e].
  split; [reflexivity | now constructor].
Qed.

Lemma appends_fetch {A} (P : Event -> Prop)
    (service : Request -> U -> Reply A * U) u :
  P (Fetch {| url := u; X_Riot_Token := key |}) ->
  appends P (fetch key service u).
Proof.
  intros He w r w' Hrun. unfold fetch in Hrun.
  destruct (service _ (upstream w)) as [reply next].
  injection Hrun as <- <-. eexists. split; [reflexivity | now constructor].
Qed.

Lemma appends_weaken {A} (P Q : Event -> Prop) (m : @M U A) :
  (forall e, P e -> Q e) -> appends P m -> appends Q m.
Proof.
  intros Himp Hm w r w' Hrun. destruct (Hm _ _ _ Hrun) as (evs & E & F).
  exists evs. split; [assumption|]. eapply Forall_impl; eassumption.
Qed.

Lemma getAccountByRiotId_appends gameName tagLine region :
  appends (fetcher_event key region)
    (getAccountByRiotId net key gameName tagLine region).
Proof.
  unfold getAccountByRiotId.
  apply appends_lift. intros m Hm.
  apply appends_lift. intros g _. apply appends_lift. intros t _.
  apply appends_bind.
  { apply appends_fetch. split; [reflexivity|]. exists m.
    split; [assumption | apply account_url_origin]. }
  intros [account|s text|detail];
    [apply appends_ret | apply appends_throw | apply appends_throw].
Qed.

Lemma getMatchHistory_loop_appends fuel region m gameType puuid count :
  routing_of region = Return m ->
  forall start acc,
    appends (fetcher_event key region)
      (getMatchHistory_loop net key fuel (member_toString m) gameType puuid
         count start acc).
Proof.
  intros Hm. induction fuel as [|fuel IH]; intros start acc.
  - intros w r w' Hrun. discriminate.
  - cbn [getMatchHistory_loop]. destruct (start <? count); [|apply appends_ret].
    apply appends_bind.
    { apply appends_fetch. split; [reflexivity|]. exists m.
      split; [assumption | apply history_url_origin]. }
    intros [matches|status text|detail].
    + destruct (_ =? 0); [apply appends_ret|].
      destruct (_ <? _); [apply appends_ret|].
      apply appends_bind; [apply appends_emit; now left | intros _; apply IH].
    + destruct (status =? 429); [|apply appends_throw].
      apply appends_bind; [apply appends_emit; now right | intros _; apply IH].
    + apply appends_throw.
Qed.

Lemma getMatchHistory_appends fuel puuid region mode count :
  appends (fetcher_event key region)
    (getMatchHistory net key fuel puuid region mode count).
Proof.
  unfold getMatchHistory. apply appends_lift. intros m Hm.
  now apply getMatchHistory_loop_appends.
Qed.

Lemma getMatchDetails_appends id region mode :
  appends (fetcher_event key region) (getMatchDetails net key id region mode).
Proof.
  unfold getMatchDetails. apply appends_lift. intros m Hm.
  apply appends_bind.
  { apply appends_fetch. split; [reflexivity|]. exists m.
    split; [assumption | apply detail_url_origin]. }
  intros [record|s text|detail];
    [apply appends_ret | apply appends_throw | apply appends_throw].
Qed.

Lemma fetch_shared_appends ids region mode :
  forall acc, appends (fetcher_event key region)
                (fetch_shared net key ids region mode acc).
Proof.
  induction ids as [|id ids IH]; intros acc; cbn [fetch_shared];
    [apply appends_ret|].
  apply appends_bind; [apply getMatchDetails_appends|]. intros record.
  apply appends_bind; [apply appends_emit; now left | intros _; apply IH].
Qed.

Lemma Promise_all2_appends {A B} P (p : @M U A) (q : @M U B) :
  appends P p -> appends P q -> appends P (Promise_all2 p q).
Proof.
  intros Hp Hq w r w' Hrun. unfold Promise_all2 in Hrun.
  destruct (p w) as [[o1 w1]|] eqn:Hfirst; [|discriminate].
  destruct (q w1) as [[o2 w2]|] eqn:Hsecond; [|discriminate].
  injection Hrun as <- <-.
  destruct (Hp _ _ _ Hfirst) as (ev1 & E1 & F1).
  destruct (Hq _ _ _ Hsecond) as (ev2 & E2 & F2).
  exists (ev1 ++ ev2)%list. split.
  - now rewrite E2, E1, app_assoc.
  - now apply Forall_app.
Qed.

(** The handler after its validation. *)
Lemma POST_try_validated fuel request_json g1 t1 g2 t2 region mode w :
  validated request_json = Some (g1, t1, g2, t2, region, mode) ->
  POST_try net key fuel request_json w =
  bind (Promise_all2 (getAccountByRiotId net key g1 t1 region)
          (getAccountByRiotId net key g2 t2 region))
    (fun resolved =>
       let (account1, account2) := resolved in
       bind (getMatchHistory net key fuel (puuid account1) region mode 500)
         (fun matches1 =>
       bind (getMatchHistory net key fuel (puuid account2) region mode 500)
         (fun matches2 =>
       bind (fetch_shared net key (sharedMatchIds matches1 matches2)
               region mode [])
         (fun sharedMatches =>
       bind (lift (traverse (project account1 account2 mode) sharedMatches))
         (fun matchData =>
       ret {| status := 200;
              body := VObj [ ("player1", display account1);
                             ("player2", display account2);
                             ("matches", VArr matchData) ] |}))))) w.
Proof.
  unfold validated, POST_try. intros Hvalid.
  destruct request_json as [parsed|e]; [|discriminate].
  unfold bind at 1, lift at 1.
  destruct (destructure parsed) as [[[[player1 player2] region'] mode']|e];
    [|discriminate].
  unfold bind at 1, lift at 1. unfold bind at 1, lift at 1.
  destruct (split_call "player1.split" player1) as [pieces1|e];
    [|discriminate].
  unfold bind at 1, lift at 1.
  destruct (split_call "player2.split" player2) as [pieces2|e];
    [|discriminate].
  destruct (usable (nth_error pieces1 0)); [|discriminate].
  destruct (usable (nth_error pieces1 1)); [|discriminate].
  destruct (usable (nth_error pieces2 0)); [|discriminate].
  destruct (usable (nth_error pieces2 1)); [|discriminate].
  injection Hvalid as <- <- <- <- <- <-. reflexivity.
Qed.


(** A request that does not pass the validation leaves the world as it
    is. *)
Lemma POST_try_not_validated fuel request_json w r w' :
  validated request_json = None ->
  POST_try net key fuel request_json w = Some (r, w') -> w' = w.
Proof.
  unfold validated, POST_try, bind, lift. intros Hnone Hrun.
  destruct request_json as [parsed|e]; [|now injection Hrun].
  destruct (destructure parsed) as [[[[player1 player2] region] mode]|e];
    [|now injection Hrun].
  destruct (split_call "player1.split" player1) as [pieces1|e];
    [|now injection Hrun].
  destruct (split_call "player2.split" player2) as [pieces2|e];
    [|now injection Hrun].
  destruct (usable (nth_error pieces1 0)); [|now injection Hrun].
  destruct (usable (nth_error pieces1 1)); [|now injection Hrun].
  destruct (usable (nth_error pieces2 0)); [|now injection Hrun].
  destruct (usable (nth_error pieces2 1)); [|now injection Hrun].
  discriminate.
Qed.

Lemma POST_try_appends fuel request_json :
  appends (fun e => exists region, region_of request_json = Some region /\
                                   fetcher_event key region e)
    (POST_try net key fuel request_json).
Proof.
  destruct (validated request_json)
    as [[[[[[g1 t1] g2] t2] region] mode]|] eqn:Hvalid.
  2:{ intros w r w' Hrun.
      rewrite (POST_try_not_validated _ _ _ _ _ Hvalid Hrun).
      exists []. split; [now rewrite app_nil_r | constructor]. }
  apply (appends_weaken (fetcher_event key region)).
  { intros e He. exists region. split; [|assumption].
    unfold region_of. now rewrite Hvalid. }
  intros w r w'. rewrite (POST_try_validated _ _ _ _ _ _ _ _ w Hvalid).
  revert w r w'.
  change (appends (fetcher_event key region)
    (bind (Promise_all2 (getAccountByRiotId net key g1 t1 region)
             (getAccountByRiotId net key g2 t2 region))
       (fun resolved =>
          let (account1, account2) := resolved in
          bind (getMatchHistory net key fuel (puuid account1) region mode 500)
            (fun matches1 =>
          bind (getMatchHistory net key fuel (puuid account2) region mode 500)
            (fun matches2 =>
          bind (fetch_shared net key (sharedMatchIds matches1 matches2)
                  region mode [])
            (fun sharedMatches =>
          bind (lift (traverse (project account1 account2 mode) sharedMatches))
            (fun matchData =>
          ret {| status := 200;
                 body := VObj [ ("player1", display account1);
                                ("player2", display account2);
                                ("matches", VArr matchData) ] |}))))))).
  apply appends_bind.
  { apply Promise_all2_appends; apply getAccountByRiotId_appends. }
  intros [account1 account2].
  apply appends_bind; [apply getMatchHistory_appends|]. intros matches1.
  apply appends_bind; [apply getMatchHistory_appends|]. intros matches2.
  apply appends_bind; [apply fetch_shared_appends|]. intros sharedMatches.
  apply appends_lift. intros matchData _. apply appends_ret.
Qed.


End Log.

(** ** The answers of the handler *)

Section Outcomes.
Context `{Runtime} {U : Type} (net : Network U) (key : option string).

(** What [POST_try] returns without throwing. *)
Lemma POST_try_returns fuel request_json w response w' :
  POST_try net key fuel request_json w = Some (Return response, w') ->
  (exists account1 account2 matchData,
     response = comparison account1 account2 matchData) \/
  (response = invalid_player_format /\ w' = w).
Proof.
  unfold POST_try, bind, lift. intros Hrun.
  destruct request_json as [parsed|e]; [|discriminate].
  destruct (destructure parsed) as [[[[player1 player2] region] mode]|e];
    [|discriminate].
  destruct (split_call "player1.split" player1) as [pieces1|e];
    [|discriminate].
  destruct (split_call "player2.split" player2) as [pieces2|e];
    [|discriminate].
  destruct (usable (nth_error pieces1 0));
    [|injection Hrun as <- <-; now right].
  destruct (usable (nth_error pieces1 1));
    [|injection Hrun as <- <-; now right].
  destruct (usable (nth_error pieces2 0));
    [|injection Hrun as <- <-; now right].
  destruct (usable (nth_error pieces2 1));
    [|injection Hrun as <- <-; now right].
  destruct (Promise_all2 _ _ w) as [[[[account1 account2]|e] w1]|];
    try discriminate.
  destruct (getMatchHistory net key fuel (puuid account1) region mode 500 w1)
    as [[[matches1|e] w2]|]; try discriminate.
  destruct (getMatchHistory net key fuel (puuid account2) region mode 500 w2)
    as [[[matches2|e] w3]|]; try discriminate.
  destruct (fetch_shared net key _ region mode [] w3)
    as [[[records|e] w4]|]; try discriminate.
  destruct (traverse _ records) as [matchData|e]; [|discriminate].
  injection Hrun as <- <-. left. now exists account1, account2, matchData.
Qed.

Lemma message_or_default_nonempty e : message_or_default e <> "".
Proof.
  unfold message_or_default.
  destruct (String.eqb_spec (message e) ""); [discriminate | assumption].
Qed.

(** The handler returns a response, whatever happens. *)
Lemma POST_returns_a_response fuel request_json w o w' :
  POST net key fuel request_json w = Some (o, w') ->
  exists response,
    o = Return response /\
    ((exists account1 account2 matchData,
        response = comparison account1 account2 matchData) \/
     response = invalid_player_format \/
     (exists text, text <> "" /\
                   response = {| status := 500;
                                 body := VObj [ ("error", VStr text) ] |})).
Proof.
  unfold POST. destruct (key_missing key); intros Hrun.
  - injection Hrun as <- <-. eexists. split; [reflexivity|].
    right. right. eexists. split; [|reflexivity]. discriminate.
  - destruct (POST_try net key fuel request_json w) as [[[response|e] w1]|]
      eqn:Htry; [| |discriminate].
    + injection Hrun as <- <-. exists response. split; [reflexivity|].
      destruct (POST_try_returns _ _ _ _ _ Htry) as [Hok|[-> _]]; auto.
    + cbn in Hrun. injection Hrun as <- <-. eexists. split; [reflexivity|].
      right. right. eexists. split; [|reflexivity].
      apply message_or_default_nonempty.
Qed.

(** X2.  The handler never throws: whenever it finishes it returns a
    response, and the response is the comparison with status 200, or the
    400 of the validation, with the world left as it was, or a 500 whose
    body is an [error] property with a text that is not empty.  A 500 with
    a configured key is the answer of the [catch]: the text is the message
    of the exception, which is the last event of the log. *)
Theorem POST_answers_200_400_or_500 fuel request_json w o w' :
  POST net key fuel request_json w = Some (o, w') ->
  exists response,
    o = Return response /\
    ((status response = 200 /\ key_missing key = false /\
      exists account1 account2 matchData,
        response = comparison account1 account2 matchData) \/
     (response = invalid_player_format /\ key_missing key = false /\ w' = w) \/
     (status response = 500 /\
      exists text, body response = VObj [ ("error", VStr text) ] /\
                   text <> "" /\
                   (key_missing key = true -> w' = w) /\
                   (key_missing key = false ->
                    exists e, text = message_or_default e /\
                              exists events,
                                log w' = (log w ++ events ++ [ConsoleError e])%list))).
Proof.
  unfold POST. destruct (key_missing key) eqn:Hkey; intros Hrun.
  - injection Hrun as <- <-. eexists. split; [reflexivity|].
    right. right. split; [reflexivity|].
    eexists. split; [reflexivity|].
    split; [discriminate|]. split; [reflexivity | discriminate].
  - destruct (POST_try net key fuel request_json w) as [[[response|e] w1]|]
      eqn:Htry; [| |discriminate].
    + injection Hrun as <- <-. exists response. split; [reflexivity|].
      destruct (POST_try_returns _ _ _ _ _ Htry)
        as [(a1 & a2 & md & ->)|[-> ->]].
      * left. split; [reflexivity|]. split; [reflexivity|]. eauto.
      * right. left. auto.
    + cbn in Hrun. injection Hrun as <- <-. eexists. split; [reflexivity|].
      right. right. split; [reflexivity|].
      eexists. split; [reflexivity|].
      split; [apply message_or_default_nonempty|].
      split; [discriminate|]. intros _. exists e. split; [reflexivity|].
      destruct (POST_try_appends net key fuel request_json _ _ _ Htry)
        as (events & E & _).
      exists events. cbn [log]. now rewrite E, app_assoc.
Qed.

End Outcomes.

(** ** Requests that fail *)

Section Failures.
Context `{Runtime} {U : Type} (net : Network U) (key : option string).

Lemma POST_of_throw fuel request_json w e w' :
  key_missing key = false ->
  POST_try net key fuel request_json w = Some (Throw e, w') ->
  POST net key fuel request_json w =
  Some (Return (failure e),
        {| upstream := upstream w';
           log := (log w' ++ [ConsoleError e])%list |}).
Proof. intros Hkey Htry. unfold POST. now rewrite Hkey, Htry. Qed.

(** X3.  When exactly one of the two account lookups is answered with
    a status that is not ok, the handler answers 500 with the text
    [Failed to fetch account: <statusText>] of that lookup.  Both lookups
    were sent, the exception is on the console, and no history and no match
    record was asked for. *)
Theorem failed_account_ends_the_comparison
    fuel request_json g1 t1 g2 t2 region mode m e1 e2 e3 e4 w :
  key_missing key = false ->
  validated request_json = Some (g1, t1, g2, t2, region, mode) ->
  routing_of region = Return m ->
  encode g1 = Return e1 -> encode t1 = Return e2 ->
  encode g2 = Return e3 -> encode t2 = Return e4 ->
  (forall status text account u1 u2,
     accounts net (account_request key m e1 e2) (upstream w)
       = (NotOk status text, u1) ->
     accounts net (account_request key m e3 e4) u1 = (Ok account, u2) ->
     POST net key fuel request_json w =
     Some (Return {| status := 500;
                     body := VObj [ ("error",
                               VStr ("Failed to fetch account: " ++ text)) ] |},
           {| upstream := u2;
              log := (log w ++
                      [ Fetch (account_request key m e1 e2);
                        Fetch (account_request key m e3 e4);
                        ConsoleError
                          (Error ("Failed to fetch account: " ++ text)) ])%list |})) /\
  (forall account status text u1 u2,
     accounts net (account_request key m e1 e2) (upstream w)
       = (Ok account, u1) ->
     accounts net (account_request key m e3 e4) u1 = (NotOk status text, u2) ->
     POST net key fuel request_json w =
     Some (Return {| status := 500;
                     body := VObj [ ("error",
                               VStr ("Failed to fetch account: " ++ text)) ] |},
           {| upstream := u2;
              log := (log w ++
                      [ Fetch (account_request key m e1 e2);
                        Fetch (account_request key m e3 e4);
                        ConsoleError
                          (Error ("Failed to fetch account: " ++ text)) ])%list |})).
Proof.
  intros Hkey Hvalid Hregion He1 He2 He3 He4.
  assert (Hthrown : forall reply1 reply2 text u1 u2,
            accounts net (account_request key m e1 e2) (upstream w)
              = (reply1, u1) ->
            accounts net (account_request key m e3 e4) u1 = (reply2, u2) ->
            (exists status, reply1 = NotOk status text /\
                            exists account, reply2 = Ok account) \/
            (exists account, reply1 = Ok account /\
                             exists status, reply2 = NotOk status text) ->
            POST_try net key fuel request_json w =
            Some (Throw (Error ("Failed to fetch account: " ++ text)),
                  {| upstream := u2;
                     log := (log w ++
                             [ Fetch (account_request key m e1 e2);
                               Fetch (account_request key m e3 e4) ])%list |})).
  { intros reply1 reply2 text u1 u2 Hone Htwo Hcase.
    rewrite (POST_try_validated net key fuel request_json _ _ _ _ _ _ w Hvalid).
    unfold bind at 1, Promise_all2, getAccountByRiotId, bind, lift, fetch.
    rewrite Hregion, He1, He2, He3, He4. cbn [upstream log].
    unfold account_request in Hone, Htwo. rewrite Hone. cbn [upstream log].
    unfold account_request.
    destruct Hcase as [(status & -> & account & ->)|(account & -> & status & ->)];
      unfold ret, throw; cbn [upstream log]; rewrite Htwo;
      rewrite <- app_assoc; reflexivity. }
  split.
  - intros status text account u1 u2 Hone Htwo.
    rewrite (POST_of_throw fuel request_json w _ _ Hkey
               (Hthrown _ _ text _ _ Hone Htwo
                  (or_introl (ex_intro _ status
                     (conj eq_refl (ex_intro _ account eq_refl)))))).
    cbn [upstream log]. now rewrite <- app_assoc.
  - intros account status text u1 u2 Hone Htwo.
    rewrite (POST_of_throw fuel request_json w _ _ Hkey
               (Hthrown _ _ text _ _ Hone Htwo
                  (or_intror (ex_intro _ account
                     (conj eq_refl (ex_intro _ status eq_refl)))))).
    cbn [upstream log]. now rewrite <- app_assoc.
Qed.

(** The records fetched so far, then a record that cannot be fetched. *)
Lemma fetch_shared_stops region mode before : forall id after acc w records w1 e w2,
  details_fetched net key region mode before w records w1 ->
  getMatchDetails net key id region mode w1 = Some (Throw e, w2) ->
  fetch_shared net key (before ++ id :: after) region mode acc w =
  Some (Throw e, w2).
Proof.
  induction before as [|b before IH]; intros id after acc w records w1 e w2 Hdone Hfail.
  - inversion Hdone; subst. cbn [app fetch_shared]. unfold bind.
    now rewrite Hfail.
  - inversion Hdone as [|? ? ? record wa recs ? Hone Hrest]; subst.
    cbn [app fetch_shared]. unfold bind at 1. rewrite Hone.
    unfold bind at 1, sleep, emit.
    eapply IH; eassumption.
Qed.

(** X4.  The match records are fetched without a retry: when the
    request for one record is answered with a status that is not ok, 429
    included, the fetching throws [Failed to fetch match details:
    <statusText>] at once, the records fetched before are dropped, and the
    ids that follow are never asked for. *)
Theorem failed_record_ends_the_fetching
    region mode m before id after acc w records w1 status text u :
  routing_of region = Return m ->
  details_fetched net key region mode before w records w1 ->
  match_record net (detail_request key m mode id) (upstream w1)
    = (NotOk status text, u) ->
  fetch_shared net key (before ++ id :: after) region mode acc w =
  Some (Throw (Error ("Failed to fetch match details: " ++ text)),
        {| upstream := u;
           log := (log w1 ++ [Fetch (detail_request key m mode id)])%list |}).
Proof.
  intros Hregion Hdone Hreply.
  eapply fetch_shared_stops; [eassumption|].
  unfold getMatchDetails, bind, lift, fetch. rewrite Hregion.
  unfold detail_request in Hreply. cbn zeta. now rewrite Hreply.
Qed.

Lemma details_fetched_log region mode m ids : forall w records w',
  routing_of region = Return m ->
  details_fetched net key region mode ids w records w' ->
  log w' = (log w ++ flat_map (fun id => [Fetch (detail_request key m mode id);
                                         Sleep 100]) ids)%list.
Proof.
  intros w records w' Hregion Hdone.
  induction Hdone as [wa|id ids wa record wb recs wc Hone _ IH].
  - cbn. now rewrite app_nil_r.
  - rewrite IH. cbn [flat_map log].
    unfold getMatchDetails, bind, lift, fetch in Hone. rewrite Hregion in Hone.
    cbn zeta in Hone.
    destruct (match_record net _ (upstream wa)) as [[r|s t|d] u];
      try discriminate.
    injection Hone as _ <-. cbn [log]. unfold detail_request.
    now rewrite <- !app_assoc.
Qed.

(** X5.  When all the records are fetched, the log has grown by
    exactly one request and one pause of 100 ms for each id, in the order
    of the ids, each request to the endpoint of the mode; there is one
    record for each id. *)
Theorem records_are_fetched_one_by_one region mode m ids w records w' :
  routing_of region = Return m ->
  fetch_shared net key ids region mode [] w = Some (Return records, w') ->
  log w' = (log w ++ flat_map (fun id => [Fetch (detail_request key m mode id);
                                         Sleep 100]) ids)%list /\
  length records = length ids.
Proof.
  intros Hregion Hrun.
  destruct (fetch_shared_details net key _ _ _ _ _ _ _ Hrun)
    as (fresh & -> & Hdone).
  cbn [app]. split.
  - eapply details_fetched_log; eassumption.
  - eapply details_fetched_length; eassumption.
Qed.

End Failures.

(** ** The pages of a history *)

Section Pages.
Context `{Runtime} {U : Type} (net : Network U) (key : option string).
Variables routing gameType puuid : string.

Local Abbreviation loop := (getMatchHistory_loop net key).
Local Abbreviation request := (history_request key routing gameType puuid).

(** X6.  Whatever the service answers, every request of the
    pagination loop asks for a page that begins a whole number of full
    pages after the offset the loop started from, asks for at least 1 and
    at most 100 ids, and does not reach beyond [count]; every pause of the
    loop is one of 100 or 2000 ms. *)
Theorem pages_stay_within_count fuel : forall count start acc w o w',
  loop fuel routing gameType puuid count start acc w = Some (o, w') ->
  exists events,
    log w' = (log w ++ events)%list /\
    Forall (page_event key routing gameType puuid count start) events.
Proof.
  induction fuel as [|fuel IH]; intros count start acc w o w' Hrun;
    [discriminate|].
  destruct (Z.lt_ge_cases start count) as [Hlt|Hge].
  2:{ rewrite loop_done in Hrun by assumption. injection Hrun as <- <-.
      exists []. split; [now rewrite app_nil_r | constructor]. }
  rewrite loop_step in Hrun by assumption. cbn zeta in Hrun.
  assert (Hfirst : page_event key routing gameType puuid count start
                     (Fetch (request start (Z.min 100 (count - start))))).
  { exists 0, (Z.min 100 (count - start)).
    split; [f_equal; lia | lia]. }
  destruct (match_ids net _ (upstream w)) as [[matches|status text|detail] u].
  - destruct (_ =? 0);
      [injection Hrun as <- <-; eexists; split;
       [reflexivity | constructor; [exact Hfirst | constructor]]|].
    destruct (_ <? _) eqn:Hshort;
      [injection Hrun as <- <-; eexists; split;
       [reflexivity | constructor; [exact Hfirst | constructor]]|].
    destruct (IH _ _ _ _ _ _ Hrun) as (events & E & F). cbn [log] in E.
    exists ([Fetch (request start (Z.min 100 (count - start))); Sleep 100]
            ++ events)%list.
    split; [now rewrite E, <- app_assoc|].
    apply Forall_app. split;
      [constructor; [exact Hfirst|]; constructor; [now left | constructor]|].
    eapply Forall_impl; [|exact F].
    intros [r|ms|e]; cbn [page_event]; [|tauto|tauto].
    intros (k & c & -> & Hk & Hc & Hend).
    destruct (Z.le_gt_cases 100 (count - start)) as [Hfull|Hlast].
    + rewrite Z.min_l in * by assumption. exists (k + 1), c.
      split; [f_equal; lia | lia].
    + rewrite Z.min_r in Hend by lia. lia.
  - destruct (status =? 429).
    + destruct (IH _ _ _ _ _ _ Hrun) as (events & E & F). cbn [log] in E.
      exists ([Fetch (request start (Z.min 100 (count - start))); Sleep 2000]
              ++ events)%list.
      split; [now rewrite E, <- app_assoc|].
      apply Forall_app. split;
        [constructor; [exact Hfirst|]; constructor; [now right | constructor]|].
      assumption.
    + injection Hrun as <- <-. eexists. split;
        [reflexivity | constructor; [exact Hfirst | constructor]].
  - injection Hrun as <- <-. eexists. split;
      [reflexivity | constructor; [exact Hfirst | constructor]].
Qed.

Lemma loop_capped :
  honours_count net key routing gameType puuid ->
  forall fuel count start acc w ids w',
    Z.of_nat (length acc) <= start <= count ->
    loop fuel routing gameType puuid count start acc w = Some (Return ids, w') ->
    Z.of_nat (length ids) <= count /\ exists more, ids = (acc ++ more)%list.
Proof.
  intros Hhonours. induction fuel as [|fuel IH];
    intros count start acc w ids w' Hinv Hrun; [discriminate|].
  destruct (Z.lt_ge_cases start count) as [Hlt|Hge].
  2:{ rewrite loop_done in Hrun by assumption. injection Hrun as <- <-.
      split; [lia|]. exists []. now rewrite app_nil_r. }
  rewrite loop_step in Hrun by assumption. cbn zeta in Hrun.
  destruct (match_ids net _ (upstream w)) as [[matches|status text|detail] u]
    eqn:Hreply.
  - apply Hhonours in Hreply; [|lia].
    destruct (_ =? 0).
    { injection Hrun as <- <-. split; [lia|]. exists []. now rewrite app_nil_r. }
    destruct (_ <? _).
    { injection Hrun as <- <-. split; [rewrite length_app; lia | now exists matches]. }
    apply IH in Hrun as (Hcap & more & ->); [|rewrite length_app; lia].
    split; [assumption|]. exists (matches ++ more)%list. now rewrite app_assoc.
  - destruct (status =? 429); [|discriminate].
    exact (IH _ _ _ _ _ _ Hinv Hrun).
  - discriminate.
Qed.

Lemma loop_ends_within_the_pages n : forall count start acc w,
  never_limits net ->
  count - start <= 100 * Z.of_nat n ->
  exists r, loop (S n) routing gameType puuid count start acc w = Some r.
Proof.
  induction n as [|n IH]; intros count start acc w Hnever Hleft.
  - rewrite loop_done by lia. eauto.
  - destruct (Z.lt_ge_cases start count) as [Hlt|Hge];
      [|rewrite loop_done by lia; eauto].
    rewrite loop_step by assumption. cbn zeta.
    destruct (match_ids net _ (upstream w))
      as [[matches|status text|detail] u] eqn:Hreply; [| |eauto].
    + destruct (_ =? 0); [eauto|]. destruct (_ <? _); [eauto|].
      apply IH; [assumption | lia].
    + destruct (Z.eqb_spec status 429) as [->|_]; [|eauto].
      now apply Hnever in Hreply.
Qed.

End Pages.

Section Answers.
Context `{Runtime} {U : Type} (net : Network U) (key : option string).

Lemma getAccountByRiotId_total gameName tagLine region w :
  exists r, getAccountByRiotId net key gameName tagLine region w = Some r.
Proof.
  unfold getAccountByRiotId, bind, lift, fetch.
  destruct (routing_of region); [|eauto].
  destruct (encode gameName); [|eauto]. destruct (encode tagLine); [|eauto].
  destruct (accounts net _ (upstream w)) as [[found|code text|detail] u];
    unfold ret, throw; eauto.
Qed.

Lemma getMatchHistory_500_capped fuel puuid region mode w ids w' :
  (forall routing gameType, honours_count net key routing gameType puuid) ->
  getMatchHistory net key fuel puuid region mode 500 w
    = Some (Return ids, w') ->
  (length ids <= 500)%nat.
Proof.
  intros Hhonours Hrun. unfold getMatchHistory, bind, lift in Hrun.
  destruct (routing_of region) as [m|e]; [|discriminate].
  apply (loop_capped net key _ _ _ (Hhonours _ _)) in Hrun; [lia | cbn; lia].
Qed.

(** X7.  Against a service that never sends more ids than a request
    asks for, [getMatchHistory] returns at most [count] ids.  (The function
    does not cut a page: the bound is the service's doing.) *)
Theorem history_is_capped fuel puuid region mode count w ids w' :
  (forall routing gameType, honours_count net key routing gameType puuid) ->
  0 <= count ->
  getMatchHistory net key fuel puuid region mode count w
    = Some (Return ids, w') ->
  Z.of_nat (length ids) <= count.
Proof.
  intros Hhonours Hcount Hrun. unfold getMatchHistory, bind, lift in Hrun.
  destruct (routing_of region) as [m|e]; [|discriminate].
  eapply (loop_capped net key _ _ _ (Hhonours _ _)); [|eassumption].
  cbn. lia.
Qed.

Lemma fetch_shared_total region mode ids : forall acc w,
  exists r, fetch_shared net key ids region mode acc w = Some r.
Proof.
  induction ids as [|id ids IH]; intros acc w; cbn [fetch_shared];
    [unfold ret; eauto|].
  unfold bind at 1, getMatchDetails, bind, lift, fetch.
  destruct (routing_of region); [|eauto].
  destruct (match_record net _ (upstream w)) as [[record|code text|detail] u];
    unfold ret, throw; eauto.
  unfold sleep, emit. apply IH.
Qed.

Lemma getMatchHistory_500_total k puuid region mode w :
  never_limits net ->
  exists r, getMatchHistory net key (6 + k) puuid region mode 500 w = Some r.
Proof.
  intros Hnever. unfold getMatchHistory, bind, lift.
  destruct (routing_of region) as [m|e]; [|eauto].
  destruct (loop_ends_within_the_pages net key (member_toString m)
              (gameType_of mode) puuid 5 500 0 [] w Hnever ltac:(lia))
    as (r & Hrun).
  exists r. apply (loop_more_fuel net key _ _ _ 6 k). exact Hrun.
Qed.

(** X8.  A service of this model answers every request: [fetch] always
    settles, and a request that stays pending, which the source would
    await without a timeout, is not modelled.  Against such a service, if
    it never answers a request for match ids with 429, the handler answers
    every request: six turns of each pagination loop are enough, whatever
    the answers of the service are. *)
Theorem POST_answers_when_never_limited k request_json w :
  never_limits net ->
  exists response w',
    POST net key (6 + k) request_json w = Some (Return response, w').
Proof.
  intros Hnever.
  assert (Htry : exists r, POST_try net key (6 + k) request_json w = Some r).
  { unfold POST_try, bind at 1, lift at 1.
    destruct request_json as [parsed|e]; [|eauto].
    unfold bind at 1, lift at 1.
    destruct (destructure parsed) as [[[[player1 player2] region] mode]|e];
      [|eauto].
    unfold bind at 1, lift at 1.
    destruct (split_call "player1.split" player1) as [pieces1|e]; [|eauto].
    unfold bind at 1, lift at 1.
    destruct (split_call "player2.split" player2) as [pieces2|e]; [|eauto].
    destruct (usable (nth_error pieces1 0)) as [g1|]; [|unfold ret; eauto].
    destruct (usable (nth_error pieces1 1)) as [t1|]; [|unfold ret; eauto].
    destruct (usable (nth_error pieces2 0)) as [g2|]; [|unfold ret; eauto].
    destruct (usable (nth_error pieces2 1)) as [t2|]; [|unfold ret; eauto].
    unfold bind at 1, Promise_all2.
    destruct (getAccountByRiotId_total g1 t1 region w) as ([o1 w1] & ->).
    destruct (getAccountByRiotId_total g2 t2 region w1) as ([o2 w2] & ->).
    destruct o1 as [a1|e]; [|eauto]. destruct o2 as [a2|e]; [|eauto].
    unfold bind at 1.
    destruct (getMatchHistory_500_total k (puuid a1) region mode w2 Hnever)
      as ([[m1|e] w3] & ->); [|eauto].
    unfold bind at 1.
    destruct (getMatchHistory_500_total k (puuid a2) region mode w3 Hnever)
      as ([[m2|e] w4] & ->); [|eauto].
    unfold bind at 1.
    destruct (fetch_shared_total region mode (sharedMatchIds m1 m2) [] w4)
      as ([[records|e] w5] & ->); [|eauto].
    unfold bind, lift, ret. destruct (traverse _ records); eauto. }
  unfold POST. destruct (key_missing key); [unfold ret; eauto|].
  destruct Htry as ([[response|e] w1] & ->); cbn; unfold ret; eauto.
Qed.

(** X9.  Against a service that answers every request for match ids
    with 429, a request that passes the validation and whose two accounts
    resolve is never answered: the handler is still in the first pagination
    loop after any number of turns. *)
Theorem POST_hangs_when_always_limited
    fuel request_json g1 t1 g2 t2 region mode m account1 account2 w w1 :
  always_limits net ->
  key_missing key = false ->
  validated request_json = Some (g1, t1, g2, t2, region, mode) ->
  routing_of region = Return m ->
  Promise_all2 (getAccountByRiotId net key g1 t1 region)
    (getAccountByRiotId net key g2 t2 region) w
    = Some (Return (account1, account2), w1) ->
  POST net key fuel request_json w = None.
Proof.
  intros Halways Hkey Hvalid Hregion Haccounts.
  unfold POST. rewrite Hkey.
  rewrite (POST_try_validated net key fuel request_json _ _ _ _ _ _ w Hvalid).
  unfold bind at 1. rewrite Haccounts. unfold bind at 1.
  rewrite getMatchHistory_loops with (m := m) by assumption.
  now rewrite always_limited_never_returns by (assumption || lia).
Qed.

End Answers.

(** ** The identifiers of the players *)

Lemma append_empty (s : string) : s ++ "" = s.
Proof. induction s as [|c s IH]; cbn; [reflexivity | now rewrite IH]. Qed.

Lemma split_hashless s : hashless s = true -> split "#" s = [s].
Proof.
  induction s as [|c s IH]; cbn [hashless split]; [reflexivity|].
  intros [Hc Hs]%andb_prop. apply negb_true_iff in Hc. rewrite Hc.
  now rewrite (IH Hs).
Qed.

Lemma split_first name rest :
  hashless name = true ->
  split "#" (name ++ "#" ++ rest) = name :: split "#" rest.
Proof.
  induction name as [|c name IH]; cbn [hashless]; [reflexivity|].
  intros [Hc Hs]%andb_prop. apply negb_true_iff in Hc.
  cbn [append split]. rewrite Hc.
  change (split "#" (name ++ String "#" rest))
    with (split "#" (name ++ "#" ++ rest)).
  now rewrite (IH Hs).
Qed.

(** A string has no [#], or a first one. *)
Lemma split_cases s :
  (hashless s = true /\ split "#" s = [s]) \/
  (exists name rest, hashless name = true /\ s = name ++ "#" ++ rest /\
                     split "#" s = name :: split "#" rest).
Proof.
  induction s as [|c s IH]; [now left|].
  destruct (Ascii.eqb_spec c "#") as [->|Hc].
  - right. exists "", s. repeat split.
  - destruct IH as [[Hs Hsplit]|(name & rest & Hname & -> & Hsplit)].
    + left. assert (Hall : hashless (String c s) = true).
      { cbn. apply Ascii.eqb_neq in Hc. now rewrite Hc, Hs. }
      split; [assumption | now apply split_hashless].
    + right. exists (String c name), rest.
      assert (Hall : hashless (String c name) = true).
      { cbn. apply Ascii.eqb_neq in Hc. now rewrite Hc, Hname. }
      split; [assumption|]. split; [reflexivity|].
      exact (split_first (String c name) rest Hall).
Qed.

Lemma usable_Some piece s :
  usable (Some piece) = Some s <-> piece = s /\ s <> "".
Proof.
  cbn. destruct (String.eqb_spec piece "") as [->|Hne]; split.
  - discriminate.
  - intros [<- Hne]. contradiction.
  - intros [= <-]. auto.
  - now intros [<- _].
Qed.

Lemma split_identifier name tag rest :
  hashless name = true -> hashless tag = true ->
  exists more,
    split "#" (name ++ "#" ++ tag ++ trailing rest) = name :: tag :: more.
Proof.
  intros Hname Htag. rewrite (split_first _ _ Hname).
  destruct rest as [text|]; cbn [trailing].
  - rewrite (split_first _ _ Htag). now exists (split "#" text).
  - rewrite append_empty, (split_hashless _ Htag). now exists [].
Qed.

(** X10.  What the handler takes for the name and the tag of a player:
    the text before the first [#] and the text between the first [#] and
    the second one, or the end; both must be non-empty.  A player is
    accepted exactly when it reads [name#tag] or [name#tag#anything], with a
    name and a tag that are not empty and hold no [#]. *)
Theorem identifier_is_read_up_to_the_second_hash s name tag :
  usable (nth_error (split "#" s) 0) = Some name /\
  usable (nth_error (split "#" s) 1) = Some tag
  <->
  name <> "" /\ tag <> "" /\ hashless name = true /\ hashless tag = true /\
  exists rest, s = name ++ "#" ++ tag ++ trailing rest.
Proof.
  split.
  - intros [Hname Htag].
    destruct (split_cases s) as [[_ Hsplit]|(n & r & Hn & -> & Hsplit)];
      rewrite Hsplit in Hname, Htag; [discriminate|].
    cbn [nth_error] in Hname, Htag.
    apply usable_Some in Hname as [-> Hname].
    destruct (split_cases r) as [[Hr Hsplit']|(t & r' & Ht & -> & Hsplit')];
      rewrite Hsplit' in Htag; cbn [nth_error] in Htag;
      apply usable_Some in Htag as [-> Htag].
    + repeat (split; [assumption|]). exists None. cbn [trailing].
      now rewrite append_empty.
    + repeat (split; [assumption|]). now exists (Some r').
  - intros (Hname & Htag & Hn & Ht & rest & ->).
    destruct (split_identifier name tag rest Hn Ht) as (more & ->).
    cbn [nth_error]. split; now apply usable_Some.
Qed.

Section Identifiers.
Context `{Runtime} {U : Type} (net : Network U) (key : option string).

(** X11.  Whatever follows a second [#] in a player of the request is
    ignored: the handler answers and acts on [name#tag#anything] exactly as
    on [name#tag]. *)
Theorem text_after_the_tag_is_ignored
    fuel parsed parsed' name1 tag1 rest1 name2 tag2 rest2 region mode w :
  hashless name1 = true -> hashless tag1 = true ->
  hashless name2 = true -> hashless tag2 = true ->
  destructure parsed =
    Return (VStr (name1 ++ "#" ++ tag1 ++ trailing rest1),
            VStr (name2 ++ "#" ++ tag2 ++ trailing rest2), region, mode) ->
  destructure parsed' =
    Return (VStr (name1 ++ "#" ++ tag1), VStr (name2 ++ "#" ++ tag2),
            region, mode) ->
  POST net key fuel (Return parsed) w = POST net key fuel (Return parsed') w.
Proof.
  intros Hn1 Ht1 Hn2 Ht2 Hfields Hfields'.
  unfold POST, POST_try, bind, lift. rewrite Hfields, Hfields'.
  cbn [split_call].
  destruct (split_identifier name1 tag1 rest1 Hn1 Ht1) as (more1 & ->).
  destruct (split_identifier name2 tag2 rest2 Hn2 Ht2) as (more2 & ->).
  destruct (split_identifier name1 tag1 None Hn1 Ht1) as (none1 & Hsplit1).
  destruct (split_identifier name2 tag2 None Hn2 Ht2) as (none2 & Hsplit2).
  cbn [trailing] in Hsplit1, Hsplit2. rewrite append_empty in Hsplit1, Hsplit2.
  rewrite Hsplit1, Hsplit2. reflexivity.
Qed.

End Identifiers.

(** ** The shared matches *)

Section Shared.
Context `{Runtime} {U : Type} (net : Network U) (key : option string).

(** X12.  For two histories without repeated ids, the shared ids do not
    depend on which player comes first, up to their order (which is that of
    the first history). *)
Theorem shared_ids_of_swapped_players matches1 matches2 :
  NoDup matches1 -> NoDup matches2 ->
  Permutation (sharedMatchIds matches1 matches2)
    (sharedMatchIds matches2 matches1).
Proof.
  intros Hone Htwo. apply NoDup_Permutation.
  - now apply NoDup_filter.
  - now apply NoDup_filter.
  - intros id. rewrite !sharedMatchIds_In. tauto.
Qed.

(** X13.  Against a service that never sends more ids than a request
    asks for, a comparison holds at most 500 matches. *)
Theorem at_most_500_matches fuel request_json w response w' :
  (forall routing gameType puuid,
     honours_count net key routing gameType puuid) ->
  POST net key fuel request_json w = Some (Return response, w') ->
  status response = 200 ->
  exists matchData,
    get_opt "matches" (body response) = VArr matchData /\
    (length matchData <= 500)%nat.
Proof.
  intros Hhonours Hrun Hstatus.
  destruct (POST_ok_inv _ _ _ _ _ _ _ Hrun Hstatus) as (_ & Htry).
  destruct (POST_try_ok_inv _ _ _ _ _ _ _ Htry Hstatus)
    as (account1 & account2 & region & mode & matches1 & matches2 & records &
        matchData & Hgathers & Hproject & ->).
  exists matchData. split; [reflexivity|].
  destruct Hgathers as (parsed & player1 & player2 & pieces1 & pieces2 &
                        g1 & t1 & g2 & t2 & w1 & w2 & w3 & _ & _ & _ & _ & _ &
                        _ & _ & _ & _ & Hone & _ & Hrecords).
  apply getMatchHistory_500_capped in Hone; [|intros; apply Hhonours].
  destruct (fetch_shared_details net key _ _ _ _ _ _ _ Hrecords)
    as (fresh & -> & Hdone).
  apply details_fetched_length in Hdone.
  apply traverse_Forall2, Forall2_length in Hproject.
  pose proof (filter_length_le (fun id => includes id matches2) matches1)
    as Hfilter.
  unfold sharedMatchIds in Hdone. cbn [app] in Hproject. lia.
Qed.

End Shared.

(** ** The number of requests *)

Lemma fetched_urls_app a b :
  fetched_urls (a ++ b) = (fetched_urls a ++ fetched_urls b)%list.
Proof. apply flat_map_app. Qed.

Section Budget.
Context `{Runtime} {U : Type} (net : Network U) (key : option string).

Lemma asks_ret {A} (Q : A -> Prop) (a : A) : Q a -> asks 0 Q (@ret U A a).
Proof.
  intros Ha w r w' Hrun. injection Hrun as <- <-.
  split; [lia | now intros ? [= <-]].
Qed.

Lemma asks_throw {A} n (Q : A -> Prop) e : asks n Q (@throw U A e).
Proof.
  intros w r w' Hrun. injection Hrun as <- <-. split; [lia | discriminate].
Qed.

Lemma asks_weaken {A} n n' (Q Q' : A -> Prop) (m : @M U A) :
  (n <= n')%nat -> (forall a, Q a -> Q' a) -> asks n Q m -> asks n' Q' m.
Proof.
  intros Hn HQ Hm w r w' Hrun. destruct (Hm _ _ _ Hrun) as [Hlen Hres].
  split; [lia | auto].
Qed.

Lemma asks_bind {A B} n n' (Q : A -> Prop) (Q' : B -> Prop)
    (m : @M U A) (k : A -> @M U B) :
  asks n Q m -> (forall a, Q a -> asks n' Q' (k a)) ->
  asks (n + n') Q' (bind m k).
Proof.
  intros Hm Hk w r w' Hrun. unfold bind in Hrun.
  destruct (m w) as [[[a|e] w1]|] eqn:Hfirst; [| |discriminate].
  - destruct (Hm _ _ _ Hfirst) as [Hlen Hres].
    destruct (Hk a (Hres a eq_refl) _ _ _ Hrun) as [Hlen' Hres'].
    split; [lia | assumption].
  - injection Hrun as <- <-. destruct (Hm _ _ _ Hfirst) as [Hlen _].
    split; [lia | discriminate].
Qed.

Lemma asks_lift {A B} n (Q : B -> Prop) (o : Outcome A) (k : A -> @M U B) :
  (forall a, asks n Q (k a)) -> asks n Q (bind (lift o) k).
Proof.
  intros Hk w r w' Hrun. unfold bind, lift in Hrun.
  destruct o as [a|e]; [exact (Hk a _ _ _ Hrun)|].
  injection Hrun as <- <-. split; [lia | discriminate].
Qed.

Lemma asks_fetch {A} (service : Request -> U -> Reply A * U) u :
  asks 1 (fun _ => True) (fetch key service u).
Proof.
  intros w r w' Hrun. unfold fetch in Hrun.
  destruct (service _ (upstream w)) as [reply next].
  injection Hrun as <- <-. cbn [log].
  rewrite fetched_urls_app, length_app. cbn. split; [lia | trivial].
Qed.

Lemma asks_sleep ms : asks 0 (fun _ => True) (@sleep U ms).
Proof.
  intros w r w' Hrun. injection Hrun as <- <-. cbn [log].
  rewrite fetched_urls_app, length_app. cbn. split; [lia | trivial].
Qed.

Lemma getAccountByRiotId_asks gameName tagLine region :
  asks 1 (fun _ => True) (getAccountByRiotId net key gameName tagLine region).
Proof.
  unfold getAccountByRiotId.
  apply asks_lift. intros routing. apply asks_lift. intros g.
  apply asks_lift. intros t.
  apply (asks_bind 1 0 (fun _ => True)); [apply asks_fetch|].
  intros [account|s text|detail] _;
    [now apply asks_ret | apply asks_throw | apply asks_throw].
Qed.

Lemma Promise_all2_asks {A B} n n' (p : @M U A) (q : @M U B) :
  asks n (fun _ => True) p -> asks n' (fun _ => True) q ->
  asks (n + n') (fun _ => True) (Promise_all2 p q).
Proof.
  intros Hp Hq w r w' Hrun. unfold Promise_all2 in Hrun.
  destruct (p w) as [[o1 w1]|] eqn:Hfirst; [|discriminate].
  destruct (q w1) as [[o2 w2]|] eqn:Hsecond; [|discriminate].
  injection Hrun as <- <-.
  destruct (Hp _ _ _ Hfirst) as [Hlen _].
  destruct (Hq _ _ _ Hsecond) as [Hlen' _]. split; [lia | trivial].
Qed.

(** Without a 429 every turn of the loop but the last moves [start] on by
    a full page. *)
Lemma getMatchHistory_loop_asks routing gameType puuid fuel :
  never_limits net ->
  forall n count start acc,
    count - start <= 100 * Z.of_nat n ->
    asks n (fun _ => True)
      (getMatchHistory_loop net key fuel routing gameType puuid count start acc).
Proof.
  intros Hnever. induction fuel as [|fuel IH]; intros n count start acc Hleft.
  - intros w r w' Hrun. discriminate.
  - cbn [getMatchHistory_loop].
    destruct (Z.ltb_spec start count) as [Hlt|_];
      [|apply (asks_weaken 0 n (fun _ => True) (fun _ => True));
        [lia | trivial | now apply asks_ret]].
    destruct n as [|n]; [lia|]. cbn zeta.
    intros w r w' Hrun. unfold bind at 1, fetch in Hrun.
    destruct (match_ids net _ (upstream w)) as [[matches|status text|detail] u]
      eqn:Hreply.
    + destruct (_ =? 0).
      { injection Hrun as <- <-. cbn [log].
        rewrite fetched_urls_app, length_app. cbn. split; [lia | trivial]. }
      destruct (_ <? _).
      { injection Hrun as <- <-. cbn [log].
        rewrite fetched_urls_app, length_app. cbn. split; [lia | trivial]. }
      unfold bind at 1, sleep, emit in Hrun. cbn [upstream log] in Hrun.
      apply (IH n) in Hrun; [|lia]. destruct Hrun as [Hlen _].
      cbn [log] in Hlen. rewrite !fetched_urls_app, !length_app in Hlen.
      cbn in Hlen. split; [lia | trivial].
    + destruct (Z.eqb_spec status 429) as [->|_];
        [now apply Hnever in Hreply|].
      injection Hrun as <- <-. cbn [log].
      rewrite fetched_urls_app, length_app. cbn. split; [lia | discriminate].
    + injection Hrun as <- <-. cbn [log].
      rewrite fetched_urls_app, length_app. cbn. split; [lia | discriminate].
Qed.

(** X14.  Against a service that answers every request (as every
    service of this model does: a request that stays pending is not
    modelled) and never with 429, [getMatchHistory] is done after one turn
    of its loop for every hundred ids of [count] and one more, and has sent
    at most one request for every hundred; more fuel changes nothing. *)
Theorem history_ends_within_the_pages n k puuid region mode count w :
  never_limits net ->
  count <= 100 * Z.of_nat n ->
  exists o w',
    getMatchHistory net key (S n + k) puuid region mode count w = Some (o, w') /\
    (length (fetched_urls (log w')) <= length (fetched_urls (log w)) + n)%nat.
Proof.
  intros Hnever Hcount.
  assert (Hasks : asks n (fun _ => True)
                    (getMatchHistory net key (S n + k) puuid region mode count)).
  { unfold getMatchHistory. apply asks_lift. intros routing.
    apply getMatchHistory_loop_asks; [assumption | lia]. }
  assert (Hends : exists r, getMatchHistory net key (S n + k) puuid region mode
                              count w = Some r).
  { unfold getMatchHistory, bind, lift.
    destruct (routing_of region) as [m|e]; [|eauto].
    destruct (loop_ends_within_the_pages net key (member_toString m)
                (gameType_of mode) puuid n count 0 [] w Hnever)
      as (r & Hrun); [lia|].
    exists r. now apply loop_more_fuel. }
  destruct Hends as ([o w'] & Hrun). exists o, w'.
  split; [assumption | exact (proj1 (Hasks _ _ _ Hrun))].
Qed.

Lemma getMatchHistory_asks fuel puuid region mode :
  never_limits net ->
  (forall routing gameType, honours_count net key routing gameType puuid) ->
  asks 5 (fun ids => (length ids <= 500)%nat)
    (getMatchHistory net key fuel puuid region mode 500).
Proof.
  intros Hnever Hhonours w r w' Hrun. split.
  - assert (Hasks : asks 5 (fun _ => True)
                      (getMatchHistory net key fuel puuid region mode 500)).
    { unfold getMatchHistory. apply asks_lift. intros routing.
      apply getMatchHistory_loop_asks; [assumption | lia]. }
    exact (proj1 (Hasks _ _ _ Hrun)).
  - intros ids ->.
    exact (getMatchHistory_500_capped net key _ _ _ _ _ _ _ Hhonours Hrun).
Qed.

Lemma fetch_shared_asks region mode ids : forall acc,
  asks (length ids) (fun _ => True)
    (fetch_shared net key ids region mode acc).
Proof.
  induction ids as [|id ids IH]; intros acc; cbn [fetch_shared length];
    [now apply asks_ret|].
  apply (asks_bind 1 (length ids) (fun _ => True)).
  { unfold getMatchDetails. apply asks_lift. intros routing. cbn zeta.
    apply (asks_bind 1 0 (fun _ => True)); [apply asks_fetch|].
    intros [record|s text|detail] _;
      [now apply asks_ret | apply asks_throw | apply asks_throw]. }
  intros record _.
  apply (asks_bind 0 (length ids) (fun _ => True)); [apply asks_sleep|].
  intros _ _. apply IH.
Qed.

Lemma POST_try_asks fuel request_json :
  never_limits net ->
  (forall routing gameType puuid,
     honours_count net key routing gameType puuid) ->
  asks 512 (fun _ => True) (POST_try net key fuel request_json).
Proof.
  intros Hnever Hhonours.
  destruct (validated request_json)
    as [[[[[[g1 t1] g2] t2] region] mode]|] eqn:Hvalid.
  2:{ intros w r w' Hrun.
      rewrite (POST_try_not_validated _ _ _ _ _ _ _ Hvalid Hrun).
      split; [lia | trivial]. }
  intros w r w'. rewrite (POST_try_validated _ _ _ _ _ _ _ _ _ _ w Hvalid).
  revert w r w'.
  change (asks (2 + (5 + (5 + (500 + 0)))) (fun _ : Response => True)
    (bind (Promise_all2 (getAccountByRiotId net key g1 t1 region)
             (getAccountByRiotId net key g2 t2 region))
       (fun resolved =>
          let (account1, account2) := resolved in
          bind (getMatchHistory net key fuel (puuid account1) region mode 500)
            (fun matches1 =>
          bind (getMatchHistory net key fuel (puuid account2) region mode 500)
            (fun matches2 =>
          bind (fetch_shared net key (sharedMatchIds matches1 matches2)
                  region mode [])
            (fun sharedMatches =>
          bind (lift (traverse (project account1 account2 mode) sharedMatches))
            (fun matchData =>
          ret {| status := 200;
                 body := VObj [ ("player1", display account1);
                                ("player2", display account2);
                                ("matches", VArr matchData) ] |}))))))).
  apply (asks_bind 2 _ (fun _ => True)).
  { apply (Promise_all2_asks 1 1); apply getAccountByRiotId_asks. }
  intros [account1 account2] _.
  apply (asks_bind 5 _ (fun ids => (length ids <= 500)%nat));
    [apply getMatchHistory_asks; auto|].
  intros matches1 Hone.
  apply (asks_bind 5 _ (fun ids => (length ids <= 500)%nat));
    [apply getMatchHistory_asks; auto|].
  intros matches2 _.
  apply (asks_bind 500 0 (fun _ => True)).
  { apply (asks_weaken (length (sharedMatchIds matches1 matches2)) 500
             (fun _ => True) (fun _ => True));
      [|trivial | apply fetch_shared_asks].
    pose proof (filter_length_le (fun id => includes id matches2) matches1).
    unfold sharedMatchIds. lia. }
  intros sharedMatches _. apply asks_lift. intros matchData.
  now apply asks_ret.
Qed.

(** X15.  Against a service that never answers with 429 and never
    sends more ids than asked for, the handler sends at most 512 requests
    for one comparison: 2 for the accounts, 5 for each history and one for
    each of at most 500 shared matches. *)
Theorem POST_asks_at_most_512_times fuel request_json w o w' :
  never_limits net ->
  (forall routing gameType puuid,
     honours_count net key routing gameType puuid) ->
  POST net key fuel request_json w = Some (o, w') ->
  (length (fetched_urls (log w')) <= length (fetched_urls (log w)) + 512)%nat.
Proof.
  intros Hnever Hhonours. unfold POST.
  destruct (key_missing key); intros Hrun; [injection Hrun as <- <-; lia|].
  destruct (POST_try net key fuel request_json w) as [[[response|e] w1]|]
    eqn:Htry; [| |discriminate];
    destruct (POST_try_asks fuel request_json Hnever Hhonours _ _ _ Htry)
      as [Hlen _].
  - now injection Hrun as <- <-.
  - cbn in Hrun. injection Hrun as <- <-. cbn [log].
    rewrite fetched_urls_app, length_app. cbn. lia.
Qed.

End Budget.

(** ** The routing and the traits *)

Section Range.
Context `{Runtime}.

(** X16.  For a region that is a string and not the name of a member
    of [Object.prototype], the routing is one of the four clusters of the
    table, whatever the string. *)
Theorem routing_is_one_of_four_clusters region :
  assoc region Object_prototype = None ->
  exists cluster,
    routing_of (VStr region) = Return (MString cluster) /\
    In cluster clusters.
Proof.
  intros Hproto. cbn [routing_of to_string obind].
  unfold routing_of_key, regionToRouting_at. rewrite Hproto.
  destruct (assoc region regionToRouting) as [cluster|] eqn:Htable.
  - exists cluster. unfold regionToRouting in Htable. cbn [assoc] in Htable.
    repeat match type of Htable with
           | context [if ?b then _ else _] => destruct b
           end; try discriminate; injection Htable as <-;
      (split; [reflexivity | cbn; tauto]).
  - exists "americas". split; [reflexivity | cbn; tauto].
Qed.

Lemma traverse_names traits : forall names,
  Forall2 (fun t n => get "name" t = Return (VStr n)) traits names ->
  traverse (get "name") traits = Return (map VStr names).
Proof.
  induction 1 as [|t n traits names Hname _ IH]; cbn [map traverse];
    [reflexivity|].
  rewrite Hname, IH. reflexivity.
Qed.

Lemma join_strings sep names :
  join sep (map VStr names) = Return (String.concat sep names).
Proof.
  unfold join. induction names as [|n names IH]; [reflexivity|].
  cbn [map join_with to_string obind String.concat].
  destruct names as [|n' names]; [reflexivity|].
  cbn [map] in *. rewrite IH. reflexivity.
Qed.

(** X17.  The label of the traits of a player is a string that is never
    empty.  When each of the first three traits is an object with a string
    for its [name], whatever else the traits hold and whatever the traits
    after the third are, the label is those names separated by a comma and
    a space, or [N/A] when that text is empty. *)
Theorem traits_label who playerData :
  (forall v, traits_of who playerData = Return v ->
             exists label, v = VStr label /\ label <> "") /\
  (forall traits names,
     get_opt "traits" playerData = VArr traits ->
     Forall2 (fun t n => get "name" t = Return (VStr n))
       (firstn 3 traits) names ->
     traits_of who playerData =
     Return (VStr (let joined := String.concat ", " names in
                   if String.eqb joined "" then "N/A" else joined))).
Proof.
  split.
  - unfold traits_of. intros v Hrun.
    destruct (get_opt "traits" playerData) as [| | | | |traits|];
      try discriminate;
      try (injection Hrun as <-; exists "N/A"; split;
           [reflexivity | discriminate]).
    destruct (traverse _ _) as [names|]; [|discriminate]. cbn [obind] in Hrun.
    destruct (join _ _) as [joined|]; [|discriminate]. cbn [obind] in Hrun.
    injection Hrun as <-.
    destruct (String.eqb_spec joined "") as [->|Hne]; eexists;
      (split; [reflexivity|]); [discriminate | assumption].
  - intros traits names Htraits Hnames. unfold traits_of. rewrite Htraits.
    rewrite (traverse_names _ _ Hnames). cbn [obind].
    rewrite join_strings. reflexivity.
Qed.

End Range.

(** ** The page and the handler *)

Section Island_facts.
Context `{Runtime} {U : Type} (net : Network U) (key : option string).
Variable trim : string -> string.
Variable num_json : number -> Value.

Local Abbreviation start := (SearchPage.handleSubmit_start trim).
Local Abbreviation finish := (SearchPage.handleSubmit_finish).
Local Abbreviation received := (SearchPage.received num_json).

(** X18.  What the island shows of an answer of the handler, on the
    page as it is when the answer comes: it is no longer loading; after a
    200 the results are the body of the answer as JSON carries it, and the
    error is left as it was; after any other status the results are left as
    they were and the error is the text of the handler, which is not empty
    (the fallback text of the island is never shown for this handler). *)
Theorem island_shows_the_answer_of_the_handler
    fuel request_json w o w' (s : SearchPage.Page) :
  POST net key fuel request_json w = Some (o, w') ->
  exists response,
    o = Return response /\
    let s' := finish (received response) s in
    SearchPage.isLoading s' = false /\
    ((status response = 200 /\
      SearchPage.results s' = SearchPage.jsonify num_json (body response) /\
      SearchPage.error s' = SearchPage.error s) \/
     (status response <> 200 /\
      SearchPage.results s' = SearchPage.results s /\
      exists text,
        body response = VObj [ ("error", VStr text) ] /\ text <> "" /\
        SearchPage.error s' = VStr text)).
Proof.
  intros Hrun.
  destruct (POST_returns_a_response net key _ _ _ _ _ Hrun)
    as (response & -> & Hcases).
  exists response. split; [reflexivity|]. cbn zeta.
  split; [reflexivity|].
  destruct Hcases as [(a1 & a2 & md & ->)|[->|(text & Htext & ->)]].
  - left. split; [reflexivity|]. now split.
  - right. split; [discriminate|]. split; [reflexivity|].
    exists "Invalid player format. Use: Name#TAG".
    split; [reflexivity|]. split; [discriminate | reflexivity].
  - right. split; [discriminate|].
    unfold SearchPage.handleSubmit_finish, SearchPage.received.
    cbn [status body andb Z.leb Z.compare Pos.compare Pos.compare_cont].
    cbn [SearchPage.jsonify flat_map app get own].
    cbn [String.eqb Ascii.eqb Bool.eqb truthy].
    destruct (String.eqb_spec text "") as [->|_]; [contradiction|].
    cbn [negb fst snd SearchPage.results SearchPage.error].
    split; [reflexivity|]. now exists text.
Qed.

(** X19.  A request that the island sends has two names that are not
    blank, and its four fields are strings: the handler reads them without
    an exception of the runtime, and a request that does not pass its
    validation is answered 400 and leaves the service alone. *)
Theorem island_request_is_never_a_type_error
    fuel (s s1 : SearchPage.Page) request w :
  start s = (s1, Some request) ->
  key_missing key = false ->
  trim (SearchPage.player1 s) <> "" /\ trim (SearchPage.player2 s) <> "" /\
  destructure request =
    Return (VStr (trim (SearchPage.player1 s)),
            VStr (trim (SearchPage.player2 s)),
            VStr (SearchPage.region s), VStr (SearchPage.mode s)) /\
  (validated (Return request) = None ->
   POST net key fuel (Return request) w =
   Some (Return invalid_player_format, w)).
Proof.
  unfold SearchPage.handleSubmit_start. intros Hstart Hkey.
  destruct (String.eqb_spec (trim (SearchPage.player1 s)) "") as [|Hone];
    [discriminate|].
  destruct (String.eqb_spec (trim (SearchPage.player2 s)) "") as [|Htwo];
    [discriminate|].
  cbn [orb] in Hstart. injection Hstart as _ <-.
  split; [assumption|]. split; [assumption|].
  assert (Hfields : destructure (SearchPage.compare_request trim
                                   (SearchPage.updateURL s)) =
                    Return (VStr (trim (SearchPage.player1 s)),
                            VStr (trim (SearchPage.player2 s)),
                            VStr (SearchPage.region s),
                            VStr (SearchPage.mode s))) by reflexivity.
  split; [exact Hfields|].
  intros Hnone. unfold validated in Hnone. rewrite Hfields in Hnone.
  cbn [split_call] in Hnone.
  eapply malformed_names_are_answered_400; [assumption | exact Hfields |].
  destruct (usable (nth_error (split "#" (trim (SearchPage.player1 s))) 0));
    [|auto].
  destruct (usable (nth_error (split "#" (trim (SearchPage.player1 s))) 1));
    [|auto].
  destruct (usable (nth_error (split "#" (trim (SearchPage.player2 s))) 0));
    [|auto].
  destruct (usable (nth_error (split "#" (trim (SearchPage.player2 s))) 1));
    [|auto].
  discriminate.
Qed.

Lemma updateURL_restores (s : SearchPage.Page) :
  restored (SearchPage.updateURL s).
Proof.
  destruct s as [p1 p2 r m loading res err q].
  unfold restored, SearchPage.mount, SearchPage.Home, SearchPage.updateURL,
    SearchPage.get_or. cbn zeta.
  cbn [SearchPage.player1 SearchPage.player2 SearchPage.region SearchPage.mode
       SearchPage.search SearchPage.initialPlayer1 SearchPage.initialPlayer2
       SearchPage.initialRegion SearchPage.initialMode].
  destruct (String.eqb_spec p1 "") as [->|H1], (String.eqb_spec p2 "") as [->|H2],
           (String.eqb_spec r "") as [->|H3];
    cbn; repeat split;
    repeat match goal with
           | |- context [String.eqb ?x ""] =>
               destruct (String.eqb_spec x ""); try contradiction; try congruence
           end.
Qed.

(** X20.  The address that the island writes restores its inputs.
    After every change of an input (a player, the region, the mode) and
    whenever a request is sent, the page mounted at the address of the
    island has the same two players, the same region unless it is empty,
    which comes back as [euw1], and the same mode unless it is empty, which
    comes back as [lol]. *)
Theorem reloading_restores_the_inputs :
  (forall input s, restored (SearchPage.on input s)) /\
  (forall s s1 request, start s = (s1, Some request) -> restored s1).
Proof.
  split.
  - intros [value|value|value|tft] s; apply updateURL_restores.
  - intros s s1 request. unfold SearchPage.handleSubmit_start.
    destruct (_ || _); [discriminate|]. intros [= <- _].
    exact (updateURL_restores s).
Qed.

End Island_facts.

(** ** The earlier loop *)

Section Earlier_facts.
Context `{Runtime} {U : Type} (net : Network U) (key : option string).

Lemma earlier_loop_always_ends n routing puuid :
  forall count start acc w,
    count - start <= 100 * Z.of_nat n ->
    exists o w' events,
      Earlier.getMatchHistory_loop net key (S n) routing puuid count start acc w
        = Some (o, w') /\
      log w' = (log w ++ events)%list /\
      (length events <= 2 * n)%nat.
Proof.
  induction n as [|n IH]; intros count start acc w Hleft.
  - cbn [Earlier.getMatchHistory_loop].
    destruct (Z.ltb_spec start count) as [Hlt|_]; [lia|].
    exists (Return acc), w, []. unfold ret. rewrite app_nil_r. auto.
  - remember (S n) as fuel eqn:Hfuel. cbn [Earlier.getMatchHistory_loop].
    destruct (Z.ltb_spec start count) as [Hlt|_].
    2:{ exists (Return acc), w, []. unfold ret. rewrite app_nil_r.
        split; [reflexivity|]. split; [reflexivity | cbn; lia]. }
    cbn zeta. unfold bind at 1, fetch.
    destruct (match_ids net _ (upstream w)) as [[matches|status text|detail] u].
    + destruct (_ =? 0).
      { eexists _, _, [_]. unfold ret. cbn [log].
        split; [reflexivity|]. split; [reflexivity | cbn; lia]. }
      destruct (Z.ltb_spec (Z.of_nat (length matches))
                  (Z.min 100 (count - start))) as [_|Hfull].
      { eexists _, _, [_]. unfold ret. cbn [log].
        split; [reflexivity|]. split; [reflexivity | cbn; lia]. }
      unfold bind at 1, sleep, emit. cbn [upstream log]. subst fuel.
      edestruct (IH count (start + Z.min 100 (count - start))
                   (acc ++ matches)%list) as (o & w' & events & Hrun & Hlog & Hlen);
        [lia|].
      rewrite Hrun. exists o, w'. eexists (_ :: _ :: events).
      split; [reflexivity|]. rewrite Hlog. cbn [log].
      split; [now rewrite <- !app_assoc | cbn [length]; lia].
    + eexists _, _, [_]. unfold throw. cbn [log].
      split; [reflexivity|]. split; [reflexivity | cbn; lia].
    + eexists _, _, [_]. unfold throw. cbn [log].
      split; [reflexivity|]. split; [reflexivity | cbn; lia].
Qed.

(** X21.  The earlier [getMatchHistory] ends against every service that
    answers every request (as every service of this model does: a request
    that stays pending is not modelled), whatever the answers are: after
    one turn of its loop for every hundred ids of [count] and one more it
    has returned or thrown, and it has added at most two events to the log,
    a request and a pause, for every hundred. *)
Theorem earlier_history_ends_when_answered n puuid region count w :
  count <= 100 * Z.of_nat n ->
  exists o w' events,
    Earlier.getMatchHistory net key (S n) puuid region count w = Some (o, w') /\
    log w' = (log w ++ events)%list /\
    (length events <= 2 * n)%nat.
Proof.
  intros Hcount. unfold Earlier.getMatchHistory, bind, lift.
  destruct (routing_of region) as [m|e].
  - apply earlier_loop_always_ends. lia.
  - exists (Throw e), w, []. rewrite app_nil_r.
    split; [reflexivity|]. split; [reflexivity | cbn; lia].
Qed.

End Earlier_facts.

(** ** Regions of one cluster *)

Section Clusters.
Context `{Runtime} {U : Type} (net : Network U) (key : option string).
Variables region region' : Value.
Hypothesis Hrouting : routing_of region = routing_of region'.

Lemma getAccountByRiotId_routed gameName tagLine w :
  getAccountByRiotId net key gameName tagLine region w =
  getAccountByRiotId net key gameName tagLine region' w.
Proof. unfold getAccountByRiotId. now rewrite Hrouting. Qed.

Lemma getMatchHistory_routed fuel puuid mode count w :
  getMatchHistory net key fuel puuid region mode count w =
  getMatchHistory net key fuel puuid region' mode count w.
Proof. unfold getMatchHistory. now rewrite Hrouting. Qed.

Lemma getMatchDetails_routed id mode w :
  getMatchDetails net key id region mode w =
  getMatchDetails net key id region' mode w.
Proof. unfold getMatchDetails. now rewrite Hrouting. Qed.

Lemma fetch_shared_routed ids mode : forall acc w,
  fetch_shared net key ids region mode acc w =
  fetch_shared net key ids region' mode acc w.
Proof.
  induction ids as [|id ids IH]; intros acc w; [reflexivity|].
  cbn [fetch_shared]. unfold bind. rewrite getMatchDetails_routed.
  destruct (getMatchDetails net key id region' mode w)
    as [[[record|e] w1]|]; try reflexivity.
  unfold sleep, emit. apply IH.
Qed.

(** X22.  The region of a request reaches the service only as its
    routing: for two regions with the same routing ([euw1] and [tr1], or
    [na1] and a region that the table does not know) the handler sends the
    same requests and gives the same answer. *)
Theorem regions_of_one_cluster_are_interchangeable
    fuel parsed parsed' player1 player2 mode w :
  destructure parsed = Return (player1, player2, region, mode) ->
  destructure parsed' = Return (player1, player2, region', mode) ->
  POST net key fuel (Return parsed) w = POST net key fuel (Return parsed') w.
Proof.
  intros Hfields Hfields'. unfold POST.
  destruct (key_missing key); [reflexivity|].
  assert (Htry : POST_try net key fuel (Return parsed) w =
                 POST_try net key fuel (Return parsed') w);
    [|now rewrite Htry].
  unfold POST_try, bind, lift. rewrite Hfields, Hfields'.
  destruct (split_call "player1.split" player1) as [pieces1|e]; [|reflexivity].
  destruct (split_call "player2.split" player2) as [pieces2|e]; [|reflexivity].
  destruct (usable (nth_error pieces1 0)) as [gameName1|]; [|reflexivity].
  destruct (usable (nth_error pieces1 1)) as [tagLine1|]; [|reflexivity].
  destruct (usable (nth_error pieces2 0)) as [gameName2|]; [|reflexivity].
  destruct (usable (nth_error pieces2 1)) as [tagLine2|]; [|reflexivity].
  unfold Promise_all2. rewrite getAccountByRiotId_routed.
  destruct (getAccountByRiotId net key gameName1 tagLine1 region' w)
    as [[o1 w0]|]; [|reflexivity].
  rewrite getAccountByRiotId_routed.
  destruct (getAccountByRiotId net key gameName2 tagLine2 region' w0)
    as [[o2 w1]|]; [|reflexivity].
  destruct o1 as [account1|e]; [|reflexivity].
  destruct o2 as [account2|e]; [|reflexivity].
  rewrite getMatchHistory_routed.
  destruct (getMatchHistory net key fuel (puuid account1) region' mode 500 w1)
    as [[[matches1|e] w2]|]; try reflexivity.
  rewrite getMatchHistory_routed.
  destruct (getMatchHistory net key fuel (puuid account2) region' mode 500 w2)
    as [[[matches2|e] w3]|]; try reflexivity.
  now rewrite fetch_shared_routed.
Qed.

End Clusters.

(** ** The properties on the sample runs *)

#[local] Existing Instance Exact.runtime.

Lemma matches_follow_shared_ids_witness :
    Sample.post (Sample.shared_B_and_D Sample.recordB Sample.recordD)
      Sample.ann_and_bob =
      Some (Return Sample.answer_B_and_D, Sample.world_B_and_D) /\
    (exists forB forD,
       get_opt "matches" (body Sample.answer_B_and_D) = VArr [forB; forD] /\
       get_opt "matchId" forB = VStr "B" /\
       get_opt "matchId" forD = VStr "D") /\
    exists account1 account2 region mode matches1 matches2 records matchData w3,
      gathers Mock.net Sample.key 10 (Return Sample.ann_and_bob)
        (Mock.start (Sample.shared_B_and_D Sample.recordB Sample.recordD))
        account1 account2 region mode matches1 matches2 records
        Sample.world_B_and_D /\
      details_fetched Mock.net Sample.key region mode
        (sharedMatchIds matches1 matches2) w3 records Sample.world_B_and_D /\
      Forall2 (fun record summary =>
                 project account1 account2 mode record = Return summary)
        records matchData /\
      body Sample.answer_B_and_D = VObj [ ("player1", display account1);
                             ("player2", display account2);
                             ("matches", VArr matchData) ] /\
      length matchData = length (sharedMatchIds matches1 matches2) /\
      sharedMatchIds matches1 matches2 =
        filter (fun id => existsb (String.eqb id) matches2) matches1 /\
      (forall id, In id (sharedMatchIds matches1 matches2) <->
                  In id matches1 /\ In id matches2) /\
      sharedMatchIds ["A"; "B"; "C"; "D"] ["X"; "B"; "Y"; "D"] = ["B"; "D"].
Proof.
  split; [reflexivity|].
  split; [eexists; eexists; split; [reflexivity | split; reflexivity]|].
  apply (matches_follow_shared_ids Mock.net Sample.key 10
           (Return Sample.ann_and_bob)
           (Mock.start (Sample.shared_B_and_D Sample.recordB Sample.recordD)));
    reflexivity.
Defined.




(** The scenario of the specification: [player1 = "NoTagHere"] is answered
    400 and the log stays empty. *)
Lemma no_tag_here_is_answered_400 :
  Sample.post (Sample.shared_B_and_D Sample.recordB Sample.recordD)
    (Sample.request_body "NoTagHere" "Valid#TAG" [ ("region", VStr "na1") ]) =
  Some (Return invalid_player_format,
        Mock.start (Sample.shared_B_and_D Sample.recordB Sample.recordD)).
Proof. reflexivity. Qed.

(** C7 as stated fails: a timestamp that the record gives in seconds
    reaches the summary in seconds, in either mode. *)
Lemma timestamp_in_seconds_stays_in_seconds :
  option_map (get_opt "timestamp")
    (value_of (project Sample.ann Sample.bob (VStr "tft")
                 Sample.tft_record_in_seconds)) =
    Some (Sample.integer 1700000000) /\
  option_map (get_opt "timestamp")
    (value_of (project Sample.ann Sample.bob (VStr "lol")
                 Sample.lol_record_in_seconds)) =
    Some (Sample.integer 1700000000) /\
  Sample.integer 1700000000 <>
  Sample.integer (to_millis Seconds 1700000000).
Proof.
  split; [reflexivity|]. split; [reflexivity|]. discriminate.
Qed.

Lemma timestamp_is_copied_witness :
  get_opt "timestamp"
    (VObj [ ("matchId", VStr "EUW1_8"); ("gameMode", VStr "CLASSIC");
            ("timestamp", Sample.integer 1700000000);
            ("duration", VStr "30m 5s");
            ("players", VObj
               [ ("player1", VObj [ ("champion", VStr "Ahri");
                                    ("team", Sample.integer 100) ]);
                 ("player2", VObj [ ("champion", VUndefined);
                                    ("team", VUndefined) ]) ]) ]) =
  get_opt (timestamp_field (VStr "lol"))
    (get_opt "info" Sample.lol_record_in_seconds).
Proof.
  apply (timestamp_is_copied_unchanged Sample.ann Sample.bob (VStr "lol")
           Sample.lol_record_in_seconds).
  reflexivity.
Defined.

Lemma summaries_copy_witness :
  exists account1 account2 region mode matches1 matches2 records matchData,
    gathers Mock.net Sample.key 10 (Return Sample.ann_and_bob)
      (Mock.start (Sample.shared_B_and_D Sample.recordB Sample.recordD))
      account1 account2 region mode matches1 matches2 records
      Sample.world_B_and_D /\
    body Sample.answer_B_and_D =
      VObj [ ("player1", VObj [ ("gameName", VStr (gameName account1));
                                ("tagLine", VStr (tagLine account1)) ]);
             ("player2", VObj [ ("gameName", VStr (gameName account2));
                                ("tagLine", VStr (tagLine account2)) ]);
             ("matches", VArr matchData) ] /\
    Forall2 (fun record summary =>
       let entry1 := entry_for (puuid account1) (participants_of record) in
       let entry2 := entry_for (puuid account2) (participants_of record) in
       summarises account1 account2 mode record summary /\
       summary_names summary = summary_fields mode /\
       ~ In "puuid" (summary_names summary) /\
       forall id,
         (carries id summary = true ->
          existsb (carries id) (copied mode record entry1 entry2) = true \/
          get_opt "duration" summary = VStr id \/
          (strict_eq_str mode "tft" = true /\
           (get_opt "gameMode" summary = VStr id \/
            get_opt "traits" (stats_of "player1" summary) = VStr id \/
            get_opt "traits" (stats_of "player2" summary) = VStr id))) /\
         (existsb (carries id) (copied mode record entry1 entry2) = true ->
          carries id summary = true))
      records matchData.
Proof.
  apply (summaries_copy_fixed_fields_of_the_record Mock.net Sample.key 10
           (Return Sample.ann_and_bob)
           (Mock.start (Sample.shared_B_and_D Sample.recordB Sample.recordD)));
    reflexivity.
Defined.

(** C8 as stated fails: the service holds, for the shared match D, a
    record whose [championName] of Ann is her [puuid] and whose [gameMode]
    is an object with a property [puuid].  The handler answers 200 and the
    summary of D carries both. *)
Lemma record_with_puuid_reaches_the_answer :
  Sample.response_of
    (Sample.post (Sample.shared_B_and_D Sample.recordB Trial.recordD_with_puuid)
       Sample.ann_and_bob) =
  Some (200, body Trial.answer_with_puuid) /\
  carries (puuid Sample.ann) (body Trial.answer_with_puuid) = true /\
  (exists forB forD,
     get_opt "matches" (body Trial.answer_with_puuid) = VArr [forB; forD] /\
     get_opt "champion" (stats_of "player1" forD) = VStr (puuid Sample.ann) /\
     names (get_opt "gameMode" forD) = ["puuid"]).
Proof.
  split; [reflexivity|]. split; [reflexivity|].
  eexists _, _. split; [reflexivity|]. split; reflexivity.
Qed.


(** ** The further properties on sample runs *)


Lemma failed_account_witness :
  POST Mock.net Sample.key 10 (Return Sample.ann_and_bob)
    (Mock.start Trial.only_bob) =
  Some (Return {| status := 500;
                  body := VObj [ ("error",
                            VStr ("Failed to fetch account: " ++ "Not Found")) ] |},
        {| upstream := Trial.only_bob;
           log := (log (Mock.start Trial.only_bob) ++
                   [ Fetch (account_request Sample.key (MString "europe")
                              "Ann" "EUW");
                     Fetch (account_request Sample.key (MString "europe")
                              "Bob" "EUW");
                     ConsoleError
                       (Error ("Failed to fetch account: " ++ "Not Found")) ])%list |}).
Proof.
  apply (proj1 (failed_account_ends_the_comparison Mock.net Sample.key 10
                  (Return Sample.ann_and_bob) "Ann" "EUW" "Bob" "EUW"
                  (VStr "euw1") (VStr "lol") (MString "europe")
                  "Ann" "EUW" "Bob" "EUW" (Mock.start Trial.only_bob)
                  eq_refl eq_refl eq_refl eq_refl eq_refl eq_refl eq_refl)
           404 "Not Found" Sample.bob Trial.only_bob Trial.only_bob);
    reflexivity.
Defined.

Lemma failed_record_witness :
  fetch_shared Mock.net Sample.key (["B"] ++ "D" :: ["E"])%list
    (VStr "euw1") (VStr "lol") [] (Mock.start Trial.only_B) =
  Some (Throw (Error ("Failed to fetch match details: " ++ "Not Found")),
        {| upstream := Trial.only_B;
           log := ([Fetch (Trial.record_of "B"); Sleep 100] ++
                   [Fetch (detail_request Sample.key (MString "europe")
                             (VStr "lol") "D")])%list |}).
Proof.
  apply (failed_record_ends_the_fetching Mock.net Sample.key
           (VStr "euw1") (VStr "lol") (MString "europe") ["B"] "D" ["E"] []
           (Mock.start Trial.only_B) [Sample.recordB]
           {| upstream := Trial.only_B;
              log := [Fetch (Trial.record_of "B"); Sleep 100] |}
           404 "Not Found" Trial.only_B).
  - reflexivity.
  - apply (fetched_next Mock.net Sample.key (VStr "euw1") (VStr "lol")
             "B" [] (Mock.start Trial.only_B) Sample.recordB
             {| upstream := Trial.only_B; log := [Fetch (Trial.record_of "B")] |}
             []
             {| upstream := Trial.only_B;
                log := [Fetch (Trial.record_of "B"); Sleep 100] |});
      [reflexivity | apply fetched_none].
  - reflexivity.
Defined.

Lemma records_are_fetched_witness :
  log {| upstream := Sample.shared_B_and_D Sample.recordB Sample.recordD;
         log := [Fetch (Trial.record_of "B"); Sleep 100;
                 Fetch (Trial.record_of "D"); Sleep 100] |} =
    (log (Mock.start (Sample.shared_B_and_D Sample.recordB Sample.recordD)) ++
     flat_map (fun id => [Fetch (detail_request Sample.key (MString "europe")
                                   (VStr "lol") id); Sleep 100])
       ["B"; "D"])%list /\
  length [Sample.recordB; Sample.recordD] = length ["B"; "D"].
Proof.
  apply (records_are_fetched_one_by_one Mock.net Sample.key
           (VStr "euw1") (VStr "lol") (MString "europe") ["B"; "D"]
           (Mock.start (Sample.shared_B_and_D Sample.recordB Sample.recordD)));
    reflexivity.
Defined.

Lemma POST_answers_witness :
  exists response,
    Return Sample.answer_B_and_D = Return response /\
    ((status response = 200 /\ key_missing Sample.key = false /\
      exists account1 account2 matchData,
        response = comparison account1 account2 matchData) \/
     (response = invalid_player_format /\ key_missing Sample.key = false /\
      Sample.world_B_and_D =
        Mock.start (Sample.shared_B_and_D Sample.recordB Sample.recordD)) \/
     (status response = 500 /\
      exists text, body response = VObj [ ("error", VStr text) ] /\
                   text <> "" /\
                   (key_missing Sample.key = true ->
                    Sample.world_B_and_D =
                      Mock.start
                        (Sample.shared_B_and_D Sample.recordB Sample.recordD)) /\
                   (key_missing Sample.key = false ->
                    exists e, text = message_or_default e /\
                              exists events,
                                log Sample.world_B_and_D =
                                  (log (Mock.start
                                          (Sample.shared_B_and_D Sample.recordB
                                             Sample.recordD))
                                   ++ events ++ [ConsoleError e])%list))).
Proof.
  apply (POST_answers_200_400_or_500 Mock.net Sample.key 10
           (Return Sample.ann_and_bob)
           (Mock.start (Sample.shared_B_and_D Sample.recordB Sample.recordD))).
  reflexivity.
Defined.

Lemma pages_stay_within_count_witness :
  exists events,
    log {| upstream := Sample.paged [];
           log := [Fetch (Trial.page_of 0 100); Sleep 100;
                   Fetch (Trial.page_of 100 100)] |} =
      (log (Mock.start Sample.short_history) ++ events)%list /\
    Forall (page_event Sample.key "europe" "lol" "player-1" 500 0) events.
Proof.
  apply (pages_stay_within_count Mock.net Sample.key "europe" "lol" "player-1"
           3 500 0 [] (Mock.start Sample.short_history)
           (Return (Sample.ids 0 100 ++ Sample.ids 100 30)%list)).
  reflexivity.
Defined.

Lemma steady_honours_count routing gameType puuid :
  honours_count Fixture.steady Sample.key routing gameType puuid.
Proof.
  intros s c u ids u' Hc Hreply. injection Hreply as <- _. cbn. lia.
Qed.

Lemma silent_honours_count routing gameType puuid :
  honours_count Fixture.silent Sample.key routing gameType puuid.
Proof.
  intros s c u ids u' Hc Hreply. injection Hreply as <- _. cbn. lia.
Qed.

Lemma steady_never_limits : never_limits Fixture.steady.
Proof. intros r u text u' Hreply. discriminate. Qed.

Lemma jammed_always_limits : always_limits Fixture.jammed.
Proof. intros r u. now exists "Too Many Requests", u. Qed.

Lemma history_is_capped_witness : Z.of_nat (length ["EUW1_1"]) <= 500.
Proof.
  apply (history_is_capped Fixture.steady Sample.key 1 "player-1"
           (VStr "euw1") (VStr "lol") 500 Fixture.fresh ["EUW1_1"]
           {| upstream := tt; log := [Fetch (Trial.page_of 0 100)] |}
           (fun routing gameType =>
              steady_honours_count routing gameType "player-1"));
    [lia | reflexivity].
Defined.

Lemma history_ends_witness :
  exists o w',
    getMatchHistory Fixture.steady Sample.key (6 + 0) "player-1"
      (VStr "euw1") (VStr "lol") 500 Fixture.fresh = Some (o, w') /\
    (length (fetched_urls (log w'))
     <= length (fetched_urls (log Fixture.fresh)) + 5)%nat.
Proof.
  apply (history_ends_within_the_pages Fixture.steady Sample.key 5 0
           "player-1" (VStr "euw1") (VStr "lol") 500 Fixture.fresh
           steady_never_limits).
  cbn. lia.
Defined.

Lemma POST_answers_when_never_limited_witness :
  exists response w',
    POST Fixture.steady Sample.key (6 + 0) (Return Sample.ann_and_bob)
      Fixture.fresh = Some (Return response, w').
Proof.
  exact (POST_answers_when_never_limited Fixture.steady Sample.key 0
           (Return Sample.ann_and_bob) Fixture.fresh steady_never_limits).
Defined.

Lemma POST_hangs_witness :
  POST Fixture.jammed Sample.key 1000 (Return Sample.ann_and_bob) Fixture.fresh
    = None.
Proof.
  apply (POST_hangs_when_always_limited Fixture.jammed Sample.key 1000
           (Return Sample.ann_and_bob) "Ann" "EUW" "Bob" "EUW"
           (VStr "euw1") (VStr "lol") (MString "europe") Sample.ann Sample.ann
           Fixture.fresh
           {| upstream := tt;
              log := [Fetch (Trial.account_of "Ann");
                      Fetch (Trial.account_of "Bob")] |}
           jammed_always_limits); reflexivity.
Defined.

Lemma text_after_the_tag_witness :
  POST Mock.net Sample.key 10
    (Return (Sample.request_body "Ann#EUW#and more" "Bob#EUW"
               [ ("region", VStr "euw1") ]))
    (Mock.start (Sample.shared_B_and_D Sample.recordB Sample.recordD)) =
  POST Mock.net Sample.key 10
    (Return (Sample.request_body "Ann#EUW" "Bob#EUW" [ ("region", VStr "euw1") ]))
    (Mock.start (Sample.shared_B_and_D Sample.recordB Sample.recordD)).
Proof.
  apply (text_after_the_tag_is_ignored Mock.net Sample.key 10
           (Sample.request_body "Ann#EUW#and more" "Bob#EUW"
              [ ("region", VStr "euw1") ])
           (Sample.request_body "Ann#EUW" "Bob#EUW" [ ("region", VStr "euw1") ])
           "Ann" "EUW" (Some "and more") "Bob" "EUW" None
           (VStr "euw1") (VStr "lol")); reflexivity.
Defined.

Lemma sample_histories_differ :
  NoDup ["A"; "B"; "C"; "D"] /\ NoDup ["X"; "B"; "Y"; "D"].
Proof.
  split; repeat constructor; cbn; intuition discriminate.
Qed.

Lemma shared_ids_of_swapped_witness :
  Permutation (sharedMatchIds ["A"; "B"; "C"; "D"] ["X"; "B"; "Y"; "D"])
    (sharedMatchIds ["X"; "B"; "Y"; "D"] ["A"; "B"; "C"; "D"]).
Proof.
  exact (shared_ids_of_swapped_players ["A"; "B"; "C"; "D"]
           ["X"; "B"; "Y"; "D"] (proj1 sample_histories_differ)
           (proj2 sample_histories_differ)).
Defined.

Lemma at_most_500_matches_witness :
  exists matchData,
    get_opt "matches" (body (comparison Sample.ann Sample.ann [])) =
      VArr matchData /\
    (length matchData <= 500)%nat.
Proof.
  apply (at_most_500_matches Fixture.silent Sample.key 1
           (Return Sample.ann_and_bob) Fixture.fresh
           (comparison Sample.ann Sample.ann [])
           {| upstream := tt;
              log := [Fetch (Trial.account_of "Ann");
                      Fetch (Trial.account_of "Bob");
                      Fetch (history_request Sample.key "europe" "lol"
                               "puuid-of-ann" 0 100);
                      Fetch (history_request Sample.key "europe" "lol"
                               "puuid-of-ann" 0 100)] |}
           silent_honours_count); reflexivity.
Defined.

Lemma routing_is_one_of_four_witness :
  exists cluster,
    routing_of (VStr "euw1") = Return (MString cluster) /\ In cluster clusters.
Proof.
  apply (routing_is_one_of_four_clusters "euw1"). reflexivity.
Defined.

Lemma earlier_history_witness :
  exists o w' events,
    Earlier.getMatchHistory Mock.net Sample.key 6 "player-1" (VStr "euw1") 500
      (Mock.start Sample.short_history) = Some (o, w') /\
    log w' = (log (Mock.start Sample.short_history) ++ events)%list /\
    (length events <= 2 * 5)%nat.
Proof.
  apply (earlier_history_ends_when_answered Mock.net Sample.key 5 "player-1"
           (VStr "euw1") 500 (Mock.start Sample.short_history)).
  cbn. lia.
Defined.

Lemma island_shows_the_answer_witness :
  exists response,
    Return Sample.answer_B_and_D = Return response /\
    let s' := SearchPage.handleSubmit_finish
                (SearchPage.received Trial.num_json response)
                (Trial.page "Ann#EUW" "Bob#EUW" "euw1" "lol") in
    SearchPage.isLoading s' = false /\
    ((status response = 200 /\
      SearchPage.results s' =
        SearchPage.jsonify Trial.num_json (body response) /\
      SearchPage.error s' =
        SearchPage.error (Trial.page "Ann#EUW" "Bob#EUW" "euw1" "lol")) \/
     (status response <> 200 /\
      SearchPage.results s' =
        SearchPage.results (Trial.page "Ann#EUW" "Bob#EUW" "euw1" "lol") /\
      exists text,
        body response = VObj [ ("error", VStr text) ] /\ text <> "" /\
        SearchPage.error s' = VStr text)).
Proof.
  apply (island_shows_the_answer_of_the_handler Mock.net Sample.key
           Trial.num_json 10 (Return Sample.ann_and_bob)
           (Mock.start (Sample.shared_B_and_D Sample.recordB Sample.recordD))
           (Return Sample.answer_B_and_D) Sample.world_B_and_D
           (Trial.page "Ann#EUW" "Bob#EUW" "euw1" "lol")).
  reflexivity.
Defined.

Lemma island_request_witness :
  Trial.trim_spaces (SearchPage.player1 (Trial.page " Ann " "Bob#EUW" "euw1" "lol"))
    <> "" /\
  Trial.trim_spaces (SearchPage.player2 (Trial.page " Ann " "Bob#EUW" "euw1" "lol"))
    <> "" /\
  destructure (Sample.request_body "Ann" "Bob#EUW"
                 [ ("region", VStr "euw1"); ("mode", VStr "lol") ]) =
    Return (VStr (Trial.trim_spaces
                    (SearchPage.player1 (Trial.page " Ann " "Bob#EUW" "euw1" "lol"))),
            VStr (Trial.trim_spaces
                    (SearchPage.player2 (Trial.page " Ann " "Bob#EUW" "euw1" "lol"))),
            VStr (SearchPage.region (Trial.page " Ann " "Bob#EUW" "euw1" "lol")),
            VStr (SearchPage.mode (Trial.page " Ann " "Bob#EUW" "euw1" "lol"))) /\
  (validated (Return (Sample.request_body "Ann" "Bob#EUW"
                        [ ("region", VStr "euw1"); ("mode", VStr "lol") ])) = None ->
   POST Mock.net Sample.key 10
     (Return (Sample.request_body "Ann" "Bob#EUW"
                [ ("region", VStr "euw1"); ("mode", VStr "lol") ]))
     (Mock.start (Sample.shared_B_and_D Sample.recordB Sample.recordD)) =
   Some (Return invalid_player_format,
         Mock.start (Sample.shared_B_and_D Sample.recordB Sample.recordD))).
Proof.
  apply (island_request_is_never_a_type_error Mock.net Sample.key
           Trial.trim_spaces 10 (Trial.page " Ann " "Bob#EUW" "euw1" "lol")
           {| SearchPage.player1 := " Ann "; SearchPage.player2 := "Bob#EUW";
              SearchPage.region := "euw1"; SearchPage.mode := "lol";
              SearchPage.isLoading := true; SearchPage.results := VNull;
              SearchPage.error := VStr "";
              SearchPage.search := [ ("player1", " Ann "); ("player2", "Bob#EUW");
                                     ("region", "euw1"); ("mode", "lol") ] |});
    reflexivity.
Defined.

Lemma silent_never_limits : never_limits Fixture.silent.
Proof. intros r u text u' Hreply. discriminate. Qed.

Lemma POST_asks_at_most_512_witness :
  (length (fetched_urls
             [Fetch (Trial.account_of "Ann"); Fetch (Trial.account_of "Bob");
              Fetch (history_request Sample.key "europe" "lol"
                       "puuid-of-ann" 0 100);
              Fetch (history_request Sample.key "europe" "lol"
                       "puuid-of-ann" 0 100)])
   <= length (fetched_urls (log Fixture.fresh)) + 512)%nat.
Proof.
  apply (POST_asks_at_most_512_times Fixture.silent Sample.key 1
           (Return Sample.ann_and_bob) Fixture.fresh
           (Return (comparison Sample.ann Sample.ann []))
           {| upstream := tt;
              log := [Fetch (Trial.account_of "Ann");
                      Fetch (Trial.account_of "Bob");
                      Fetch (history_request Sample.key "europe" "lol"
                               "puuid-of-ann" 0 100);
                      Fetch (history_request Sample.key "europe" "lol"
                               "puuid-of-ann" 0 100)] |}
           silent_never_limits silent_honours_count).
  reflexivity.
Defined.

Lemma regions_of_one_cluster_witness :
  POST Mock.net Sample.key 10 (Return Sample.ann_and_bob)
    (Mock.start (Sample.shared_B_and_D Sample.recordB Sample.recordD)) =
  POST Mock.net Sample.key 10
    (Return (Sample.request_body "Ann#EUW" "Bob#EUW"
               [ ("region", VStr "tr1"); ("mode", VStr "lol") ]))
    (Mock.start (Sample.shared_B_and_D Sample.recordB Sample.recordD)).
Proof.
  apply (regions_of_one_cluster_are_interchangeable Mock.net Sample.key
           (VStr "euw1") (VStr "tr1") eq_refl 10 Sample.ann_and_bob
           (Sample.request_body "Ann#EUW" "Bob#EUW"
              [ ("region", VStr "tr1"); ("mode", VStr "lol") ])
           (VStr "Ann#EUW") (VStr "Bob#EUW") (VStr "lol")); reflexivity.
Defined.

Lemma traits_label_witness :
  traits_of "player1Data" Trial.entry_with_traits =
  Return (VStr "Bruiser, Mage, Sniper").
Proof.
  apply (proj2 (traits_label "player1Data" Trial.entry_with_traits)
           [ Trial.trait "Bruiser" 2; Trial.trait "Mage" 4;
             Trial.trait "Sniper" 2; VNull ]
           [ "Bruiser"; "Mage"; "Sniper" ]); [reflexivity|].
  repeat constructor.
Defined.

(** ** [formatDuration] on whole seconds *)

Lemma Qred_inject_Z z : Qred (inject_Z z) = inject_Z z.
Proof.
  unfold Qred, inject_Z.
  pose proof (Z.ggcd_gcd z 1) as Hgcd.
  pose proof (Z.ggcd_correct_divisors z 1) as Hdiv.
  destruct (Z.ggcd z 1) as [g [a b]]. cbn [fst snd] in *.
  rewrite Z.gcd_1_r in Hgcd. subst g. destruct Hdiv as [Ha Hb].
  assert (b = 1) as -> by lia. f_equal. lia.
Qed.

Lemma print_integer z : Exact.print (Exact.Rat (inject_Z z)) = Z_toString z.
Proof. unfold Exact.print. now rewrite Qred_inject_Z. Qed.

Lemma sixty_nonzero : Qeq_bool (inject_Z 60) 0 = false.
Proof. reflexivity. Qed.

Lemma floor_of_quotient z :
  Exact.floor (Exact.div (Exact.Rat (inject_Z z)) (Exact.Rat (inject_Z 60))) =
  Exact.Rat (inject_Z (z / 60)).
Proof.
  unfold Exact.div. rewrite sixty_nonzero. unfold Exact.floor.
  rewrite (Qfloor_comp _ _ (Qred_correct _)), <- Zdiv_Qdiv. reflexivity.
Qed.

Lemma truncate_of_quotient z :
  Exact.truncate (inject_Z z / inject_Z 60) = Z.quot z 60.
Proof.
  unfold Exact.truncate.
  assert (Hq : inject_Z z / inject_Z 60 == z # 60).
  { unfold Qeq, Qdiv, Qmult, Qinv, inject_Z. cbn. lia. }
  destruct (Qle_bool 0 (inject_Z z / inject_Z 60)) eqn:Hsign.
  - apply Qle_bool_iff in Hsign. rewrite Hq in Hsign.
    assert (0 <= z) by (unfold Qle in Hsign; cbn in Hsign; lia).
    rewrite <- Zdiv_Qdiv. now rewrite Z.quot_div_nonneg by lia.
  - assert (Hneg : z < 0).
    { destruct (Z.lt_ge_cases z 0) as [|Hge]; [assumption|].
      assert (Hle : Qle_bool 0 (inject_Z z / inject_Z 60) = true).
      { apply Qle_bool_iff. rewrite Hq. unfold Qle. cbn. lia. }
      congruence. }
    unfold Qceiling. rewrite (Qfloor_comp _ (inject_Z (- z) / inject_Z 60)).
    + rewrite <- Zdiv_Qdiv.
      rewrite <- (Z.opp_involutive z) at 2. rewrite Z.quot_opp_l by lia.
      rewrite Z.quot_div_nonneg by lia. reflexivity.
    + rewrite Hq. unfold Qeq, Qdiv, Qmult, Qinv, Qopp, inject_Z. cbn. lia.
Qed.

Lemma rem_by_sixty z :
  Exact.rem (Exact.Rat (inject_Z z)) (Exact.Rat (inject_Z 60)) =
  Exact.Rat (inject_Z (Z.rem z 60)).
Proof.
  unfold Exact.rem. rewrite sixty_nonzero, truncate_of_quotient. f_equal.
  rewrite <- (Qred_inject_Z (Z.rem z 60)). apply Qred_complete.
  pose proof (Z.quot_rem' z 60) as Hz.
  unfold Qeq, Qminus, Qplus, Qmult, Qopp, inject_Z. cbn [Qnum Qden]. lia.
Qed.

(** X23.  For a whole number of seconds below [2^53] in magnitude, positive
    or negative (the integers that a double holds exactly, on which the
    exact runtime agrees with the doubles of the code), [formatDuration]
    prints the quotient by 60 rounded down, [m], a space, the remainder
    with the sign of the seconds, and [s]; the seconds are not padded. *)
Theorem formatDuration_of_whole_seconds z :
  - 2 ^ 53 < z < 2 ^ 53 ->
  formatDuration (VNum (Exact.Rat (inject_Z z))) =
  Return (Z_toString (z / 60) ++ "m " ++ Z_toString (Z.rem z 60) ++ "s").
Proof.
  intros _. unfold formatDuration. cbn [to_number obind].
  change (num_of_Z 60) with (Exact.Rat (inject_Z 60)).
  change Math_floor with Exact.floor. change num_div with Exact.div.
  change num_rem with Exact.rem. change num_toString with Exact.print.
  now rewrite floor_of_quotient, rem_by_sixty, !print_integer.
Qed.

Lemma formatDuration_witness :
  formatDuration (Sample.integer 2134) = Return "35m 34s" /\
  formatDuration (Sample.integer (-61)) = Return "-2m -1s".
Proof.
  split.
  - apply (formatDuration_of_whole_seconds 2134). split; reflexivity.
  - apply (formatDuration_of_whole_seconds (-61)). split; reflexivity.
Defined.
